(** * DataDriftDetector: a shallow embedding of data_drift_detector.py

    The development follows the source file top-down:
    - [Py]       : exceptions and the error monad the methods run in;
    - [Frame]    : the pandas operations the detector uses (column access and
                   assignment, [concat], [get_dummies], row masks, [iloc]);
    - [Detector] : [__init__] and the attributes it sets;
    - [Scipy]    : [jensenshannon] and [gaussian_kde] in exact arithmetic;
    - [Drift]    : [calculate_drift] in exact arithmetic;
    - [Efficacy] : [compare_ml_efficacy], [_ml_data_prep], the two model
                   builders and the two evaluators;
    - [Examples] : concrete interpreters and data;
    - [Binary64] : float64 arithmetic, numpy's sums and the C library;
    - [Scipy64]  : [jensenshannon] and [gaussian_kde] in float64;
    - [Drift64]  : [calculate_drift] in float64.
    The facts and the theorems about these definitions come after them.

    [calculate_drift] is read twice. The exact reading, [Scipy] and [Drift],
    takes a numeric cell [VNum q] as the rational [q] and computes the
    distances in [R]. It carries the statements that are algebra: the
    exchange of the two frames, identical frames, disjoint categories, the
    order of the rows. It does not say what the code does where rounding,
    underflow or NaN decide. The float64 reading, [Binary64], [Scipy64] and
    [Drift64], takes the cell as the float64 nearest to [q] and follows the
    operations of numpy and scipy one by one. It carries the statements
    about which calls raise, about distances that are NaN and about the
    order of the report. The C library, Python's [sorted], the encoders, the
    model search and the sklearn metrics are external to the repository and
    enter as type classes. *)

From Stdlib Require Import List String Ascii Bool Arith ZArith QArith Lia.
From Stdlib Require Import Permutation Sorted SetoidList Morphisms.
From Stdlib Require OrderedTypeEx.
From Stdlib Require Import Reals Qreals Lra.
From Stdlib Require DecimalString.
From Stdlib Require Floats.
Import ListNotations.
Open Scope string_scope.
Open Scope list_scope.

(* ================================================================== *)
(** * Exceptions and the error monad *)
(* ================================================================== *)

Module Py.

(** A raised exception: its class name and its message. *)
Record exn := Raise { exn_class : string; exn_msg : string }.

Definition result (A : Type) : Type := (exn + A)%type.

Definition Ok {A} (a : A) : result A := inr a.
Definition Err {A} (e : exn) : result A := inl e.

Definition bind {A B} (m : result A) (k : A -> result B) : result B :=
  match m with
  | inl e => inl e
  | inr a => k a
  end.

(** [assert c, msg] *)
Definition assert (c : bool) (msg : string) : result unit :=
  if c then Ok tt else Err (Raise "AssertionError" msg).

Definition is_ok {A} (m : result A) : bool :=
  match m with inr _ => true | inl _ => false end.

(** Monadic map over a list, left to right, stopping at the first error. *)
Fixpoint mapM {A B} (f : A -> result B) (l : list A) : result (list B) :=
  match l with
  | [] => Ok []
  | x :: xs =>
      bind (f x) (fun y => bind (mapM f xs) (fun ys => Ok (y :: ys)))
  end.

End Py.

Import Py.

Declare Scope py_scope.
Delimit Scope py_scope with py.
Notation "x <- m ;; k" := (Py.bind m (fun x => k))
  (at level 61, m at next level, right associativity) : py_scope.
Notation "m ;;; k" := (Py.bind m (fun _ => k))
  (at level 61, right associativity) : py_scope.
Open Scope py_scope.

(* ================================================================== *)
(** * Data frames *)
(* ================================================================== *)

Module Frame.

(** A cell. Strings are the cells of [object] columns, [VNum] the finite
    numbers, [VNaN] the missing value pandas fills in. *)
Inductive value :=
| VStr (s : string)
| VNum (q : Q)
| VNaN.

(** Storage types. [num_types] of [__init__] names five of them. *)
Inductive dtype :=
| object | float64 | float32 | int32 | int64 | uint8
| other_dtype (name : string).

Definition dtype_eqb (a b : dtype) : bool :=
  match a, b with
  | object, object | float64, float64 | float32, float32
  | int32, int32 | int64, int64 | uint8, uint8 => true
  | other_dtype x, other_dtype y => String.eqb x y
  | _, _ => false
  end.

Record Series := mkSeries { s_dtype : dtype; s_values : list value }.

(** A frame is its columns, in order. *)
Definition DataFrame := list (string * Series).

Definition columns (df : DataFrame) : list string := map fst df.
Definition dtypes (df : DataFrame) : list dtype :=
  map (fun c => s_dtype (snd c)) df.

(** Names and storage types together. *)
Definition schema (df : DataFrame) : list (string * dtype) :=
  map (fun col => (fst col, s_dtype (snd col))) df.

(** [len(df)]; a frame without columns is taken to have no rows. *)
Definition len (df : DataFrame) : nat :=
  match df with
  | [] => O
  | (_, s) :: _ => List.length (s_values s)
  end.

Definition mem (c : string) (l : list string) : bool :=
  existsb (String.eqb c) l.

(** [df[c]]: [KeyError] when the column is absent. *)
Fixpoint lookup (c : string) (df : DataFrame) : option Series :=
  match df with
  | [] => None
  | (n, s) :: rest => if String.eqb n c then Some s else lookup c rest
  end.

Definition getitem (df : DataFrame) (c : string) : result Series :=
  match lookup c df with
  | Some s => Ok s
  | None => Err (Raise "KeyError" c)
  end.

(** [df[cols]] for a list of names. *)
Definition getitems (df : DataFrame) (cols : list string)
  : result DataFrame :=
  mapM (fun c => s <- getitem df c ;; Ok (c, s)) cols.

(** [df[c] = s]: replaces the column in place when it exists, appends it
    otherwise. *)
Fixpoint setitem (df : DataFrame) (c : string) (s : Series) : DataFrame :=
  match df with
  | [] => [(c, s)]
  | (n, s0) :: rest =>
      if String.eqb n c then (n, s) :: rest
      else (n, s0) :: setitem rest c s
  end.

(** [df[c] = v] with a scalar string [v]. *)
Definition set_scalar (df : DataFrame) (c : string) (v : string)
  : DataFrame :=
  setitem df c (mkSeries object (repeat (VStr v) (len df))).

(** [df[cols] = new] where [new] has one column per name of [cols]; the
    columns are taken by position. *)
Fixpoint setitems (df : DataFrame) (cols : list string) (new : DataFrame)
  : result DataFrame :=
  match cols, new with
  | [], [] => Ok df
  | c :: cs, (_, s) :: ns =>
      match lookup c df with
      | Some _ => setitems (setitem df c s) cs ns
      | None => Err (Raise "KeyError" c)
      end
  | _, _ => Err (Raise "ValueError" "Columns must be same length as key")
  end.

(** [df.drop(c, axis=1)] *)
Definition drop (df : DataFrame) (c : string) : result DataFrame :=
  match lookup c df with
  | Some _ => Ok (filter (fun col => negb (String.eqb (fst col) c)) df)
  | None => Err (Raise "KeyError" c)
  end.

(** Rows selected by a boolean mask. *)
Fixpoint select {A} (mask : list bool) (l : list A) : list A :=
  match mask, l with
  | b :: ms, x :: xs => if b then x :: select ms xs else select ms xs
  | _, _ => []
  end.

Definition map_values (f : list value -> list value) (df : DataFrame)
  : DataFrame :=
  map (fun col => (fst col,
                   mkSeries (s_dtype (snd col)) (f (s_values (snd col)))))
      df.

Definition mask_rows (mask : list bool) (df : DataFrame) : DataFrame :=
  map_values (select mask) df.

(** ** Order and equality of cells *)

(** Numbers sort by value, strings by code point; a number sorts before a
    string and the missing value last. Only columns of one kind reach the
    sorting operations after normalisation. *)
Definition value_compare (a b : value) : comparison :=
  match a, b with
  | VNum x, VNum y => Qcompare x y
  | VNum _, _ => Lt
  | VStr _, VNum _ => Gt
  | VStr x, VStr y => String.compare x y
  | VStr _, VNaN => Lt
  | VNaN, VNaN => Eq
  | VNaN, _ => Gt
  end.

Definition value_eqb (a b : value) : bool :=
  match value_compare a b with Eq => true | _ => false end.

(** The order as relations. *)
Definition veq (a b : value) : Prop := value_compare a b = Eq.

Definition is_nan (v : value) : bool :=
  match v with VNaN => true | _ => false end.

Fixpoint insert_unique (v : value) (l : list value) : list value :=
  match l with
  | [] => [v]
  | x :: xs =>
      match value_compare v x with
      | Lt => v :: l
      | Eq => l
      | Gt => x :: insert_unique v xs
      end
  end.

(** The distinct non-missing cells of a column, sorted: the groups of
    [groupby], the levels of [get_dummies], the count of [nunique]. *)
Definition categories (l : list value) : list value :=
  fold_right insert_unique [] (filter (fun v => negb (is_nan v)) l).

(** [s.nunique()] *)
Definition nunique (s : Series) : nat := List.length (categories (s_values s)).

(** ** Conversions *)

(** How Python prints a number of a given storage type and how it reads a
    number from a string are left to the interpreter. *)
Class Conversions := {
  repr_num : dtype -> Q -> string;
  float_of_string : string -> option Q
}.

Section WithConversions.
Context `{Conversions}.

Definition str_of_value (dt : dtype) (v : value) : string :=
  match v with
  | VStr s => s
  | VNum q => repr_num dt q
  | VNaN => "nan"
  end.

(** [s.astype(str)] *)
Definition series_astype_str (s : Series) : Series :=
  mkSeries object
    (map (fun v => VStr (str_of_value (s_dtype s) v)) (s_values s)).

(** [df.astype(str)] *)
Definition astype_str (df : DataFrame) : DataFrame :=
  map (fun col => (fst col, series_astype_str (snd col))) df.

Definition float_of_value (v : value) : result value :=
  match v with
  | VStr s =>
      match float_of_string s with
      | Some q => Ok (VNum q)
      | None =>
          Err (Raise "ValueError"
                 ("could not convert string to float: " ++ s)%string)
      end
  | VNum q => Ok (VNum q)
  | VNaN => Ok VNaN
  end.

(** [s.astype(float)] *)
Definition series_astype_float (s : Series) : result Series :=
  vs <- mapM float_of_value (s_values s) ;;
  Ok (mkSeries float64 vs).

(** [df.astype(float)] *)
Definition astype_float (df : DataFrame) : result DataFrame :=
  mapM (fun col => s <- series_astype_float (snd col) ;; Ok (fst col, s))
       df.

(** ** [pd.get_dummies(data=df, columns=cols)] *)

(** The indicator columns of one column: one per level, named
    [col_level], in the order of the sorted levels. *)
Definition dummies (c : string) (s : Series) : DataFrame :=
  map (fun level =>
         ((c ++ "_" ++ str_of_value (s_dtype s) level)%string,
          mkSeries uint8
            (map (fun v => if value_eqb v level
                           then VNum 1 else VNum 0)
                 (s_values s))))
      (categories (s_values s)).

(** The columns not encoded come first, in their order, then the
    indicator columns of each encoded column. *)
Definition get_dummies (df : DataFrame) (cols : list string)
  : result DataFrame :=
  data_to_encode <- getitems df cols ;;
  Ok (filter (fun col => negb (mem (fst col) cols)) df
      ++ flat_map (fun col => dummies (fst col) (snd col))
                  data_to_encode).

End WithConversions.

(** ** [pd.concat(dfs)] along the rows *)

(** Names in order of first appearance. *)
Definition add_name (acc : list string) (c : string) : list string :=
  if mem c acc then acc else acc ++ [c].

Definition first_occurrences (names : list string) : list string :=
  fold_left add_name names [].

Definition union_columns (dfs : list DataFrame) : list string :=
  first_occurrences (flat_map columns dfs).

Definition column_or_nan (c : string) (df : DataFrame) : list value :=
  match lookup c df with
  | Some s => s_values s
  | None => repeat VNaN (len df)
  end.

Fixpoint first_dtype (c : string) (dfs : list DataFrame) : dtype :=
  match dfs with
  | [] => object
  | df :: rest =>
      match lookup c df with
      | Some s => s_dtype s
      | None => first_dtype c rest
      end
  end.

(** The columns are the union of the frames' columns; a frame lacking a
    column contributes missing values. *)
Definition concat (dfs : list DataFrame) : DataFrame :=
  map (fun c => (c, mkSeries (first_dtype c dfs)
                      (flat_map (column_or_nan c) dfs)))
      (union_columns dfs).

(** ** Positional row access *)

(** The bound of a Python slice, counted from the end when negative. *)
Definition slice_bound (n : Z) (length : nat) : nat :=
  if (n <? 0)%Z then Z.to_nat (Z.max 0 (Z.of_nat length + n))
  else Z.to_nat n.

(** [df.iloc[:n]] and [df.iloc[n:]] *)
Definition iloc_to (df : DataFrame) (n : Z) : DataFrame :=
  map_values (firstn (slice_bound n (len df))) df.
Definition iloc_from (df : DataFrame) (n : Z) : DataFrame :=
  map_values (skipn (slice_bound n (len df))) df.

(** Rows taken at the given positions. *)
Definition take (idx : list nat) (df : DataFrame) : DataFrame :=
  map_values (fun vs => map (fun i => nth i vs VNaN) idx) df.

End Frame.

Import Frame.

(* ================================================================== *)
(** * The detector object *)
(* ================================================================== *)

Module Detector.

(** The attributes [__init__] sets. *)
Record t := mk {
  df_prior : DataFrame;
  df_post : DataFrame;
  categorical_columns : list string;
  numeric_columns : list string
}.

(** [a == b] on two indexes: elementwise, and an error on indexes of
    different lengths. *)
Fixpoint eq_elementwise {A} (eqb : A -> A -> bool) (a b : list A)
  : result (list bool) :=
  match a, b with
  | [], [] => Ok []
  | x :: xs, y :: ys =>
      r <- eq_elementwise eqb xs ys ;; Ok (eqb x y :: r)
  | _, _ => Err (Raise "ValueError" "Lengths must match to compare")
  end.

Definition all (l : list bool) : bool := forallb (fun b => b) l.

Definition num_types : list dtype := [float64; float32; int32; int64; uint8].

Section WithConversions.
Context `{Conversions}.

(** [df[cols] = df[cols].astype(str)] *)
Definition cast_str (df : DataFrame) (cols : list string)
  : result DataFrame :=
  sub <- getitems df cols ;;
  setitems df cols (astype_str sub).

(** [df[cols] = df[cols].astype(float)] *)
Definition cast_float (df : DataFrame) (cols : list string)
  : result DataFrame :=
  sub <- getitems df cols ;;
  sub' <- astype_float sub ;;
  setitems df cols sub'.

(** Lines 74-77: the two schema assertions. *)
Definition schema_checks (df_prior df_post : DataFrame) : result unit :=
  same_names <- eq_elementwise String.eqb
                  (columns df_prior) (columns df_post) ;;
  assert (all same_names)
    "df_prior and df_post should have the same column names" ;;;
  same_types <- eq_elementwise dtype_eqb
                  (dtypes df_prior) (dtypes df_post) ;;
  assert (all same_types)
    "df_prior and df_post should have the same column types".

(** The [isinstance] assertions of lines 70-73 and 78-81 hold by typing. *)
Definition __init__ (df_prior df_post : DataFrame)
           (categorical_columns numeric_columns : option (list string))
  : result t :=
  schema_checks df_prior df_post ;;;
  let df_prior_ := df_prior in
  let df_post_ := df_post in
  let categorical_columns :=
    match categorical_columns with
    | None =>
        map fst (filter (fun col => dtype_eqb (s_dtype (snd col)) object)
                        df_prior_)
    | Some l => l
    end in
  df_prior_ <- cast_str df_prior_ categorical_columns ;;
  df_post_ <- cast_str df_post_ categorical_columns ;;
  let numeric_columns :=
    match numeric_columns with
    | None =>
        map fst (filter (fun col =>
                           existsb (dtype_eqb (s_dtype (snd col)))
                                   num_types)
                        df_prior_)
    | Some l => l
    end in
  df_prior_ <- cast_float df_prior_ numeric_columns ;;
  df_post_ <- cast_float df_post_ numeric_columns ;;
  Ok (mk df_prior_ df_post_ categorical_columns numeric_columns).

End WithConversions.

End Detector.

Import Detector.

(* ================================================================== *)
(** * scipy in exact arithmetic: Jensen-Shannon distance and Gaussian
      kernel density *)
(* ================================================================== *)

Module Scipy.

Open Scope R_scope.

Definition Rsum (l : list R) : R := fold_right Rplus 0 l.

Definition nonneg (l : list R) : Prop := Forall (fun x => 0 <= x) l.

Fixpoint map2 {A B C} (f : A -> B -> C) (a : list A) (b : list B)
  : list C :=
  match a, b with
  | x :: xs, y :: ys => f x y :: map2 f xs ys
  | _, _ => []
  end.

(** [scipy.special.rel_entr x y] is [x * log (x / y)] for positive
    arguments and [0] at [x = 0]. Its infinite value needs [y <= 0 < x] or
    [x < 0], which the mean of two non-negative vectors never gives. *)
Definition rel_entr (x y : R) : R :=
  if Rlt_dec 0 x then x * ln (x / y) else 0.

(** [p / np.sum(p)] *)
Definition normalize (p : list R) : list R :=
  map (fun x => x / Rsum p) p.

Definition midpoint (a b : R) : R := (a + b) / 2.

(** [scipy.spatial.distance.jensenshannon p q], base e. *)
Definition jensenshannon (p q : list R) : R :=
  let p := normalize p in
  let q := normalize q in
  let m := map2 midpoint p q in
  let left := map2 rel_entr p m in
  let right := map2 rel_entr q m in
  let js := Rsum left + Rsum right in
  sqrt (js / 2).

(** A fitted [scipy.stats.gaussian_kde] of a one-dimensional sample. *)
Record kde := mkKde { dataset : list R; covariance : R }.

Definition mean (l : list R) : R := Rsum l / INR (List.length l).

(** [np.cov(dataset, bias=False)] without rounding: zero for every
    constant sample. What numpy computes is [Scipy64.data_covariance]. *)
Definition sample_variance (l : list R) : R :=
  Rsum (map (fun x => (x - mean l) * (x - mean l)) l)
  / (INR (List.length l) - 1).

(** Scott's rule for one dimension: [n ** (-1/5)]. *)
Definition scotts_factor (n : nat) : R := Rpower (INR n) (- (1 / 5)).

(** The sample as an array of floats: finite numbers only. *)
Definition to_float (v : value) : result R :=
  match v with
  | VNum q => Ok (Q2R q)
  | VNaN => Err (Raise "ValueError" "array must not contain infs or NaNs")
  | VStr s => Err (Raise "TypeError" "cannot perform reduce on strings")
  end.

(** [gaussian_kde(dataset)]: a sample of fewer than two elements is
    refused, and so is one whose covariance is not positive (the Cholesky
    factorisation fails). The covariance is the exact one here; which
    samples the code refuses is said by [Scipy64.gaussian_kde]. *)
Definition gaussian_kde (values : list value) : result kde :=
  if (List.length values <=? 1)%nat then
    Err (Raise "ValueError" "`dataset` input should have multiple elements.")
  else
    data <- mapM to_float values ;;
    let data_covariance := sample_variance data in
    if Rlt_dec 0 data_covariance then
      let factor := scotts_factor (List.length data) in
      Ok (mkKde data (data_covariance * (factor * factor)))
    else
      Err (Raise "LinAlgError" "singular data covariance matrix").

(** [kde(x)]: the mean of the Gaussian kernels centred at the sample, a
    positive real. In float64 a kernel can underflow to zero:
    [Scipy64.evaluate]. *)
Definition evaluate (k : kde) (x : R) : R :=
  Rsum (map (fun xi => exp (- ((x - xi) * (x - xi)) / (2 * covariance k)))
            (dataset k))
  / (INR (List.length (dataset k)) * sqrt (2 * PI * covariance k)).

(** [np.linspace(start, stop, num)] *)
Definition linspace (start stop : R) (num : nat) : list R :=
  map (fun i => start + INR i * ((stop - start) / (INR num - 1)))
      (seq 0 num).

#[global] Arguments jensenshannon : simpl never.
#[global] Arguments linspace : simpl never.
#[global] Arguments evaluate : simpl never.
#[global] Arguments gaussian_kde : simpl never.

End Scipy.

(* ================================================================== *)
(** * calculate_drift in exact arithmetic *)
(* ================================================================== *)

Module Drift.

Import Scipy.
Open Scope R_scope.

(** A Python dict from column name to distance, in insertion order. *)
Definition dict := list (string * R).

(** [d.update({k: v})] *)
Fixpoint update (d : dict) (k : string) (v : R) : dict :=
  match d with
  | [] => [(k, v)]
  | (k0, v0) :: rest =>
      if String.eqb k0 k then (k0, v) :: rest
      else (k0, v0) :: update rest k v
  end.

(** [sorted(items, key=lambda x: x[1], reverse=True)] on real keys: the
    sort is stable, also when reversed. Float keys, which can be NaN, are
    sorted by [Drift64.sorted_reverse]. *)
Fixpoint insert_desc (x : string * R) (l : list (string * R))
  : list (string * R) :=
  match l with
  | [] => [x]
  | y :: ys =>
      if Rlt_dec (snd x) (snd y) then y :: insert_desc x ys
      else x :: l
  end.

Definition sorted_desc (items : list (string * R)) : list (string * R) :=
  fold_right insert_desc [] items.

(** One side of the returned report: the dict it starts as, or the list
    [sorted] turns it into. *)
Inductive ranking :=
| PyDict (d : dict)
| PyList (l : list (string * R)).

Definition entries (r : ranking) : list (string * R) :=
  match r with PyDict d => d | PyList l => l end.

Record report := mkReport { categorical : ranking; numerical : ranking }.

Definition STEPS : nat := 100.

(** ** Categorical columns *)

(** Group size of a category in a column. *)
Definition size (c : value) (col : list value) : nat :=
  List.length (filter (value_eqb c) col).

(** One column of the pivot table divided by its sum, missing groups
    filled with 0. The column exists when the source has a group. *)
Definition probability_array (source : string) (index col : list value)
  : result (list R) :=
  let sizes := map (fun c => size c col) index in
  let total := fold_right Nat.add O sizes in
  if (total =? 0)%nat then Err (Raise "KeyError" source)
  else Ok (map (fun k => INR k / INR total) sizes).

Definition categorical_distance (self : Detector.t) (col : string)
  : result R :=
  col_prior <- getitem (df_prior self) col ;;
  col_post <- getitem (df_post self) col ;;
  if String.eqb col "_source" then
    Err (Raise "ValueError" "cannot insert _source, already exists")
  else
    let index := categories (s_values col_prior ++ s_values col_post) in
    arr_prior <- probability_array "prior" index (s_values col_prior) ;;
    arr_post <- probability_array "post" index (s_values col_post) ;;
    Ok (jensenshannon arr_prior arr_post).

(** ** Numeric columns *)

Definition Rmin_list (l : list R) : R :=
  match l with
  | [] => 0
  | x :: xs => fold_left Rmin xs x
  end.

Definition Rmax_list (l : list R) : R :=
  match l with
  | [] => 0
  | x :: xs => fold_left Rmax xs x
  end.

(** The distance of the two exact densities, a real number. The float64
    the code returns, which can be NaN, is [Drift64.numeric_distance]. *)
Definition numeric_distance (self : Detector.t) (col : string)
  : result R :=
  col_prior <- getitem (df_prior self) col ;;
  col_post <- getitem (df_post self) col ;;
  kde_prior <- gaussian_kde (s_values col_prior) ;;
  kde_post <- gaussian_kde (s_values col_post) ;;
  let min_ := Rmin (Rmin_list (dataset kde_prior))
                   (Rmin_list (dataset kde_post)) in
  let max_ := Rmax (Rmax_list (dataset kde_prior))
                   (Rmax_list (dataset kde_post)) in
  let range_ := linspace min_ max_ STEPS in
  let arr_prior_ := map (evaluate kde_prior) range_ in
  let arr_post_ := map (evaluate kde_post) range_ in
  let arr_prior := map (fun x => x / Rsum arr_prior_) arr_prior_ in
  let arr_post := map (fun x => x / Rsum arr_post_) arr_post_ in
  Ok (jensenshannon arr_prior arr_post).

(** ** The two loops and the ranking *)

Fixpoint distances (f : string -> result R) (cols : list string)
         (res : dict) : result dict :=
  match cols with
  | [] => Ok res
  | col :: rest =>
      d <- f col ;;
      distances f rest (update res col d)
  end.

Definition rank (res : dict) : ranking :=
  if (0 <? List.length res)%nat then PyList (sorted_desc res)
  else PyDict res.

Definition calculate_drift (self : Detector.t) : result report :=
  cat_res <- distances (categorical_distance self)
               (categorical_columns self) [] ;;
  num_res <- distances (numeric_distance self)
               (numeric_columns self) [] ;;
  let num_res := rank num_res in
  let cat_res := rank cat_res in
  Ok (mkReport cat_res num_res).

(** ** Vocabulary of the statements about the report *)

(** Sorted by descending distance. *)
Definition descending (l : list (string * R)) : Prop :=
  StronglySorted (fun a b => snd b <= snd a) l.

Definition has_score (s : R) (x : string * R) : bool :=
  if Req_dec_T (snd x) s then true else false.

(** Entries of equal distance come in [l] in the order they have in
    [items]. *)
Definition stable (items l : list (string * R)) : Prop :=
  forall s, filter (has_score s) l = filter (has_score s) items.

(** [side] is what the loop over [cols] with distance [f] is ranked
    into: an empty dict when there is no column, otherwise the list of
    the distinct columns, sorted by descending distance, ties in the order
    of [cols]. *)
Definition ranked (f : string -> result R) (cols : list string)
           (side : ranking) : Prop :=
  exists items,
    map fst items = first_occurrences cols /\
    (forall c d, In (c, d) items -> f c = inr d) /\
    match cols with
    | [] => side = PyDict []
    | _ :: _ =>
        exists l, side = PyList l /\ Permutation l items /\
                  descending l /\ stable items l
    end.



(** The exception classes [calculate_drift] can raise. *)
Definition drift_error (e : exn) : Prop :=
  In (exn_class e) ["KeyError"; "ValueError"; "TypeError"; "LinAlgError"].

(** Number of distinct values of a column of a frame. *)
Definition distinct_values (df : DataFrame) (col : string) : nat :=
  match lookup col df with
  | Some s => nunique s
  | None => O
  end.

End Drift.

(* ================================================================== *)
(** * compare_ml_efficacy and its helpers *)
(* ================================================================== *)

Module Efficacy.

(** ** The ambient random generator *)

(** [shuffle(df_post)] is called without [random_state], so it draws from
    numpy's global generator. Its state is the tape of raw draws to come. *)
Definition rng := list nat.

(** A draw in [0, i]. *)
Definition random_interval (i : nat) (g : rng) : nat * rng :=
  match g with
  | [] => (O, [])
  | r :: g' => (r mod (S i), g')
  end.

Fixpoint set_nth (l : list nat) (i : nat) (v : nat) : list nat :=
  match l, i with
  | [], _ => []
  | _ :: xs, O => v :: xs
  | x :: xs, S i' => x :: set_nth xs i' v
  end.

(** [x[i], x[j] = x[j], x[i]] *)
Definition swap (x : list nat) (i j : nat) : list nat :=
  set_nth (set_nth x i (nth j x O)) j (nth i x O).

(** [RandomState.shuffle]: for [i] from [n - 1] down to [1], swap position
    [i] with a drawn position [j <= i]. *)
Fixpoint fisher_yates (i : nat) (x : list nat) (g : rng) : list nat * rng :=
  match i with
  | O => (x, g)
  | S i' =>
      let (j, g') := random_interval i g in
      fisher_yates i' (swap x i j) g'
  end.

(** [sklearn.utils.shuffle(df)] with the global generator. *)
Definition shuffle (df : DataFrame) (g : rng) : DataFrame * rng :=
  let n_samples := len df in
  let (indices, g') := fisher_yates (pred n_samples) (seq 0 n_samples) g in
  (take indices df, g').

(** [int(q)]: truncation towards zero. *)
Definition int (q : Q) : Z := Z.quot (Qnum q) (Zpos (Qden q)).

(** ** External collaborators *)

(** [category_encoders.CatBoostEncoder(cols, random_state)]: fitting on a
    frame and a target yields the fitted encoder and the encoded frame; a
    fitted encoder transforms another frame. *)
Class TargetEncoder := {
  encoder : Type;
  fit_transform : list string -> option Z -> DataFrame -> Series
                  -> result (encoder * DataFrame);
  transform : encoder -> DataFrame -> Series -> result DataFrame
}.

(** [RandomizedSearchCV] over a random forest, and the sklearn metrics. *)
Class Learner := {
  model : Type;
  grid : Type;
  fit_search : forall (classifier : bool) (random_state : option Z)
                      (param_grid : grid) (n_iter cv : nat) (ambient : rng)
                      (X : DataFrame) (y : Series), result model;
  predict : model -> DataFrame -> result (list value);
  mean_absolute_error : list value -> list value -> result R;
  r2_score : list value -> list value -> result R;
  precision_score : list value -> list value -> result R;
  recall_score : list value -> list value -> result R;
  accuracy_score : list value -> list value -> result R;
  f1_score : list value -> list value -> result R;
  roc_auc_score : list value -> list value -> result R
}.

(** ** Reports *)

Inductive cell := Num (r : R) | NA.

Inductive row_index :=
| Lineage (data_type : string)
| ClassLineage (class_label : string) (data_type : string).

Record row := mkRow { index : row_index; cells : list (string * cell) }.

Definition ml_report_t := list row.

Section WithExternals.
Context `{Conversions} `{TargetEncoder} `{Learner}.

(** ** The object *)

(** Attributes assigned at lines 484-489. *)
Record params := mkParams {
  target_column : string;
  train_size : Q;
  random_state : option Z;
  cv : nat;
  n_iter : nat;
  param_grid : grid
}.

Record bundle := mkBundle {
  X_train_prior : DataFrame;
  y_train_prior : Series;
  X_test_prior : DataFrame;
  y_test : Series;
  X_train_post : DataFrame;
  y_train_post : Series;
  X_test_post : DataFrame
}.

(** [self]: the detector and the attributes [compare_ml_efficacy] and
    its helpers add; an attribute not yet assigned is [None]. *)
Record obj := mkObj {
  detector : Detector.t;
  self_params : option params;
  self_OHE_columns : option (list string);
  self_high_cardinality_columns : option (list string);
  self_test_data : option (option DataFrame);
  self_bundle : option bundle;
  model_prior : option model;
  model_post : option model;
  ml_report : option ml_report_t
}.

Definition new (d : Detector.t) : obj :=
  mkObj d None None None None None None None None.

Definition set_params (self : obj) (p : params) : obj :=
  mkObj (detector self) (Some p) (self_OHE_columns self)
        (self_high_cardinality_columns self) (self_test_data self)
        (self_bundle self) (model_prior self) (model_post self)
        (ml_report self).

Definition set_encoding (self : obj) (ohe hc : list string) : obj :=
  mkObj (detector self) (self_params self) (Some ohe) (Some hc)
        (self_test_data self) (self_bundle self) (model_prior self)
        (model_post self) (ml_report self).

Definition set_test_data (self : obj) (t : option DataFrame) : obj :=
  mkObj (detector self) (self_params self) (self_OHE_columns self)
        (self_high_cardinality_columns self) (Some t)
        (self_bundle self) (model_prior self) (model_post self)
        (ml_report self).

Definition set_bundle (self : obj) (b : bundle) : obj :=
  mkObj (detector self) (self_params self) (self_OHE_columns self)
        (self_high_cardinality_columns self) (self_test_data self)
        (Some b) (model_prior self) (model_post self) (ml_report self).

Definition set_models (self : obj) (mp mq : model) : obj :=
  mkObj (detector self) (self_params self) (self_OHE_columns self)
        (self_high_cardinality_columns self) (self_test_data self)
        (self_bundle self) (Some mp) (Some mq) (ml_report self).

Definition set_ml_report (self : obj) (r : ml_report_t) : obj :=
  mkObj (detector self) (self_params self) (self_OHE_columns self)
        (self_high_cardinality_columns self) (self_test_data self)
        (self_bundle self) (model_prior self) (model_post self) (Some r).

(** [self.name] *)
Definition getattr {A} (name : string) (v : option A) : result A :=
  match v with
  | Some a => Ok a
  | None =>
      Err (Raise "AttributeError"
             ("'DataDriftDetector' object has no attribute '"
                ++ name ++ "'")%string)
  end.

(** ** _ml_data_prep *)

(** [df[df.source == tag].drop('source', axis=1)] *)
Definition partition (df : DataFrame) (tag : string)
  : result DataFrame :=
  match lookup "source" df with
  | None =>
      Err (Raise "AttributeError"
             "'DataFrame' object has no attribute 'source'")
  | Some source =>
      let mask := map (fun v => value_eqb v (VStr tag))
                      (s_values source) in
      drop (mask_rows mask df) "source"
  end.

(** Lines 538-558: the three partitions. *)
Definition split (self : Detector.t) (train_size : Q)
           (test_data : option DataFrame) (g : rng)
  : (DataFrame * DataFrame * DataFrame) * rng :=
  let df_post := Detector.df_post self in
  let train_prior := Detector.df_prior self in
  match test_data with
  | None =>
      let (df_post, g') := shuffle df_post g in
      let n_split :=
        int (inject_Z (Z.of_nat (len df_post)) * train_size)%Q in
      let train_post := iloc_to df_post n_split in
      let test := iloc_from df_post n_split in
      ((train_prior, test, train_post), g')
  | Some test_data =>
      ((train_prior, test_data, df_post), g)
  end.

(** [df[cols] = tf.fit_transform(df[cols], df[target])] *)
Definition fit_encode (cols : list string) (random_state : option Z)
           (target : string) (df : DataFrame)
  : result (encoder * DataFrame) :=
  X <- getitems df cols ;;
  y <- getitem df target ;;
  fitted <- fit_transform cols random_state X y ;;
  df' <- setitems df cols (snd fitted) ;;
  Ok (fst fitted, df').

(** [df[cols] = tf.transform(df[cols], df[target])] *)
Definition apply_encode (tf : encoder) (cols : list string)
           (target : string) (df : DataFrame) : result DataFrame :=
  X <- getitems df cols ;;
  y <- getitem df target ;;
  encoded <- transform tf X y ;;
  setitems df cols encoded.

(** [df.drop(target, axis=1).astype(float)] *)
Definition features (df : DataFrame) (target : string)
  : result DataFrame :=
  d <- drop df target ;; astype_float d.

(** [df[target].astype(float)] *)
Definition labels (df : DataFrame) (target : string) : result Series :=
  s <- getitem df target ;; series_astype_float s.

(** Lines 560-616: encoding of the three partitions. *)
Definition encode (target : string) (random_state : option Z)
           (self_OHE self_hc : list string)
           (parts : DataFrame * DataFrame * DataFrame)
  : result bundle :=
  let '(train_prior, test, train_post) := parts in
  let OHE_columns :=
    filter (fun col => negb (String.eqb col target)) self_OHE in
  let high_cardinality_columns :=
    filter (fun col => negb (String.eqb col target)) self_hc in
  let train_prior := set_scalar train_prior "source" "Train Prior" in
  let test := set_scalar test "source" "Test" in
  let train_post := set_scalar train_post "source" "Train Post" in
  let df := concat [train_prior; test; train_post] in
  df <- get_dummies df OHE_columns ;;
  train_prior <- partition df "Train Prior" ;;
  test <- partition df "Test" ;;
  train_post <- partition df "Train Post" ;;
  let test_prior := test in
  let test_post := test in
  tf_train_prior <- fit_encode high_cardinality_columns random_state
                      target train_prior ;;
  let '(tf_prior, train_prior) := tf_train_prior in
  test_prior <- apply_encode tf_prior high_cardinality_columns
                  target test_prior ;;
  tf_train_post <- fit_encode high_cardinality_columns random_state
                     target train_post ;;
  let '(tf_post, train_post) := tf_train_post in
  test_post <- apply_encode tf_post high_cardinality_columns
                 target test_post ;;
  X_train_prior <- features train_prior target ;;
  y_train_prior <- labels train_prior target ;;
  X_test_prior <- features test_prior target ;;
  y_test <- labels test target ;;
  X_train_post <- features train_post target ;;
  y_train_post <- labels train_post target ;;
  X_test_post <- features test_post target ;;
  Ok (mkBundle X_train_prior y_train_prior X_test_prior y_test
        X_train_post y_train_post X_test_post).

(** Lines 538-558 on [self]: the partitions and the generator state the
    shuffle leaves. *)
Definition partitions (self : obj) (g : rng)
  : result ((DataFrame * DataFrame * DataFrame) * rng) :=
  test_data <- getattr "test_data" (self_test_data self) ;;
  p <- getattr "train_size" (self_params self) ;;
  Ok (split (detector self) (train_size p) test_data g).

(** The method: the attributes are read from [self], the matrices are
    stored on it at the end (lines 618-624). It returns the object and
    the generator state it leaves. *)
Definition _ml_data_prep (self : obj) (g : rng) : result (obj * rng) :=
  parts_g <- partitions self g ;;
  OHE <- getattr "OHE_columns" (self_OHE_columns self) ;;
  p <- getattr "target_column" (self_params self) ;;
  hc <- getattr "high_cardinality_columns"
          (self_high_cardinality_columns self) ;;
  b <- encode (target_column p) (random_state p) OHE hc (fst parts_g) ;;
  Ok (set_bundle self b, snd parts_g).

(** ** Model building *)

Definition _build_regressor (self : obj) (g : rng) : result obj :=
  p <- getattr "random_state" (self_params self) ;;
  b <- getattr "X_train_prior" (self_bundle self) ;;
  model_prior <- fit_search false (random_state p) (param_grid p)
                   (n_iter p) (cv p) g
                   (X_train_prior b) (y_train_prior b) ;;
  model_post <- fit_search false (random_state p) (param_grid p)
                  (n_iter p) (cv p) g
                  (X_train_post b) (y_train_post b) ;;
  Ok (set_models self model_prior model_post).

Definition _build_classifier (self : obj) (g : rng) : result obj :=
  p <- getattr "random_state" (self_params self) ;;
  b <- getattr "X_train_prior" (self_bundle self) ;;
  model_prior <- fit_search true (random_state p) (param_grid p)
                   (n_iter p) (cv p) g
                   (X_train_prior b) (y_train_prior b) ;;
  model_post <- fit_search true (random_state p) (param_grid p)
                  (n_iter p) (cv p) g
                  (X_train_post b) (y_train_post b) ;;
  Ok (set_models self model_prior model_post).

(** ** Evaluation *)

Definition number (v : value) : R :=
  match v with VNum q => Q2R q | _ => 0%R end.

(** [np.sqrt(np.mean((predictions - targets) ** 2))] *)
Definition _rmse (targets predictions : list value) : R :=
  sqrt (Scipy.mean
          (Scipy.map2 (fun p t => ((number p - number t)
                                   * (number p - number t))%R)
                      predictions targets)).

Definition _eval_regressor (self : obj) : result obj :=
  mp <- getattr "model_prior" (model_prior self) ;;
  b <- getattr "X_test_prior" (self_bundle self) ;;
  y_pred_prior <- predict mp (X_test_prior b) ;;
  mq <- getattr "model_post" (model_post self) ;;
  y_pred_post <- predict mq (X_test_post b) ;;
  let y_test := s_values (y_test b) in
  let rmse_prior := _rmse y_test y_pred_prior in
  mae_prior <- mean_absolute_error y_test y_pred_prior ;;
  r2_prior <- r2_score y_test y_pred_prior ;;
  let rmse_post := _rmse y_test y_pred_post in
  mae_post <- mean_absolute_error y_test y_pred_post ;;
  r2_post <- r2_score y_test y_pred_post ;;
  let res :=
    [ mkRow (Lineage "Prior")
        [("RMSE", Num rmse_prior); ("MAE", Num mae_prior);
         ("R2", Num r2_prior)];
      mkRow (Lineage "Post")
        [("RMSE", Num rmse_post); ("MAE", Num mae_post);
         ("R2", Num r2_post)] ] in
  Ok (set_ml_report self res).

(** Reading a local variable of the running function: a name the body
    binds somewhere is local from its first line, and reading it before
    the binding raises. *)
Definition load_fast {A} (name : string) (v : option A) : result A :=
  match v with
  | Some a => Ok a
  | None =>
      Err (Raise "UnboundLocalError"
             ("local variable '" ++ name
                ++ "' referenced before assignment")%string)
  end.

(** [pd.DataFrame(array, columns=cols)] for a one-dimensional array. *)
Definition frame_of_array (array : list value) (cols : list string)
  : result DataFrame :=
  match cols with
  | [c] => Ok [(c, mkSeries float64 array)]
  | _ => Err (Raise "ValueError" "Shape of passed values mismatch")
  end.

(** [m[:, i]] *)
Definition column_at (m : DataFrame) (i : nat) : list value :=
  match nth_error m i with
  | Some col => s_values (snd col)
  | None => []
  end.

(** [try: roc_auc_score(...) except ValueError: "NA"] *)
Definition auc (y_true y_score : list value) : result cell :=
  match roc_auc_score y_true y_score with
  | inr a => Ok (Num a)
  | inl e =>
      if String.eqb (exn_class e) "ValueError" then Ok NA else Err e
  end.

(** One lineage's five scores for class [i]. *)
Definition scores (y_test y_pred : DataFrame) (i : nat)
  : result (list (string * cell)) :=
  precision <- precision_score (column_at y_test i) (column_at y_pred i) ;;
  recall <- recall_score (column_at y_test i) (column_at y_pred i) ;;
  acc <- accuracy_score (column_at y_test i) (column_at y_pred i) ;;
  f1 <- f1_score (column_at y_test i) (column_at y_pred i) ;;
  auc_ <- auc (column_at y_test i) (column_at y_pred i) ;;
  Ok [("Accuracy", Num acc); ("Precision", Num precision);
      ("Recall", Num recall); ("F1", Num f1); ("AUC", auc_)].

(** The loop of lines 764-800. The source computes the scores of the
    prior model first, then those of the post model. *)
Fixpoint class_rows (class_labels : list string)
         (y_test y_pred_prior y_pred_post : DataFrame)
         (iters : list nat) (res : ml_report_t) : result ml_report_t :=
  match iters with
  | [] => Ok res
  | i :: rest =>
      prior <- scores y_test y_pred_prior i ;;
      post <- scores y_test y_pred_post i ;;
      let label := nth i class_labels EmptyString in
      let score := [ mkRow (ClassLineage label "Prior") prior;
                     mkRow (ClassLineage label "Post") post ] in
      class_rows class_labels y_test y_pred_prior y_pred_post rest
                 (res ++ score)
  end.

(** Lines 736-800, given the value of the local [y_test]. *)
Definition classifier_report (y_pred_prior y_pred_post : list value)
           (y_test : DataFrame) : result ml_report_t :=
  y_pred_prior <- frame_of_array y_pred_prior (columns y_test) ;;
  y_pred_post <- frame_of_array y_pred_post (columns y_test) ;;
  let y_pred_prior := set_scalar y_pred_prior "source" "prior" in
  let y_pred_post := set_scalar y_pred_post "source" "post" in
  let y_test := set_scalar y_test "source" "test" in
  let y_ := concat [y_pred_prior; y_pred_post; y_test] in
  let cols := filter (fun col => negb (String.eqb col "source"))
                     (columns y_) in
  y_ <- get_dummies y_ cols ;;
  y_pred_prior <- partition y_ "prior" ;;
  y_pred_post <- partition y_ "post" ;;
  y_test <- partition y_ "test" ;;
  y_ <- drop y_ "source" ;;
  let class_labels := columns y_ in
  if (len y_test =? 0)%nat then
    Err (Raise "IndexError" "index 0 is out of bounds")
  else
    let iters :=
      if (List.length y_test =? 2)%nat then [1%nat]
      else seq 0 (List.length y_test) in
    class_rows class_labels y_test y_pred_prior y_pred_post iters [].

(** [pd.DataFrame(self.y_test)]: one column, named as the series is,
    that is as the target column. *)
Definition frame_of_y_test (self : obj) : result DataFrame :=
  b <- getattr "y_test" (self_bundle self) ;;
  p <- getattr "target_column" (self_params self) ;;
  Ok [(target_column p, y_test b)].

Definition _eval_classifier (self : obj) : result obj :=
  (* [y_test] is bound at line 749 only, and is a local of the body *)
  let y_test : option DataFrame := None in
  mp <- getattr "model_prior" (model_prior self) ;;
  b <- getattr "X_test_prior" (self_bundle self) ;;
  y_pred_prior <- predict mp (X_test_prior b) ;;
  mq <- getattr "model_post" (model_post self) ;;
  y_pred_post <- predict mq (X_test_post b) ;;
  y_test_ <- frame_of_y_test self ;;
  (* line 736 reads [y_test.columns] *)
  y_test <- load_fast "y_test" y_test ;;
  res <- classifier_report y_pred_prior y_pred_post y_test ;;
  Ok (set_ml_report self res).

(** ** compare_ml_efficacy *)

(** Runs a helper on [self]; a helper that raises leaves [self] as it
    was when the helper started. *)
Definition step {A} (m : obj -> result obj)
           (k : obj -> obj * result A) (self : obj) : obj * result A :=
  match m self with
  | inl e => (self, inl e)
  | inr self' => k self'
  end.

(** Lines 506-514: the external test set in the detector's schema. *)
Definition normalise_test (d : Detector.t) (test_data : option DataFrame)
  : result (option DataFrame) :=
  match test_data with
  | None => Ok None
  | Some test_data_ =>
      test_data_ <- cast_float test_data_ (numeric_columns d) ;;
      test_data_ <- cast_str test_data_ (categorical_columns d) ;;
      Ok (Some test_data_)
  end.

(** Lines 469-516: the checks on the arguments and the attributes the
    call assigns before it prepares the data. *)
Definition configure (self : obj)
           (target_column : string)
           (test_data : option DataFrame)
           (OHE_columns high_cardinality_columns : option (list string))
           (OHE_columns_cutoff : Z)
           (random_state : option Z)
           (train_size : Q)
           (cv n_iter : nat)
           (param_grid : grid)
  : obj * result unit :=
  let d := detector self in
  match assert (mem target_column (columns (df_prior d)))
               "target_column does not exist in df_prior" with
  | inl e => (self, inl e)
  | inr _ =>
      let self := set_params self
                    (mkParams target_column train_size random_state
                              cv n_iter param_grid) in
      let col_nunique :=
        map (fun col => (fst col, nunique (snd col))) (df_prior d) in
      let OHE_columns :=
        match OHE_columns with
        | None =>
            map fst
              (filter (fun cn =>
                         (Z.of_nat (snd cn) <=? OHE_columns_cutoff)%Z
                         && mem (fst cn) (categorical_columns d))
                      col_nunique)
        | Some l => l
        end in
      let high_cardinality_columns :=
        match high_cardinality_columns with
        | None =>
            map fst
              (filter (fun cn =>
                         (OHE_columns_cutoff <? Z.of_nat (snd cn))%Z
                         && mem (fst cn) (categorical_columns d))
                      col_nunique)
        | Some l => l
        end in
      let self := set_encoding self OHE_columns
                               high_cardinality_columns in
      match normalise_test d test_data with
      | inl e => (self, inl e)
      | inr test_data_ => (set_test_data self test_data_, inr tt)
      end
  end.

Definition compare_ml_efficacy (self : obj)
           (target_column : string)
           (test_data : option DataFrame)
           (OHE_columns high_cardinality_columns : option (list string))
           (OHE_columns_cutoff : Z)
           (random_state : option Z)
           (train_size : Q)
           (cv n_iter : nat)
           (param_grid : grid)
           (g : rng)
  : obj * result ml_report_t :=
  let d := detector self in
  match configure self target_column test_data OHE_columns
                  high_cardinality_columns OHE_columns_cutoff random_state
                  train_size cv n_iter param_grid with
  | (self, inl e) => (self, inl e)
  | (self, inr _) =>
      match _ml_data_prep self g with
      | inl e => (self, inl e)
      | inr (self, g) =>
          let ret (self : obj) :=
            (self, getattr "ml_report" (ml_report self)) in
          if mem target_column (categorical_columns d) then
            step (fun s => _build_classifier s g)
                 (step _eval_classifier ret) self
          else if mem target_column (numeric_columns d) then
            step (fun s => _build_regressor s g)
                 (step _eval_regressor ret) self
          else ret self
      end
  end.

(** ** Vocabulary of the statements about the preparation *)

(** The attributes of the object a later call can observe. *)
Definition carried (self : obj)
  : Detector.t * option model * option model * option ml_report_t :=
  (detector self, model_prior self, model_post self, ml_report self).

(** Every column has as many cells as the frame has rows. *)
Definition rectangular (df : DataFrame) : Prop :=
  Forall (fun col => List.length (s_values (snd col)) = len df) df.

(** Two frames of the same shape that agree on every column but,
    possibly, on the cells of column [target]. *)
Definition same_except (target : string) (a b : DataFrame) : Prop :=
  Forall2 (fun x y =>
             fst x = fst y
             /\ s_dtype (snd x) = s_dtype (snd y)
             /\ List.length (s_values (snd x))
                = List.length (s_values (snd y))
             /\ (fst x <> target -> snd x = snd y))
          a b.

(** Two columns, read along the column of tags [src], agree on every row
    whose tag is not [differing]. *)
Inductive agree_tagged (differing : value)
  : list value -> list value -> list value -> Prop :=
| agree_nil : agree_tagged differing [] [] []
| agree_cons t x1 x2 src v1 v2 :
    (t <> differing -> x1 = x2) ->
    agree_tagged differing src v1 v2 ->
    agree_tagged differing (t :: src) (x1 :: v1) (x2 :: v2).

(** Two columns of the same name: the same column, or the target column
    with cells that agree outside the rows tagged [differing]. *)
Definition col_agree (differing : value) (src : list value)
           (target : string) (c1 c2 : string * Series) : Prop :=
  fst c1 = fst c2 /\
  (snd c1 = snd c2
   \/ (fst c1 = target
       /\ s_dtype (snd c1) = s_dtype (snd c2)
       /\ agree_tagged differing src
            (s_values (snd c1)) (s_values (snd c2)))).

Definition frames_agree (differing : value) (src : list value)
           (target : string) (df1 df2 : DataFrame) : Prop :=
  Forall2 (col_agree differing src target) df1 df2.

(** A partition in two runs: of the same shape, equal outside the target
    column, and equal altogether unless it is the partition tagged
    [differing]. *)
Definition tagged (differing : value) (target tag : string)
           (F1 F2 : DataFrame) : Prop :=
  same_except target F1 F2 /\ rectangular F1 /\ rectangular F2 /\
  (VStr tag <> differing -> F1 = F2).

(** Lines 560-581 of the preparation on their own: the three partitions
    after the joint one-hot expansion. *)
Definition one_hot_partitions (target : string) (self_OHE : list string)
           (parts : DataFrame * DataFrame * DataFrame)
  : result (DataFrame * DataFrame * DataFrame) :=
  let '(train_prior, test, train_post) := parts in
  let OHE_columns :=
    filter (fun col => negb (String.eqb col target)) self_OHE in
  let train_prior := set_scalar train_prior "source" "Train Prior" in
  let test := set_scalar test "source" "Test" in
  let train_post := set_scalar train_post "source" "Train Post" in
  let df := concat [train_prior; test; train_post] in
  df <- get_dummies df OHE_columns ;;
  train_prior <- partition df "Train Prior" ;;
  test <- partition df "Test" ;;
  train_post <- partition df "Train Post" ;;
  Ok (train_prior, test, train_post).

(** The two feature matrices of one lineage, from its training partition
    and the test partition. *)
Definition lineage_matrices (target : string) (random_state : option Z)
           (self_hc : list string) (train test : DataFrame)
  : result (DataFrame * DataFrame) :=
  let high_cardinality_columns :=
    filter (fun col => negb (String.eqb col target)) self_hc in
  fitted <- fit_encode high_cardinality_columns random_state target train ;;
  test <- apply_encode (fst fitted) high_cardinality_columns target test ;;
  X_train <- features (snd fitted) target ;;
  X_test <- features test target ;;
  Ok (X_train, X_test).


End WithExternals.

End Efficacy.

(* ================================================================== *)
(** * Concrete interpreters and data used in the examples *)
(* ================================================================== *)

Module Examples.

Import Efficacy.

Definition print_Z (z : Z) : string :=
  DecimalString.NilZero.string_of_int (Z.to_int z).

(** Integers print as Python prints them; other rationals as a fraction. *)
Definition print_num (dt : dtype) (q : Q) : string :=
  if Pos.eqb (Qden q) 1 then
    match dt with
    | float64 | float32 => (print_Z (Qnum q) ++ ".0")%string
    | _ => print_Z (Qnum q)
    end
  else (print_Z (Qnum q) ++ "/" ++ print_Z (Zpos (Qden q)))%string.

(** Integer literals are read; everything else is refused. *)
Definition read_num (s : string) : option Q :=
  match DecimalString.NilZero.int_of_string s with
  | Some i => Some (inject_Z (Z.of_int i))
  | None => None
  end.

#[export] Instance conversions : Conversions :=
  {| repr_num := print_num; float_of_string := read_num |}.

(** A frequency encoder: a cell becomes the number of training rows that
    carry its value in the same column. *)
Definition frequency (train : DataFrame) (X : DataFrame) : DataFrame :=
  map (fun col =>
         (fst col,
          mkSeries float64
            (map (fun v => VNum (inject_Z (Z.of_nat
                              (Drift.size v (column_or_nan (fst col) train)))))
                 (s_values (snd col)))))
      X.

#[export] Instance frequency_encoder : TargetEncoder :=
  {| encoder := DataFrame;
     fit_transform := fun _ _ X _ => Ok (X, frequency X X);
     transform := fun train X _ => Ok (frequency train X) |}.

(** A learner that predicts the first training label everywhere. *)
#[export] Instance constant_learner : Learner :=
  {| model := value;
     grid := unit;
     fit_search := fun _ _ _ _ _ _ _ y => Ok (hd (VNum 0) (s_values y));
     predict := fun m X => Ok (repeat m (len X));
     mean_absolute_error := fun _ _ => Ok 0%R;
     r2_score := fun _ _ => Ok 0%R;
     precision_score := fun _ _ => Ok 0%R;
     recall_score := fun _ _ => Ok 0%R;
     accuracy_score := fun _ _ => Ok 0%R;
     f1_score := fun _ _ => Ok 0%R;
     roc_auc_score := fun _ _ =>
       Err (Raise "ValueError" "Only one class present in y_true") |}.

Definition strs (l : list string) : Series := mkSeries object (map VStr l).
Definition nums (l : list Z) : Series :=
  mkSeries float64 (map (fun z => VNum (inject_Z z)) l).

(** One categorical column and no numeric column. *)
Definition prior_cat : DataFrame := [("c", strs ["a"; "b"])].
Definition post_cat : DataFrame := [("c", strs ["a"; "a"])].
Definition detector_cat : Detector.t :=
  Detector.mk prior_cat post_cat ["c"] [].

(** One numeric column, constant in the prior frame. *)
Definition detector_const : Detector.t :=
  Detector.mk [("x", nums [1; 1]%Z)] [("x", nums [1; 2]%Z)] [] ["x"].

(** A categorical feature whose value "b" occurs in the post frame only,
    and a numeric target. *)
Definition color_prior : DataFrame :=
  [("color", strs ["r"; "g"; "r"]); ("y", nums [1; 2; 3]%Z)].
Definition color_post : DataFrame :=
  [("color", strs ["g"; "b"; "b"; "r"]); ("y", nums [2; 3; 4; 5]%Z)].
Definition detector_color : Detector.t :=
  Detector.mk color_prior color_post ["color"] ["y"].

(** The constant learner searches no grid. *)
Definition no_grid : @grid constant_learner := tt.

Definition params_y : params :=
  mkParams "y" (1 # 2) (Some 7%Z) 3 5 no_grid.

(** The object as [compare_ml_efficacy] has set it up when it calls
    [_ml_data_prep]: target "y", one-hot column "color", no test set. *)
Definition prepared_color : obj :=
  set_test_data
    (set_encoding (set_params (new detector_color) params_y) ["color"] [])
    None.

(** A numeric feature and a column of a storage type that is neither
    string-like nor one of [num_types]: it has no role. *)
Definition flags (l : list Z) : Series :=
  mkSeries (other_dtype "bool") (map (fun z => VNum (inject_Z z)) l).
Definition flag_prior : DataFrame :=
  [("x", nums [1; 2; 3]%Z); ("flag", flags [1; 0; 1]%Z)].
Definition flag_post : DataFrame :=
  [("x", nums [2; 3; 4; 5]%Z); ("flag", flags [0; 0; 1; 1]%Z)].
Definition detector_flag : Detector.t :=
  Detector.mk flag_prior flag_post [] ["x"].

(** A numeric feature and a binary categorical target. *)
Definition label_prior : DataFrame :=
  [("x", nums [1; 2; 3; 4]%Z); ("label", strs ["0"; "1"; "0"; "1"])].
Definition label_post : DataFrame :=
  [("x", nums [2; 3; 4; 5]%Z); ("label", strs ["1"; "0"; "1"; "0"])].
Definition detector_label : Detector.t :=
  Detector.mk label_prior label_post ["label"] ["x"].

(** Partitions with a high-cardinality feature; the two post-training
    partitions differ in the target values only. *)
Definition part_test : DataFrame :=
  [("color", strs ["r"; "g"]); ("y", nums [5; 2]%Z)].
Definition part_post : DataFrame :=
  [("color", strs ["b"; "b"]); ("y", nums [3; 4]%Z)].
Definition part_post' : DataFrame :=
  [("color", strs ["b"; "b"]); ("y", nums [9; 8]%Z)].

(** Two objects set up for [_ml_data_prep] with an external test set and
    "color" as high-cardinality column; their post frames differ in the
    target values only. *)
Definition prepared_hc (post : DataFrame) : obj :=
  set_test_data
    (set_encoding
       (set_params (new (Detector.mk color_prior post ["color"] ["y"]))
                   params_y)
       [] ["color"])
    (Some part_test).

(** Two frames that differ in a column name. *)
Definition frame_a : DataFrame := [("a", strs ["x"; "y"])].
Definition frame_b : DataFrame := [("b", strs ["x"; "y"])].

End Examples.

#[local] Existing Instance Examples.conversions.
#[local] Existing Instance Examples.frequency_encoder.
#[local] Existing Instance Examples.constant_learner.

(* ================================================================== *)
(** * Conditions on the inputs of the calls *)
(* ================================================================== *)

Module Conditions.

Import Drift.

(** A cell that holds a finite number. *)
Definition is_number (v : value) : bool :=
  match v with VNum _ => true | _ => false end.

(** A cell that holds a string. *)
Definition is_string (v : value) : bool :=
  match v with VStr _ => true | _ => false end.

(** The column is present in both frames, is not named as the tag column
    the pivot adds, and has a cell that is not missing in each frame. *)
Definition categorical_ready (self : Detector.t) (col : string) : bool :=
  negb (String.eqb col "_source") &&
  match lookup col (df_prior self), lookup col (df_post self) with
  | Some col_prior, Some col_post =>
      (0 <? nunique col_prior)%nat && (0 <? nunique col_post)%nat
  | _, _ => false
  end.

(** A sample a kernel density can be fitted to: finite numbers with at
    least two distinct values. *)
Definition numeric_sample (s : Series) : bool :=
  forallb is_number (s_values s) && (2 <=? nunique s)%nat.

Definition numeric_ready (self : Detector.t) (col : string) : bool :=
  match lookup col (df_prior self), lookup col (df_post self) with
  | Some col_prior, Some col_post =>
      numeric_sample col_prior && numeric_sample col_post
  | _, _ => false
  end.

(** Every column the two loops of [calculate_drift] visit is ready. *)
Definition drift_ready (self : Detector.t) : bool :=
  forallb (categorical_ready self) (categorical_columns self)
  && forallb (numeric_ready self) (numeric_columns self).


(** A column as [astype(float)] leaves it, and as [astype(str)] does. *)
Definition float_column (s : Series) : bool :=
  dtype_eqb (s_dtype s) float64
  && forallb (fun v => negb (is_string v)) (s_values s).

Definition string_column (s : Series) : bool :=
  dtype_eqb (s_dtype s) object && forallb is_string (s_values s).

(** Column [c] of the frame exists and is as [P] says. *)
Definition column_is (P : Series -> bool) (df : DataFrame) (c : string)
  : bool :=
  match lookup c df with
  | Some s => P s
  | None => false
  end.

(** The role lists name a column. *)
Definition names_column (roles : option (list string)) (c : string)
  : bool :=
  match roles with
  | Some l => mem c l
  | None => false
  end.


End Conditions.

Import Conditions.

(* ================================================================== *)
(** * Further sample data *)
(* ================================================================== *)

Module Samples.

Import Examples.





End Samples.

(* ================================================================== *)
(** * The plots *)
(* ================================================================== *)

Module Plots.

(** The call [sns.PairGrid(data, x_vars, y_vars, hue, height, aspect)]
    and the call [sns.pairplot(data, hue, plot_kws={'alpha': alpha})]. *)
Record pair_grid := mkPairGrid {
  pg_data : DataFrame;
  pg_x_vars : list string;
  pg_y_vars : list string;
  pg_hue : string;
  pg_height : Q;
  pg_aspect : Q
}.

Record pair_plot := mkPairPlot {
  pp_data : DataFrame;
  pp_hue : string;
  pp_alpha : Q
}.

(** seaborn draws: the grid of violin plots with its legend, and the
    scatter matrix. *)
Class Seaborn := {
  figure : Type;
  violin_plots : pair_grid -> result figure;
  pairplot : pair_plot -> result figure
}.

(** [s + suffix] on a cell: strings are joined, a missing cell stays
    missing, a number is refused. *)
Definition add_str_value (suffix : string) (v : value) : result value :=
  match v with
  | VStr s => Ok (VStr (s ++ suffix))
  | VNaN => Ok VNaN
  | VNum _ =>
      Err (Raise "TypeError" "unsupported operand type(s) for +")
  end.

(** [df + suffix] *)
Definition add_str (df : DataFrame) (suffix : string) : result DataFrame :=
  mapM (fun col =>
          vs <- mapM (add_str_value suffix) (s_values (snd col)) ;;
          Ok (fst col, mkSeries object vs))
       df.

(** The categorical columns plotted when none is named: those with at
    most 20 distinct values in the prior frame. *)
Definition default_categorical (self : Detector.t) : list string :=
  let col_nunique :=
    map (fun col => (fst col, nunique (snd col))) (df_prior self) in
  map fst (filter (fun cn => (snd cn <=? 20)%nat
                             && mem (fst cn) (categorical_columns self))
                  col_nunique).

Section WithExternals.
Context `{Conversions} `{Seaborn}.

(** Lines 237-283 of [plot_categorical_to_numeric]: the grid it builds.
    The [isinstance] assertions hold by typing. *)
Definition violin_grid (self : Detector.t)
           (plot_categorical_columns plot_numeric_columns
            : option (list string))
           (categorical_on_y_axis : bool) (height aspect : Q)
  : result pair_grid :=
  let df_prior := df_prior self in
  let df_post := df_post self in
  let plot_categorical_columns :=
    match plot_categorical_columns with
    | None => default_categorical self
    | Some l => l
    end in
  let plot_numeric_columns :=
    match plot_numeric_columns with
    | None => numeric_columns self
    | Some l => l
    end in
  let df_prior := set_scalar df_prior "_source" "Prior" in
  let df_post := set_scalar df_post "_source" "Post" in
  let plot_df := concat [df_prior; df_post] in
  sub <- getitems plot_df plot_categorical_columns ;;
  suffixed <- add_str (astype_str sub) "_" ;;
  plot_df <- setitems plot_df plot_categorical_columns suffixed ;;
  let (y_cols, x_cols) :=
    if categorical_on_y_axis
    then (plot_categorical_columns, plot_numeric_columns)
    else (plot_numeric_columns, plot_categorical_columns) in
  Ok (mkPairGrid plot_df x_cols y_cols "_source" height aspect).

Definition plot_categorical_to_numeric (self : Detector.t)
           (plot_categorical_columns plot_numeric_columns
            : option (list string))
           (categorical_on_y_axis : bool) (height aspect : Q)
  : result figure :=
  g <- violin_grid self plot_categorical_columns plot_numeric_columns
         categorical_on_y_axis height aspect ;;
  violin_plots g.

(** Lines 318-335 of [plot_numeric_to_numeric]: the frame it plots. *)
Definition scatter_matrix (self : Detector.t)
           (plot_numeric_columns : option (list string)) (alpha : Q)
  : result pair_plot :=
  let plot_numeric_columns :=
    match plot_numeric_columns with
    | None => numeric_columns self
    | Some l => l
    end in
  df_prior <- getitems (df_prior self) plot_numeric_columns ;;
  df_post <- getitems (df_post self) plot_numeric_columns ;;
  let df_prior := set_scalar df_prior "_source" "Prior" in
  let df_post := set_scalar df_post "_source" "Post" in
  let plot_df := concat [df_prior; df_post] in
  Ok (mkPairPlot plot_df "_source" alpha).

Definition plot_numeric_to_numeric (self : Detector.t)
           (plot_numeric_columns : option (list string)) (alpha : Q)
  : result figure :=
  p <- scatter_matrix self plot_numeric_columns alpha ;;
  pairplot p.

End WithExternals.

(** A column of strings that all end in [suffix]. *)
Definition suffixed_column (suffix : string) (s : Series) : Prop :=
  s_dtype s = object /\
  Forall (fun v => exists x, v = VStr (x ++ suffix)) (s_values s).

End Plots.

(* ================================================================== *)
(** * The models stored by a call *)
(* ================================================================== *)

Module Fitting.

Import Efficacy.

Section WithExternals.
Context `{Conversions} `{TargetEncoder} `{Learner}.

(** The pair of models on [self] was fitted on the training data stored
    on [self], the prior model on the prior matrices and the post model
    on the post matrices, both under the search configuration stored on
    [self]. *)
Definition fitted_pair (classifier : bool) (self : obj) : Prop :=
  exists b p mp mq g1 g2,
    self_bundle self = Some b /\ self_params self = Some p /\
    model_prior self = Some mp /\ model_post self = Some mq /\
    fit_search classifier (random_state p) (param_grid p) (n_iter p) (cv p)
               g1 (X_train_prior b) (y_train_prior b) = inr mp /\
    fit_search classifier (random_state p) (param_grid p) (n_iter p) (cv p)
               g2 (X_train_post b) (y_train_post b) = inr mq.

End WithExternals.

End Fitting.

(* ================================================================== *)
(** * float64: the arithmetic of numpy and of the C library *)
(* ================================================================== *)

Module Binary64.

Import Floats.
Open Scope float_scope.

(** The C library's [exp], [log] and [pow]. Their last bit is the
    platform's, so they enter as an interface; the statements say which of
    their values they rely on. *)
Class Libm := {
  exp : float -> float;
  log : float -> float;
  pow : float -> float -> float
}.

(** [np.pi] *)
Definition pi : float := 0x1.921fb54442d18p+1.

(** An integer as a float64; exact below [2 ** 53]. *)
Fixpoint of_pos (p : positive) : float :=
  match p with
  | xH => 1
  | xO p => 2 * of_pos p
  | xI p => 2 * of_pos p + 1
  end.

Definition of_Z (z : Z) : float :=
  match z with
  | Z0 => 0
  | Zpos p => of_pos p
  | Zneg p => - of_pos p
  end.

Definition of_nat (n : nat) : float := of_Z (Z.of_nat n).

(** The float64 a numeric cell holds: the quotient of numerator and
    denominator, rounded once. [VNum (11 # 10)] is Python's [1.1]. *)
Definition of_Q (q : Q) : float := of_Z (Qnum q) / of_Z (Zpos (Qden q)).

Fixpoint map2 {A B C} (f : A -> B -> C) (a : list A) (b : list B)
  : list C :=
  match a, b with
  | x :: xs, y :: ys => f x y :: map2 f xs ys
  | _, _ => []
  end.

(** ** [np.sum]

    numpy adds a contiguous float64 array pairwise: fewer than 8 elements in
    index order; up to 128 elements in eight running sums that take every
    eighth element, combined as a tree, the remainder added in index order;
    a longer array in two halves, the first a multiple of 8 long. The
    fuel of the recursion is the length of the array. *)

Fixpoint lanes (r rest : list float) (k : nat)
  : list float * list float :=
  match k with
  | O => (r, rest)
  | S k => lanes (map2 PrimFloat.add r (firstn 8 rest)) (skipn 8 rest) k
  end.

Definition block_sum (a : list float) : float :=
  let (r, rest) := lanes (firstn 8 a) (skipn 8 a) (List.length a / 8 - 1) in
  let r i := nth i r 0 in
  fold_left PrimFloat.add rest
            (((r 0%nat + r 1%nat) + (r 2%nat + r 3%nat))
             + ((r 4%nat + r 5%nat) + (r 6%nat + r 7%nat))).

Fixpoint pairwise_sum (fuel : nat) (a : list float) : float :=
  let n := List.length a in
  if (n <? 8)%nat then fold_left PrimFloat.add a 0
  else if (n <=? 128)%nat then block_sum a
  else
    match fuel with
    | O => block_sum a
    | S fuel =>
        let n2 := (n / 2)%nat in
        let n2 := (n2 - n2 mod 8)%nat in
        pairwise_sum fuel (firstn n2 a) + pairwise_sum fuel (skipn n2 a)
    end.

Definition np_sum (a : list float) : float :=
  pairwise_sum (List.length a) a.

(** [np.dot] of two vectors. The BLAS behind it fixes no order of the
    additions; index order is taken here. A sum of squares is zero in
    every order exactly when every rounded square is. *)
Definition dot (a b : list float) : float :=
  fold_left PrimFloat.add (map2 PrimFloat.mul a b) 0.

(** [np.cov(x, rowvar=1, bias=False, aweights=w)] of one row, the call
    [gaussian_kde] makes since scipy 1.2: the weighted mean is subtracted,
    the weighted squares are summed and divided by [fact]. *)
Definition cov (x w : list float) : float :=
  let w_sum := np_sum w in
  let avg := np_sum (map2 PrimFloat.mul x w) / w_sum in
  let fact := w_sum - 1 * np_sum (map2 PrimFloat.mul w w) / w_sum in
  let fact := if fact <=? 0 then 0 else fact in
  let X := map (fun v => v - avg) x in
  let X_T := map2 PrimFloat.mul X w in
  dot X X_T * (1 / fact).

(** [np.linspace(start, stop, num)]: multiples of the step added to
    [start], the last element set to [stop]; a step that rounds to zero is
    replaced by the fractions of the span. *)
Definition linspace (start stop : float) (num : nat) : list float :=
  let div := of_nat (num - 1) in
  let delta := stop - start in
  let step := delta / div in
  let y := map (fun i => if step =? 0
                         then of_nat i / div * delta + start
                         else of_nat i * step + start)
               (seq 0 (num - 1)) in
  match num with
  | O => []
  | 1%nat => [start]
  | _ => y ++ [stop]
  end.

(** Python's [min(a, b)] and [max(a, b)]: the first argument unless the
    second is smaller (larger). *)
Definition py_min (a b : float) : float := if b <? a then b else a.
Definition py_max (a b : float) : float := if a <? b then b else a.

(** [Series.min()] and [Series.max()] of a column without missing cells. *)
Definition min_list (l : list float) : float :=
  match l with
  | [] => nan
  | x :: xs => fold_left py_min xs x
  end.

Definition max_list (l : list float) : float :=
  match l with
  | [] => nan
  | x :: xs => fold_left py_max xs x
  end.

#[global] Arguments np_sum : simpl never.
#[global] Arguments linspace : simpl never.
#[global] Arguments cov : simpl never.

End Binary64.

(* ================================================================== *)
(** * scipy in float64 *)
(* ================================================================== *)

Module Scipy64.

Import Floats.
Import Binary64.
Open Scope float_scope.

(** [scipy.special.rel_entr] *)
Definition rel_entr `{Libm} (x y : float) : float :=
  if is_nan x || is_nan y then nan
  else if (0 <? x) && (0 <? y) then x * log (x / y)
  else if (x =? 0) && (0 <=? y) then 0
  else infinity.

Definition midpoint (a b : float) : float := (a + b) / 2.

(** [scipy.spatial.distance.jensenshannon p q], base e. *)
Definition jensenshannon `{Libm} (p q : list float) : float :=
  let p := map (fun x => x / np_sum p) p in
  let q := map (fun x => x / np_sum q) q in
  let m := map2 midpoint p q in
  let left := map2 rel_entr p m in
  let right := map2 rel_entr q m in
  let js := np_sum left + np_sum right in
  sqrt (js / 2).

(** A fitted [scipy.stats.gaussian_kde] of a one-dimensional sample: the
    sample, its weights and the Cholesky factor of the kernel covariance. *)
Record kde := mkKde {
  dataset : list float;
  weights : list float;
  cho_cov : float
}.

(** The sample as an array of floats. *)
Definition number (v : value) : float :=
  match v with
  | VNum q => of_Q q
  | _ => nan
  end.

Definition to_float (v : value) : result float :=
  match v with
  | VNum q => Ok (of_Q q)
  | VNaN => Err (Raise "ValueError" "array must not contain infs or NaNs")
  | VStr s => Err (Raise "TypeError" "cannot perform reduce on strings")
  end.

(** [ones(n) / n] *)
Definition uniform (n : nat) : list float := repeat (1 / of_nat n) n.

(** The covariance [gaussian_kde] hands to the Cholesky factorisation. *)
Definition data_covariance (data : list float) : float :=
  cov data (uniform (List.length data)).

(** [gaussian_kde(dataset)] with Scott's rule. A sample of fewer than two
    elements is refused; the factorisation refuses a covariance that is not
    finite, and one that is not positive. The test is made on the
    covariance as computed: that of a constant sample is zero when the
    computed mean is the constant, and a positive number of the size of
    the rounding error when it is not. *)
Definition gaussian_kde `{Libm} (values : list value) : result kde :=
  if (List.length values <=? 1)%nat then
    Err (Raise "ValueError" "`dataset` input should have multiple elements.")
  else
    data <- mapM to_float values ;;
    let weights := uniform (List.length data) in
    let neff := 1 / np_sum (map (fun w => w * w) weights) in
    let factor := pow neff (- (1 / 5)) in
    let data_covariance := data_covariance data in
    if is_finite data_covariance then
      if 0 <? data_covariance then
        Ok (mkKde data weights (sqrt data_covariance * factor))
      else
        Err (Raise "LinAlgError" "singular data covariance matrix")
    else
      Err (Raise "ValueError" "array must not contain infs or NaNs").

(** The exponents of the kernels of the whitened sample at a whitened
    point. *)
Definition energies (points_ : list float) (xj : float) : list float :=
  map (fun p => let residual := p - xj in (- (residual * residual)) / 2)
      points_.

(** The weighted sum of the kernels at one point, in the order of the
    sample. *)
Definition estimate (norm : float) (weights kernels : list float) : float :=
  fold_left (fun est wk => est + fst wk * (snd wk * norm))
            (combine weights kernels) 0.

(** [kde(points)], as [gaussian_kernel_estimate] computes it since scipy
    1.10: sample and points are divided by the Cholesky factor, every
    kernel is [exp(-arg / 2) * norm]. Earlier versions multiply by the
    inverse covariance instead; the exponents are the same up to
    rounding. *)
Definition evaluate `{Libm} (k : kde) (points : list float) : list float :=
  let points_ := map (fun x => x / cho_cov k) (dataset k) in
  let xi_ := map (fun x => x / cho_cov k) points in
  let norm := pow (2 * pi) (- (1 / 2)) / cho_cov k in
  map (fun xj => estimate norm (weights k) (map exp (energies points_ xj)))
      xi_.

(** Scott's factor of a sample of two points: the float64 nearest to
    [2 ** -0.2]. *)
Definition scott_two : float := 0x1.bdb8cdadbe120p-1.

(** What the statements about underflow use of the C library: [exp] is
    zero below -750 (the least positive float64 is about [exp(-744.44)]),
    and its [2 ** -0.2] is within one unit in the last place of the
    nearest float64. *)
Definition libm_facts (L : Libm) : Prop :=
  (forall x, (x <? -750) = true -> exp x = 0) /\
  In (pow 2 (- (1 / 5))) [next_down scott_two; scott_two; next_up scott_two].

#[global] Arguments jensenshannon : simpl never.
#[global] Arguments evaluate : simpl never.
#[global] Arguments gaussian_kde : simpl never.
#[global] Arguments data_covariance : simpl never.

End Scipy64.

(* ================================================================== *)
(** * calculate_drift in float64 *)
(* ================================================================== *)

Module Drift64.

Import Floats.
Import Binary64 Scipy64.
Open Scope float_scope.

(** A Python dict from column name to distance, in insertion order. *)
Definition dict := list (string * float).

(** [d.update({k: v})] *)
Fixpoint update (d : dict) (k : string) (v : float) : dict :=
  match d with
  | [] => [(k, v)]
  | (k0, v0) :: rest =>
      if String.eqb k0 k then (k0, v) :: rest
      else (k0, v0) :: update rest k v
  end.

(** ** The order of a ranking *)

(** No distance is NaN. *)
Definition no_nan (items : list (string * float)) : bool :=
  forallb (fun x => negb (is_nan (snd x))) items.

(** Sorted by descending distance. *)
Definition descending (l : list (string * float)) : Prop :=
  StronglySorted (fun a b => (snd b <=? snd a) = true) l.

Definition has_score (s : float) (x : string * float) : bool := snd x =? s.

(** Entries of equal distance come in [l] in the order they have in
    [items]. *)
Definition stable (items l : list (string * float)) : Prop :=
  forall s, filter (has_score s) l = filter (has_score s) items.

(** Python's [sorted(items, key=lambda x: x[1], reverse=True)]. The result
    holds the items it was given, whatever the keys are. It is in
    descending order of the keys, equal keys in the order of the input,
    when [<] orders the keys; a NaN key compares false with every key, and
    the order of a list that has one is not determined by the keys. *)
Class Sorted := {
  sorted_reverse : list (string * float) -> list (string * float);
  sorted_perm : forall items, Permutation (sorted_reverse items) items;
  sorted_descending : forall items,
    no_nan items = true -> descending (sorted_reverse items);
  sorted_stable : forall items,
    no_nan items = true -> stable items (sorted_reverse items)
}.

(** One side of the returned report: the dict it starts as, or the list
    [sorted] turns it into. *)
Inductive ranking :=
| PyDict (d : dict)
| PyList (l : list (string * float)).

Definition entries (r : ranking) : list (string * float) :=
  match r with PyDict d => d | PyList l => l end.

Record report := mkReport { categorical : ranking; numerical : ranking }.

Definition STEPS : nat := 100.

(** ** Categorical columns *)

(** One column of the pivot table divided by its sum, missing groups
    filled with 0. The column exists when the source has a group. *)
Definition probability_array (source : string) (index col : list value)
  : result (list float) :=
  let sizes := map (fun c => Drift.size c col) index in
  let total := fold_right Nat.add O sizes in
  if (total =? 0)%nat then Err (Raise "KeyError" source)
  else Ok (map (fun k => of_nat k / of_nat total) sizes).

Definition categorical_distance `{Libm} (self : Detector.t) (col : string)
  : result float :=
  col_prior <- getitem (df_prior self) col ;;
  col_post <- getitem (df_post self) col ;;
  if String.eqb col "_source" then
    Err (Raise "ValueError" "cannot insert _source, already exists")
  else
    let index := categories (s_values col_prior ++ s_values col_post) in
    arr_prior <- probability_array "prior" index (s_values col_prior) ;;
    arr_post <- probability_array "post" index (s_values col_post) ;;
    Ok (jensenshannon arr_prior arr_post).

(** ** Numeric columns *)

Definition numeric_distance `{Libm} (self : Detector.t) (col : string)
  : result float :=
  col_prior <- getitem (df_prior self) col ;;
  col_post <- getitem (df_post self) col ;;
  kde_prior <- gaussian_kde (s_values col_prior) ;;
  kde_post <- gaussian_kde (s_values col_post) ;;
  let min_ := py_min (min_list (dataset kde_prior))
                     (min_list (dataset kde_post)) in
  let max_ := py_max (max_list (dataset kde_prior))
                     (max_list (dataset kde_post)) in
  let range_ := linspace min_ max_ STEPS in
  let arr_prior_ := evaluate kde_prior range_ in
  let arr_post_ := evaluate kde_post range_ in
  let arr_prior := map (fun x => x / np_sum arr_prior_) arr_prior_ in
  let arr_post := map (fun x => x / np_sum arr_post_) arr_post_ in
  Ok (jensenshannon arr_prior arr_post).

(** ** The two loops and the ranking *)

Fixpoint distances (f : string -> result float) (cols : list string)
         (res : dict) : result dict :=
  match cols with
  | [] => Ok res
  | col :: rest =>
      d <- f col ;;
      distances f rest (update res col d)
  end.

Definition rank `{Sorted} (res : dict) : ranking :=
  if (0 <? List.length res)%nat then PyList (sorted_reverse res)
  else PyDict res.

Definition calculate_drift `{Libm} `{Sorted} (self : Detector.t)
  : result report :=
  cat_res <- distances (categorical_distance self)
               (categorical_columns self) [] ;;
  num_res <- distances (numeric_distance self)
               (numeric_columns self) [] ;;
  let num_res := rank num_res in
  let cat_res := rank cat_res in
  Ok (mkReport cat_res num_res).

(** ** Vocabulary of the statements about the report *)

(** [side] is what the loop over [cols] with distance [f] is ranked
    into: an empty dict when there is no column, otherwise a list of the
    distinct columns with their distances; the list is sorted by descending
    distance, ties in the order of [cols], when no distance is NaN. *)
Definition ranked (f : string -> result float) (cols : list string)
           (side : ranking) : Prop :=
  exists items,
    map fst items = first_occurrences cols /\
    (forall c d, In (c, d) items -> f c = inr d) /\
    match cols with
    | [] => side = PyDict []
    | _ :: _ =>
        exists l, side = PyList l /\ Permutation l items /\
                  (no_nan items = true -> descending l /\ stable items l)
    end.

(** A sample the density estimator refuses: fewer than two elements, or a
    computed covariance that is not a positive finite number. *)
Definition refused (s : Series) : bool :=
  (List.length (s_values s) <=? 1)%nat
  || negb (let c := data_covariance (map number (s_values s)) in
           is_finite c && (0 <? c)).

(** A sample the estimator accepts. *)
Definition fits (s : Series) : bool :=
  forallb is_number (s_values s) && negb (refused s).

Definition numeric_ready (self : Detector.t) (col : string) : bool :=
  match lookup col (df_prior self), lookup col (df_post self) with
  | Some col_prior, Some col_post => fits col_prior && fits col_post
  | _, _ => false
  end.

(** Every column the two loops of [calculate_drift] visit is ready. *)
Definition drift_ready (self : Detector.t) : bool :=
  forallb (categorical_ready self) (categorical_columns self)
  && forallb (numeric_ready self) (numeric_columns self).

End Drift64.

(* ================================================================== *)
(** * Sample data and interpreters for the float64 statements *)
(* ================================================================== *)

Module Samples64.

Import Floats.
Import Binary64 Scipy64 Drift64.
Open Scope float_scope.

(** The C library tabulated at the arguments the samples reach: [exp]
    below its underflow threshold and at 0, [log] at 1 and 2, [pow] for
    Scott's factor of two points and for the normalisation of a
    one-dimensional kernel. Off the table the value is NaN. *)
Definition table_exp (x : float) : float :=
  if x <? -750 then 0 else if x =? 0 then 1 else nan.

Definition table_log (x : float) : float :=
  if x =? 1 then 0
  else if x =? 2 then 0x1.62e42fefa39efp-1
  else nan.

Definition table_pow (x y : float) : float :=
  if (x =? 2) && (y =? - (1 / 5)) then 0x1.bdb8cdadbe120p-1
  else if (x =? 2 * pi) && (y =? - (1 / 2)) then 0x1.9884533d43651p-2
  else nan.

Definition libm_table : Libm :=
  {| exp := table_exp; log := table_log; pow := table_pow |}.

(** A reference for [sorted]: the items are inserted from the right, each
    before the first item whose key is not greater. *)
Fixpoint insert_desc (x : string * float) (l : list (string * float))
  : list (string * float) :=
  match l with
  | [] => [x]
  | y :: ys =>
      if snd x <? snd y then y :: insert_desc x ys
      else x :: l
  end.

Definition sorted_desc (items : list (string * float))
  : list (string * float) :=
  fold_right insert_desc [] items.

Definition ratios (l : list Q) : Series := mkSeries float64 (map VNum l).

(** One numeric column: seven times 1.1 in the prior frame. *)
Definition detector_sevens : Detector.t :=
  Detector.mk [("x", ratios (repeat (11 # 10)%Q 7))]
              [("x", ratios [1%Q; 2%Q])] [] ["x"].

(** One numeric column: two prior values a millionth apart, between two
    post values ten apart. *)
Definition detector_tight : Detector.t :=
  Detector.mk [("x", ratios [5%Q; (5000001 # 1000000)%Q])]
              [("x", ratios [0%Q; 10%Q])] [] ["x"].

(** Two numeric columns: the one of [detector_tight] and one with two
    distinct values on each side. *)
Definition detector_mixed : Detector.t :=
  Detector.mk
    [("x", ratios [5%Q; (5000001 # 1000000)%Q]); ("y", ratios [1%Q; 2%Q])]
    [("x", ratios [0%Q; 10%Q]); ("y", ratios [2%Q; 4%Q; 4%Q])]
    [] ["x"; "y"].

(** Two categorical columns: one with the same cells in both frames, one
    without a common category. *)
Definition detector_pair : Detector.t :=
  Detector.mk
    [("same", Examples.strs ["a"; "b"]); ("apart", Examples.strs ["a"; "a"])]
    [("same", Examples.strs ["a"; "b"]); ("apart", Examples.strs ["b"; "b"])]
    ["same"; "apart"] [].

End Samples64.

(* ================================================================== *)
(** * Facts about the error monad and the frames *)
(* ================================================================== *)

Section PyFacts.

Lemma bind_ok {A B} (m : result A) (k : A -> result B) (b : B) :
  Py.bind m k = inr b -> exists a, m = inr a /\ k a = inr b.
Proof.
  destruct m as [e | a]; simpl; intros E; [discriminate | eauto].
Qed.

Lemma bind_err {A B} (m : result A) (k : A -> result B) (e : exn) :
  Py.bind m k = inl e ->
  m = inl e \/ exists a, m = inr a /\ k a = inl e.
Proof.
  destruct m as [e0 | a]; simpl; intros E.
  - left; congruence.
  - right; eauto.
Qed.

Lemma mapM_length {A B} (f : A -> result B) (l : list A) (r : list B) :
  mapM f l = inr r -> List.length r = List.length l.
Proof.
  revert r; induction l as [| x xs IH]; simpl; intros r E.
  - inversion E; reflexivity.
  - apply bind_ok in E as (y & _ & E).
    apply bind_ok in E as (ys & Eys & E).
    inversion E; subst; simpl; f_equal; auto.
Qed.

End PyFacts.

(* ================================================================== *)
(** * __init__: schema checks *)
(* ================================================================== *)

Section InitFacts.

Context `{Conversions}.

Lemma eq_elementwise_same_length {A} (eqb : A -> A -> bool) (a b : list A) :
  List.length a = List.length b ->
  exists l, eq_elementwise eqb a b = inr l.
Proof.
  revert b; induction a as [| x xs IH]; intros [| y ys]; simpl;
    try discriminate; intros E.
  - eexists; reflexivity.
  - injection E as E. destruct (IH ys E) as [l ->]. simpl. eauto.
Qed.

Lemma eq_elementwise_error {A} (eqb : A -> A -> bool) (a b : list A) e :
  eq_elementwise eqb a b = inl e ->
  e = Raise "ValueError" "Lengths must match to compare".
Proof.
  revert b; induction a as [| x xs IH]; intros [| y ys]; simpl;
    intros E; try discriminate; try (inversion E; reflexivity).
  destruct (eq_elementwise eqb xs ys) eqn:E'; simpl in E.
  - inversion E; subst. eauto.
  - discriminate.
Qed.

Lemma eq_elementwise_all {A} (eqb : A -> A -> bool) (a b : list A) l :
  (forall x y, eqb x y = true -> x = y) ->
  eq_elementwise eqb a b = inr l -> all l = true -> a = b.
Proof.
  intros Heqb. revert b l.
  induction a as [| x xs IH]; intros [| y ys] l; simpl; intros E Hall;
    try discriminate; auto.
  destruct (eq_elementwise eqb xs ys) eqn:E'; simpl in E;
    [discriminate |].
  inversion E; subst. simpl in Hall.
  apply andb_true_iff in Hall as [Hxy Hall].
  f_equal; eauto.
Qed.

Lemma dtype_eqb_eq (a b : dtype) : dtype_eqb a b = true -> a = b.
Proof.
  destruct a, b; simpl; intros E; try discriminate; try reflexivity.
  apply String.eqb_eq in E; congruence.
Qed.

Lemma init_runs_schema_checks prior post cats nums e :
  schema_checks prior post = inl e ->
  __init__ prior post cats nums = inl e.
Proof.
  unfold __init__. intros ->. reflexivity.
Qed.

Lemma schema_checks_reject prior post :
  columns prior <> columns post \/ dtypes prior <> dtypes post ->
  exists e, schema_checks prior post = inl e /\
            (exn_class e = "AssertionError"
             \/ exn_class e = "ValueError").
Proof.
  intros Hdiff. unfold schema_checks.
  destruct (eq_elementwise String.eqb (columns prior) (columns post))
    as [e1 | names] eqn:En; simpl.
  { apply eq_elementwise_error in En; subst. eexists; split; eauto. }
  destruct (all names) eqn:Hall; unfold assert; simpl.
  2:{ eexists; split; eauto. }
  assert (Hcols : columns prior = columns post).
  { eapply eq_elementwise_all; eauto. intros x y; apply String.eqb_eq. }
  destruct Hdiff as [Hd | Hd]; [contradiction |].
  destruct (eq_elementwise_same_length dtype_eqb (dtypes prior)
              (dtypes post)) as [types Et].
  { unfold dtypes. rewrite !length_map.
    unfold columns in Hcols.
    rewrite <- (length_map fst prior), Hcols, length_map. reflexivity. }
  rewrite Et; simpl.
  destruct (all types) eqn:Hallt; simpl.
  - exfalso. apply Hd. eapply eq_elementwise_all; eauto.
    apply dtype_eqb_eq.
  - eexists; split; eauto.
Qed.

End InitFacts.

(** C6 (as stated, refuted). Two frames whose column names differ are
    rejected by [__init__], but the exception is the [AssertionError] of the
    failed assertion: the class [SchemaMismatchError] is never raised. *)
Lemma init_schema_mismatch_class_counterexample :
  columns Examples.frame_a <> columns Examples.frame_b /\
  @__init__ Examples.conversions Examples.frame_a Examples.frame_b None None
  = inl (Raise "AssertionError"
           "df_prior and df_post should have the same column names") /\
  ~ (exists e, @__init__ Examples.conversions Examples.frame_a Examples.frame_b None None = inl e
               /\ exn_class e = "SchemaMismatchError").
Proof.
  split; [| split].
  - vm_compute. discriminate.
  - reflexivity.
  - intros (e & E & Hc). vm_compute in E. inversion E; subst.
    vm_compute in Hc. discriminate.
Qed.

(** C6 (amended). Whenever the column names or the column dtypes of the two
    frames differ, [__init__] raises and returns no detector; the exception
    is an [AssertionError], or the [ValueError] of comparing two indexes of
    different lengths. *)
Theorem init_rejects_schema_mismatch `{Conversions}
        (df_prior df_post : DataFrame)
        (categorical_columns numeric_columns : option (list string)) :
  columns df_prior <> columns df_post \/ dtypes df_prior <> dtypes df_post ->
  exists e,
    __init__ df_prior df_post categorical_columns numeric_columns = inl e
    /\ (exn_class e = "AssertionError" \/ exn_class e = "ValueError").
Proof.
  intros Hdiff.
  destruct (schema_checks_reject df_prior df_post Hdiff) as (e & E & Hc).
  exists e; split; [| exact Hc].
  apply init_runs_schema_checks; exact E.
Qed.

Lemma init_rejects_schema_mismatch_witness :
  (columns Examples.frame_a <> columns Examples.frame_b
   \/ dtypes Examples.frame_a <> dtypes Examples.frame_b)
  /\ exists e,
      @__init__ Examples.conversions Examples.frame_a Examples.frame_b None None = inl e
      /\ (exn_class e = "AssertionError" \/ exn_class e = "ValueError").
Proof.
  assert (Hd : columns Examples.frame_a <> columns Examples.frame_b
               \/ dtypes Examples.frame_a <> dtypes Examples.frame_b).
  { left. vm_compute. discriminate. }
  split; [exact Hd |].
  exact (@init_rejects_schema_mismatch Examples.conversions Examples.frame_a Examples.frame_b
           None None Hd).
Defined.

(* ================================================================== *)
(** * calculate_drift: the ranking of real distances *)
(* ================================================================== *)

Section RankingFacts.

Import Drift.
Open Scope R_scope.

Lemma mem_cons c k l : mem c (k :: l) = (String.eqb c k || mem c l)%bool.
Proof. reflexivity. Qed.





Lemma fold_add_name_length cols acc :
  (List.length acc <= List.length (fold_left add_name cols acc))%nat.
Proof.
  revert acc; induction cols as [| c cs IH]; simpl; intros acc; [lia |].
  etransitivity; [| apply IH].
  unfold add_name. destruct (mem c acc); [lia |].
  rewrite length_app; simpl; lia.
Qed.

(** ** [sorted(..., reverse=True)] *)








End RankingFacts.

(* ================================================================== *)
(** * The Jensen-Shannon distance *)
(* ================================================================== *)

Section JensenShannonFacts.

Import Scipy.
Open Scope R_scope.

Lemma ln_le_sub1 (t : R) : 0 < t -> ln t <= t - 1.
Proof.
  intros Ht. pose proof (exp_ineq1_le (ln t)) as Hle.
  rewrite exp_ln in Hle by exact Ht. lra.
Qed.

Lemma ln_monotone (x y : R) : 0 < x -> x <= y -> ln x <= ln y.
Proof.
  intros Hx [Hlt | ->]; [| lra].
  left; apply ln_increasing; assumption.
Qed.

Lemma ln_2_pos : 0 < ln 2.
Proof. pose proof ln_lt_2; lra. Qed.

Lemma div_le_of_le_mult (a b c : R) : 0 < b -> a <= c * b -> a / b <= c.
Proof.
  intros Hb Hle. apply Rmult_le_reg_r with b; [exact Hb |].
  unfold Rdiv. rewrite Rmult_assoc, Rinv_l by lra. lra.
Qed.

Lemma rel_entr_upper (x y : R) :
  0 <= x -> 0 <= y -> rel_entr x ((x + y) / 2) <= x * ln 2.
Proof.
  intros Hx Hy. unfold rel_entr.
  destruct (Rlt_dec 0 x) as [Hpos | Hnot].
  - apply Rmult_le_compat_l; [exact Hx |].
    apply ln_monotone.
    + apply Rdiv_lt_0_compat; lra.
    + apply div_le_of_le_mult; lra.
  - assert (x = 0) by lra. subst. lra.
Qed.

Lemma rel_entr_lower (x y : R) :
  0 <= x -> 0 <= y -> x - (x + y) / 2 <= rel_entr x ((x + y) / 2).
Proof.
  intros Hx Hy. unfold rel_entr.
  destruct (Rlt_dec 0 x) as [Hpos | Hnot]; [| lra].
  set (m := (x + y) / 2). assert (Hm : 0 < m) by (unfold m; lra).
  assert (Hln : ln (x / m) = - ln (m / x)).
  { rewrite <- ln_Rinv by (apply Rdiv_lt_0_compat; assumption).
    f_equal. field. split; lra. }
  rewrite Hln.
  pose proof (ln_le_sub1 (m / x)
                (Rdiv_lt_0_compat _ _ Hm Hpos)) as Hle.
  assert (Hx' : x * (m / x - 1) = m - x) by (field; lra).
  nra.
Qed.

Lemma Rsum_nonneg (l : list R) : nonneg l -> 0 <= Rsum l.
Proof.
  induction 1 as [| x xs Hx _ IH]; simpl; lra.
Qed.

Lemma midpoints_sym (p q : list R) :
  map2 midpoint p q = map2 midpoint q p.
Proof.
  revert q; induction p as [| x xs IH]; intros [| y ys]; simpl;
    try reflexivity.
  rewrite IH. unfold midpoint. f_equal. f_equal. ring.
Qed.

Lemma left_sum_upper (p q : list R) :
  nonneg p -> nonneg q ->
  Rsum (map2 rel_entr p (map2 midpoint p q)) <= Rsum p * ln 2.
Proof.
  intros Hp; revert q.
  induction Hp as [| x xs Hx Hxs IH]; intros q Hq; simpl.
  - lra.
  - pose proof ln_2_pos.
    inversion Hq as [| y ys Hy Hys]; subst; simpl.
    + pose proof (Rsum_nonneg xs Hxs). nra.
    + pose proof (rel_entr_upper x y Hx Hy).
      pose proof (IH ys Hys). unfold midpoint at 1. lra.
Qed.

Lemma right_sum_upper (p q : list R) :
  nonneg p -> nonneg q ->
  Rsum (map2 rel_entr q (map2 midpoint p q)) <= Rsum q * ln 2.
Proof.
  intros Hp Hq. rewrite midpoints_sym. apply left_sum_upper; assumption.
Qed.

Lemma divergence_nonneg (p q : list R) :
  nonneg p -> nonneg q ->
  0 <= Rsum (map2 rel_entr p (map2 midpoint p q))
       + Rsum (map2 rel_entr q (map2 midpoint p q)).
Proof.
  intros Hp; revert q.
  induction Hp as [| x xs Hx Hxs IH]; intros q Hq.
  - destruct q; simpl; lra.
  - inversion Hq as [| y ys Hy Hys]; subst; simpl; [lra |].
    pose proof (rel_entr_lower x y Hx Hy) as H1.
    pose proof (rel_entr_lower y x Hy Hx) as H2.
    replace ((y + x) / 2) with ((x + y) / 2) in H2 by lra.
    pose proof (IH ys Hys). unfold midpoint at 1 3. lra.
Qed.

Lemma Rsum_scale (l : list R) (c : R) :
  Rsum (map (fun x => x / c) l) = Rsum l / c.
Proof.
  induction l as [| x xs IH]; simpl; [lra |]. rewrite IH. lra.
Qed.

Lemma normalize_nonneg (p : list R) :
  nonneg p -> 0 < Rsum p -> nonneg (normalize p).
Proof.
  intros Hp Hs. unfold normalize, nonneg. rewrite Forall_map.
  eapply Forall_impl; [| exact Hp]. simpl. intros x Hx.
  apply Rle_mult_inv_pos; assumption.
Qed.

Lemma normalize_sum (p : list R) : 0 < Rsum p -> Rsum (normalize p) = 1.
Proof.
  intros Hs. unfold normalize. rewrite Rsum_scale. field. lra.
Qed.

(** The divergence under the square root is never negative, so the
    square root is taken of a number it is defined at. *)
Lemma jensenshannon_radicand (p q : list R) :
  nonneg p -> nonneg q -> 0 < Rsum p -> 0 < Rsum q ->
  let m := map2 midpoint (normalize p) (normalize q) in
  0 <= (Rsum (map2 rel_entr (normalize p) m)
        + Rsum (map2 rel_entr (normalize q) m)) / 2 <= ln 2.
Proof.
  intros Hp Hq Hsp Hsq m.
  pose proof (normalize_nonneg p Hp Hsp) as Hp'.
  pose proof (normalize_nonneg q Hq Hsq) as Hq'.
  pose proof (divergence_nonneg _ _ Hp' Hq') as Hlow.
  pose proof (left_sum_upper _ _ Hp' Hq') as Hl.
  pose proof (right_sum_upper _ _ Hp' Hq') as Hr.
  rewrite (normalize_sum p Hsp) in Hl.
  rewrite (normalize_sum q Hsq) in Hr.
  fold m in Hlow, Hl, Hr. lra.
Qed.

Lemma jensenshannon_bounds (p q : list R) :
  nonneg p -> nonneg q -> 0 < Rsum p -> 0 < Rsum q ->
  0 <= jensenshannon p q <= sqrt (ln 2).
Proof.
  intros Hp Hq Hsp Hsq. split; [apply sqrt_pos |].
  unfold jensenshannon. apply sqrt_le_1_alt.
  apply (jensenshannon_radicand p q Hp Hq Hsp Hsq).
Qed.


End JensenShannonFacts.

(* ================================================================== *)
(** * calculate_drift: the distances in exact arithmetic *)
(* ================================================================== *)

Section DistanceFacts.

Import Scipy Drift.
Open Scope R_scope.

Lemma Rsum_INR (sizes : list nat) :
  Rsum (map INR sizes) = INR (fold_right Nat.add O sizes).
Proof.
  induction sizes as [| k ks IH]; simpl; [reflexivity |].
  rewrite IH, <- plus_INR. reflexivity.
Qed.

Lemma probability_array_ok source index col arr :
  probability_array source index col = inr arr ->
  nonneg arr /\ 0 < Rsum arr.
Proof.
  unfold probability_array.
  set (sizes := map (fun c => size c col) index).
  set (total := fold_right Nat.add O sizes).
  destruct (total =? 0)%nat eqn:E; [discriminate |].
  apply Nat.eqb_neq in E. intros Harr; inversion Harr; subst arr.
  assert (Htotal : 0 < INR total) by (apply lt_0_INR; lia).
  split.
  - unfold nonneg. rewrite Forall_map, Forall_forall. intros k _.
    apply Rle_mult_inv_pos; [apply pos_INR | exact Htotal].
  - rewrite <- (map_map INR (fun x => x / INR total)), Rsum_scale.
    rewrite Rsum_INR. fold total.
    apply Rdiv_lt_0_compat; assumption.
Qed.

Lemma categorical_distance_bounds self col d :
  categorical_distance self col = inr d -> 0 <= d <= sqrt (ln 2).
Proof.
  unfold categorical_distance. intros E.
  apply bind_ok in E as (col_prior & _ & E).
  apply bind_ok in E as (col_post & _ & E).
  destruct (String.eqb col "_source"); [discriminate |].
  apply bind_ok in E as (arr_prior & Hp & E).
  apply bind_ok in E as (arr_post & Hq & E).
  inversion E; subst.
  apply probability_array_ok in Hp as [Hp Hsp].
  apply probability_array_ok in Hq as [Hq Hsq].
  apply jensenshannon_bounds; assumption.
Qed.

(** ** The density estimate *)

Lemma Rsum_pos (l : list R) :
  Forall (fun x => 0 < x) l -> l <> [] -> 0 < Rsum l.
Proof.
  intros Hl Hne. destruct Hl as [| x xs Hx Hxs]; [congruence |].
  simpl. assert (0 <= Rsum xs).
  { apply Rsum_nonneg. eapply Forall_impl; [| exact Hxs].
    simpl; intros; lra. }
  lra.
Qed.

Lemma gaussian_kde_ok values k :
  gaussian_kde values = inr k ->
  0 < covariance k /\ (2 <= List.length (dataset k))%nat /\
  mapM to_float values = inr (dataset k).
Proof.
  unfold gaussian_kde.
  destruct (List.length values <=? 1)%nat eqn:Hlen; [discriminate |].
  apply Nat.leb_gt in Hlen. intros E.
  apply bind_ok in E as (data & Hdata & E).
  destruct (Rlt_dec 0 (sample_variance data)) as [Hvar | _];
    [| discriminate].
  inversion E; subst; simpl. split; [| split].
  - apply Rmult_lt_0_compat; [exact Hvar |].
    apply Rmult_lt_0_compat; apply exp_pos.
  - rewrite (mapM_length _ _ _ Hdata). lia.
  - exact Hdata.
Qed.

Lemma evaluate_pos k x :
  0 < covariance k -> (2 <= List.length (dataset k))%nat ->
  0 < evaluate k x.
Proof.
  intros Hcov Hlen. unfold evaluate.
  apply Rdiv_lt_0_compat.
  - apply Rsum_pos.
    + rewrite Forall_map, Forall_forall. intros xi _. apply exp_pos.
    + destruct (dataset k); simpl in *; [lia | discriminate].
  - apply Rmult_lt_0_compat.
    + apply lt_0_INR; lia.
    + apply sqrt_lt_R0. pose proof PI_RGT_0.
      apply Rmult_lt_0_compat; lra.
Qed.

Lemma linspace_nonempty a b n : linspace a b (S n) <> [].
Proof. unfold linspace. simpl. discriminate. Qed.

Lemma sampled_density_ok k range :
  0 < covariance k -> (2 <= List.length (dataset k))%nat ->
  range <> [] ->
  let arr_ := map (evaluate k) range in
  let arr := map (fun x => x / Rsum arr_) arr_ in
  nonneg arr /\ 0 < Rsum arr.
Proof.
  intros Hcov Hlen Hne arr_ arr.
  assert (Hpos : Forall (fun x => 0 < x) arr_).
  { unfold arr_. rewrite Forall_map, Forall_forall. intros x _.
    apply evaluate_pos; assumption. }
  assert (Hsum : 0 < Rsum arr_).
  { apply Rsum_pos; [exact Hpos |].
    unfold arr_. destruct range; [congruence | discriminate]. }
  split.
  - apply (normalize_nonneg arr_); [| exact Hsum].
    eapply Forall_impl; [| exact Hpos]. simpl; intros; lra.
  - change arr with (normalize arr_).
    rewrite normalize_sum by exact Hsum. lra.
Qed.

Lemma numeric_distance_bounds self col d :
  numeric_distance self col = inr d -> 0 <= d <= sqrt (ln 2).
Proof.
  unfold numeric_distance. intros E.
  apply bind_ok in E as (col_prior & _ & E).
  apply bind_ok in E as (col_post & _ & E).
  apply bind_ok in E as (kde_prior & Hp & E).
  apply bind_ok in E as (kde_post & Hq & E).
  cbv zeta in E.
  apply gaussian_kde_ok in Hp as (Hcp & Hlp & _).
  apply gaussian_kde_ok in Hq as (Hcq & Hlq & _).
  remember (linspace _ _ STEPS) as range_ eqn:Hr in E.
  assert (Hne : range_ <> []).
  { subst range_. unfold STEPS. apply linspace_nonempty. }
  clear Hr.
  destruct (sampled_density_ok kde_prior range_ Hcp Hlp Hne).
  destruct (sampled_density_ok kde_post range_ Hcq Hlq Hne).
  injection E as <-.
  apply jensenshannon_bounds; assumption.
Qed.


End DistanceFacts.

(* ================================================================== *)
(** * The order of cells and the groups of a column *)
(* ================================================================== *)

Section ValueOrder.

Lemma value_compare_refl a : value_compare a a = Eq.
Proof.
  destruct a as [s | q |]; simpl; [| | reflexivity].
  - apply OrderedTypeEx.String_as_OT.cmp_eq; reflexivity.
  - apply Qeq_alt; reflexivity.
Qed.

Lemma value_compare_antisym a b :
  value_compare b a = CompOpp (value_compare a b).
Proof.
  destruct a as [s | q |], b as [s' | q' |]; simpl; try reflexivity.
  - apply OrderedTypeEx.String_as_OT.cmp_antisym.
  - symmetry; apply Qcompare_antisym.
Qed.

Lemma veq_compare_l a b c :
  veq a b -> value_compare a c = value_compare b c.
Proof.
  unfold veq.
  destruct a as [s | q |], b as [s' | q' |]; simpl; try discriminate;
    intros E.
  - apply OrderedTypeEx.String_as_OT.cmp_eq in E; subst; reflexivity.
  - apply Qeq_alt in E. destruct c; simpl; try reflexivity.
    rewrite E; reflexivity.
  - reflexivity.
Qed.



#[local] Instance veq_equivalence : Equivalence veq.
Proof.
  split.
  - intros a; apply value_compare_refl.
  - intros a b E. unfold veq in *.
    rewrite value_compare_antisym, E; reflexivity.
  - intros a b c E1 E2. unfold veq.
    rewrite (veq_compare_l a b c E1). exact E2.
Qed.



Lemma insert_unique_InA x v l :
  InA veq x (insert_unique v l) <-> veq x v \/ InA veq x l.
Proof.
  induction l as [| y ys IH]; simpl.
  - rewrite InA_cons. reflexivity.
  - destruct (value_compare v y) eqn:E.
    + split; [auto |]. intros [Hx | Hin]; [| exact Hin].
      apply InA_cons; left. etransitivity; eassumption.
    + rewrite InA_cons. reflexivity.
    + rewrite !InA_cons, IH. tauto.
Qed.




Lemma categories_InA x l :
  InA veq x (categories l)
  <-> InA veq x (filter (fun v => negb (is_nan v)) l).
Proof.
  unfold categories.
  induction (filter (fun v => negb (is_nan v)) l) as [| y ys IH]; simpl.
  - reflexivity.
  - rewrite insert_unique_InA, InA_cons, IH. reflexivity.
Qed.




End ValueOrder.

(* ================================================================== *)
(** * calculate_drift: exchanging the two frames *)
(* ================================================================== *)

Section SymmetryFacts.

Import Scipy Drift.
Open Scope R_scope.





End SymmetryFacts.

(* ================================================================== *)
(** * __init__ with the two frames exchanged *)
(* ================================================================== *)

Section InitSwapped.

Context `{Conversions}.

Lemma schema_columns df : map fst (schema df) = columns df.
Proof. unfold schema, columns. rewrite map_map. reflexivity. Qed.

Lemma schema_dtypes df : map snd (schema df) = dtypes df.
Proof. unfold schema, dtypes. rewrite map_map. reflexivity. Qed.


Lemma eq_elementwise_refl {A} (eqb : A -> A -> bool) (l : list A) :
  (forall x, eqb x x = true) ->
  exists bs, eq_elementwise eqb l l = inr bs /\ all bs = true.
Proof.
  intros Hrefl. induction l as [| x xs (bs & E & Hall)]; simpl.
  - eexists; split; reflexivity.
  - rewrite E; simpl. eexists; split; [reflexivity |].
    simpl. rewrite Hrefl. exact Hall.
Qed.

Lemma dtype_eqb_refl dt : dtype_eqb dt dt = true.
Proof. destruct dt; simpl; try reflexivity. apply String.eqb_refl. Qed.

Lemma schema_checks_ok a b :
  schema_checks a b = inr tt <->
  columns a = columns b /\ dtypes a = dtypes b.
Proof.
  unfold schema_checks. split.
  - intros E.
    apply bind_ok in E as (names & En & E).
    apply bind_ok in E as ([] & Hn & E).
    apply bind_ok in E as (types & Et & E).
    unfold assert in Hn, E.
    destruct (all names) eqn:Hall; [| discriminate].
    destruct (all types) eqn:Hallt; [| discriminate].
    split.
    + eapply eq_elementwise_all; eauto. intros x y; apply String.eqb_eq.
    + eapply eq_elementwise_all; eauto. apply dtype_eqb_eq.
  - intros [-> ->].
    destruct (eq_elementwise_refl String.eqb (columns b) String.eqb_refl)
      as (names & En & Hn).
    destruct (eq_elementwise_refl dtype_eqb (dtypes b) dtype_eqb_refl)
      as (types & Et & Ht).
    rewrite En. cbn [Py.bind]. rewrite Hn. cbn [Py.bind assert].
    rewrite Et. cbn [Py.bind]. rewrite Ht. reflexivity.
Qed.

Lemma lookup_schema a b c :
  schema a = schema b ->
  (lookup c a = None <-> lookup c b = None).
Proof.
  revert b; induction a as [| [n s] a IH]; intros [| [n' s'] b]; simpl;
    try discriminate; [tauto |].
  intros E. injection E as -> _ E.
  destruct (String.eqb n' c); [split; discriminate | apply IH; exact E].
Qed.



Lemma getitems_length df cols sub :
  getitems df cols = inr sub -> List.length sub = List.length cols.
Proof. apply mapM_length. Qed.



Lemma infer_schema (P : dtype -> bool) df :
  map fst (filter (fun col => P (s_dtype (snd col))) df)
  = map fst (filter (fun p => P (snd p)) (schema df)).
Proof.
  induction df as [| [n s] df IH]; simpl; [reflexivity |].
  destruct (P (s_dtype s)); simpl; rewrite IH; reflexivity.
Qed.


End InitSwapped.



(* ================================================================== *)
(** * calculate_drift: exceptions, and constant samples in exact
      arithmetic *)
(* ================================================================== *)

Section FailureFacts.

Import Scipy Drift.
Open Scope R_scope.

Lemma mapM_error {A B} (f : A -> result B) l e :
  mapM f l = inl e -> exists x, In x l /\ f x = inl e.
Proof.
  induction l as [| x xs IH]; simpl; intros E; [discriminate |].
  apply bind_err in E as [E | (y & _ & E)]; [eauto |].
  apply bind_err in E as [E | (ys & _ & E)]; [| discriminate].
  destruct (IH E) as (x' & Hin & Hx). eauto.
Qed.

Lemma getitem_error df c e : getitem df c = inl e -> drift_error e.
Proof.
  unfold getitem. destruct (lookup c df); [discriminate |].
  intros E; inversion E; subst. left; reflexivity.
Qed.

Lemma drift_error_class e :
  drift_error e -> exn_class e <> "InsufficientDataError".
Proof.
  unfold drift_error. simpl.
  intros [E | [E | [E | [E | []]]]]; rewrite <- E; discriminate.
Qed.

(** ** A constant sample has no positive variance *)








End FailureFacts.

(* ================================================================== *)
(** * _ml_data_prep: the columns of the feature matrices *)
(* ================================================================== *)

Section PrepColumns.

Import Efficacy.
Context `{Conversions} `{TargetEncoder} `{Learner}.

Lemma columns_map_values f df : columns (map_values f df) = columns df.
Proof. unfold columns, map_values. rewrite map_map. reflexivity. Qed.

Lemma drop_columns df c d :
  drop df c = inr d ->
  columns d = filter (fun n => negb (String.eqb n c)) (columns df).
Proof.
  unfold drop. destruct (lookup c df) as [s0 |]; [| discriminate].
  intros E; inversion E; subst. unfold columns. clear s0 E.
  induction df as [| [n s] df IH]; simpl; [reflexivity |].
  destruct (negb (String.eqb n c)); simpl; rewrite IH; reflexivity.
Qed.

Lemma partition_columns df tag d :
  partition df tag = inr d ->
  columns d = filter (fun n => negb (String.eqb n "source")) (columns df).
Proof.
  unfold partition. destruct (lookup "source" df); [| discriminate].
  intros E. apply drop_columns in E.
  rewrite E. unfold mask_rows. rewrite columns_map_values. reflexivity.
Qed.

Lemma setitem_columns df c (s s0 : Series) :
  lookup c df = Some s0 -> columns (setitem df c s) = columns df.
Proof.
  unfold columns.
  induction df as [| [n s1] df IH]; simpl; [discriminate |].
  destruct (String.eqb n c); simpl; [reflexivity |].
  intros E. rewrite (IH E). reflexivity.
Qed.

Lemma setitems_columns cols : forall df new df',
  setitems df cols new = inr df' -> columns df' = columns df.
Proof.
  induction cols as [| c cs IH]; intros df new df' E.
  - destruct new; simpl in E; unfold Py.Ok, Py.Err in E;
      [congruence | discriminate].
  - destruct new as [| [n s1] new]; simpl in E; unfold Py.Err in E;
      [discriminate |].
    destruct (lookup c df) as [s0 |] eqn:Hl; [| discriminate].
    rewrite (IH _ _ _ E). eapply setitem_columns; eassumption.
Qed.

Lemma fit_encode_columns cols rs target df tf df' :
  fit_encode cols rs target df = inr (tf, df') -> columns df' = columns df.
Proof.
  unfold fit_encode. intros E.
  apply bind_ok in E as (X & _ & E).
  apply bind_ok in E as (y & _ & E).
  apply bind_ok in E as (fitted & _ & E).
  apply bind_ok in E as (df0 & Hset & E).
  inversion E; subst. eapply setitems_columns; eassumption.
Qed.

Lemma apply_encode_columns tf cols target df df' :
  apply_encode tf cols target df = inr df' -> columns df' = columns df.
Proof.
  unfold apply_encode. intros E.
  apply bind_ok in E as (X & _ & E).
  apply bind_ok in E as (y & _ & E).
  apply bind_ok in E as (encoded & _ & E).
  eapply setitems_columns; eassumption.
Qed.

Lemma astype_float_columns df d :
  astype_float df = inr d -> columns d = columns df.
Proof.
  unfold astype_float. revert d.
  induction df as [| [n s] df IH]; simpl; intros d E.
  - inversion E; reflexivity.
  - apply bind_ok in E as (col & Hcol & E).
    apply bind_ok in E as (rest & Hrest & E).
    inversion E; subst.
    apply bind_ok in Hcol as (s' & _ & Hcol). inversion Hcol; subst.
    simpl. f_equal. apply IH; exact Hrest.
Qed.

Lemma features_columns df target d :
  features df target = inr d ->
  columns d = filter (fun n => negb (String.eqb n target)) (columns df).
Proof.
  unfold features. intros E.
  apply bind_ok in E as (d0 & Hdrop & E).
  rewrite (astype_float_columns _ _ E). apply drop_columns; exact Hdrop.
Qed.

(** The four matrices carry the columns of the encoded concatenation, less
    the tag and the target. *)
Lemma encode_columns target rs OHE hc parts b :
  encode target rs OHE hc parts = inr b ->
  exists cols,
    columns (X_train_prior b) = cols /\ columns (X_test_prior b) = cols /\
    columns (X_train_post b) = cols /\ columns (X_test_post b) = cols.
Proof.
  destruct parts as [[train_prior test] train_post].
  unfold encode. intros E.
  apply bind_ok in E as (df & _ & E).
  apply bind_ok in E as (tp & Htp & E).
  apply bind_ok in E as (te & Hte & E).
  apply bind_ok in E as (tq & Htq & E).
  apply bind_ok in E as ([tf_prior tp'] & Hfp & E).
  apply bind_ok in E as (te_prior & Hap & E).
  apply bind_ok in E as ([tf_post tq'] & Hfq & E).
  apply bind_ok in E as (te_post & Haq & E).
  apply bind_ok in E as (Xtp & HXtp & E).
  apply bind_ok in E as (ytp & _ & E).
  apply bind_ok in E as (Xep & HXep & E).
  apply bind_ok in E as (yte & _ & E).
  apply bind_ok in E as (Xtq & HXtq & E).
  apply bind_ok in E as (ytq & _ & E).
  apply bind_ok in E as (Xeq & HXeq & E).
  inversion E; subst; simpl.
  apply partition_columns in Htp, Hte, Htq.
  apply fit_encode_columns in Hfp, Hfq.
  apply apply_encode_columns in Hap, Haq.
  apply features_columns in HXtp, HXep, HXtq, HXeq.
  eexists. split; [reflexivity |].
  rewrite HXtp, HXep, HXtq, HXeq, Hfp, Hap, Hfq, Haq, Htp, Hte, Htq.
  repeat split; reflexivity.
Qed.

End PrepColumns.

(** C4. Whenever [_ml_data_prep] completes, the four feature matrices it
    stores have the same column names in the same order, whatever the
    encoding lists, and with or without an external test set. *)
Theorem ml_data_prep_columns_aligned
        `{Conversions} `{Efficacy.TargetEncoder} `{Efficacy.Learner}
        (self self' : Efficacy.obj) (g g' : Efficacy.rng) :
  Efficacy._ml_data_prep self g = inr (self', g') ->
  exists b,
    Efficacy.self_bundle self' = Some b /\
    columns (Efficacy.X_test_prior b) = columns (Efficacy.X_train_prior b) /\
    columns (Efficacy.X_train_post b) = columns (Efficacy.X_train_prior b) /\
    columns (Efficacy.X_test_post b) = columns (Efficacy.X_train_prior b).
Proof.
  unfold Efficacy._ml_data_prep. intros E.
  apply bind_ok in E as (parts_g & _ & E).
  apply bind_ok in E as (OHE & _ & E).
  apply bind_ok in E as (p & _ & E).
  apply bind_ok in E as (hc & _ & E).
  apply bind_ok in E as (b & Hb & E).
  inversion E; subst. exists b. split; [reflexivity |].
  destruct (encode_columns _ _ _ _ _ _ Hb) as (cols & -> & -> & -> & ->).
  repeat split; reflexivity.
Qed.

Lemma ml_data_prep_columns_aligned_witness :
  exists self' g' b,
    Efficacy._ml_data_prep Examples.prepared_color [] = inr (self', g') /\
    Efficacy.self_bundle self' = Some b /\
    columns (Efficacy.X_train_prior b) = ["color_b"; "color_g"; "color_r"] /\
    columns (Efficacy.X_test_prior b) = columns (Efficacy.X_train_prior b) /\
    columns (Efficacy.X_train_post b) = columns (Efficacy.X_train_prior b) /\
    columns (Efficacy.X_test_post b) = columns (Efficacy.X_train_prior b).
Proof.
  destruct (Efficacy._ml_data_prep Examples.prepared_color [])
    as [e | [self' g']] eqn:E; [vm_compute in E; discriminate |].
  destruct (ml_data_prep_columns_aligned _ _ _ _ E)
    as (b & Hb & H1 & H2 & H3).
  exists self', g', b. split; [reflexivity |]. split; [exact Hb |].
  split; [| repeat split; assumption].
  vm_compute in E. inversion E; subst. simpl in Hb. inversion Hb; subst.
  reflexivity.
Defined.


(* ================================================================== *)
(** * compare_ml_efficacy: what a call leaves on the object *)
(* ================================================================== *)

Section CompareFacts.

Import Efficacy.
Context `{Conversions} `{TargetEncoder} `{Learner}.

Lemma configure_carried self target test_data OHE hc cutoff rs ts cv_ n_iter_
      grid_ self0 r :
  configure self target test_data OHE hc cutoff rs ts cv_ n_iter_ grid_
  = (self0, r) ->
  carried self0 = carried self.
Proof.
  unfold configure.
  destruct (assert _ _) as [e | []].
  { intros E; inversion E; reflexivity. }
  destruct (normalise_test _ _) as [e | t]; intros E; inversion E;
    reflexivity.
Qed.

Lemma ml_data_prep_carried self g self' g' :
  _ml_data_prep self g = inr (self', g') -> carried self' = carried self.
Proof.
  unfold _ml_data_prep. intros E.
  apply bind_ok in E as (parts_g & _ & E).
  apply bind_ok in E as (OHE & _ & E).
  apply bind_ok in E as (p & _ & E).
  apply bind_ok in E as (hc & _ & E).
  apply bind_ok in E as (b & _ & E).
  inversion E; subst. reflexivity.
Qed.

(** [_eval_classifier] reads its local [y_test] before it is bound: the call
    never returns. *)
Lemma eval_classifier_raises self : exists e, _eval_classifier self = inl e.
Proof.
  unfold _eval_classifier.
  destruct (getattr "model_prior" (model_prior self)) as [e | mp];
    cbn [Py.bind]; [eauto |].
  destruct (getattr "X_test_prior" (self_bundle self)) as [e | b];
    cbn [Py.bind]; [eauto |].
  destruct (predict mp (X_test_prior b)) as [e | y_pred_prior];
    cbn [Py.bind]; [eauto |].
  destruct (getattr "model_post" (model_post self)) as [e | mq];
    cbn [Py.bind]; [eauto |].
  destruct (predict mq (X_test_post b)) as [e | y_pred_post];
    cbn [Py.bind]; [eauto |].
  destruct (frame_of_y_test self) as [e | y_test_];
    cbn [Py.bind]; [eauto |].
  unfold load_fast, Py.Err. cbn [Py.bind]. eauto.
Qed.

(** When both models predict, the exception is the [UnboundLocalError] of
    line 736. *)
Lemma eval_classifier_unbound_local self mp mq b y_pred_prior y_pred_post p :
  model_prior self = Some mp -> model_post self = Some mq ->
  self_bundle self = Some b -> self_params self = Some p ->
  predict mp (X_test_prior b) = inr y_pred_prior ->
  predict mq (X_test_post b) = inr y_pred_post ->
  _eval_classifier self
  = inl (Raise "UnboundLocalError"
           "local variable 'y_test' referenced before assignment").
Proof.
  intros Hmp Hmq Hb Hp Hpp Hpq.
  unfold _eval_classifier, frame_of_y_test.
  rewrite Hmp, Hmq, Hb, Hp. cbn [getattr Py.bind Py.Ok].
  rewrite Hpp. cbn [Py.bind]. rewrite Hpq. reflexivity.
Qed.

(** The loop the raising line guards: two rows per evaluated class. *)
Lemma class_rows_length labels y_test y_pred_prior y_pred_post iters :
  forall res rows,
    class_rows labels y_test y_pred_prior y_pred_post iters res = inr rows ->
    List.length rows = (List.length res + 2 * List.length iters)%nat.
Proof.
  induction iters as [| i rest IH]; simpl; intros res rows E.
  - inversion E; subst. lia.
  - apply bind_ok in E as (prior & _ & E).
    apply bind_ok in E as (post & _ & E).
    apply IH in E. rewrite E, length_app. simpl. lia.
Qed.

(** Had [y_test] been bound, the report would have two rows for two
    classes and two rows per class otherwise. *)
Lemma classifier_report_rows y_pred_prior y_pred_post y_test rows :
  classifier_report y_pred_prior y_pred_post y_test = inr rows ->
  exists k : nat,
    List.length rows = if (k =? 2)%nat then 2%nat else (2 * k)%nat.
Proof.
  unfold classifier_report. intros E.
  apply bind_ok in E as (yp & _ & E).
  apply bind_ok in E as (yq & _ & E).
  apply bind_ok in E as (y_ & _ & E).
  apply bind_ok in E as (mp & _ & E).
  apply bind_ok in E as (mq & _ & E).
  apply bind_ok in E as (mt & _ & E).
  apply bind_ok in E as (y_' & _ & E).
  destruct (len mt =? 0)%nat; [discriminate |].
  exists (List.length mt).
  apply class_rows_length in E. rewrite E.
  destruct (List.length mt =? 2)%nat; simpl; [reflexivity |].
  rewrite length_seq. lia.
Qed.

End CompareFacts.

(** C9. If the target column has no role (it is in neither column list),
    and the arguments pass the checks and the data preparation completes,
    [compare_ml_efficacy] builds no model and computes no report: the models
    and the report on the object are those of before the call, and the call
    returns the report stored by an earlier call, or raises
    [AttributeError] when there is none. *)
Theorem compare_ml_efficacy_target_without_role
        `{Conversions} `{Efficacy.TargetEncoder} `{Efficacy.Learner}
        (self self0 self1 : Efficacy.obj)
        (target_column : string) (test_data : option DataFrame)
        (OHE_columns high_cardinality_columns : option (list string))
        (OHE_columns_cutoff : Z) (random_state : option Z) (train_size : Q)
        (cv n_iter : nat) (param_grid : Efficacy.grid)
        (g g1 : Efficacy.rng) :
  mem target_column (categorical_columns (Efficacy.detector self)) = false ->
  mem target_column (numeric_columns (Efficacy.detector self)) = false ->
  Efficacy.configure self target_column test_data OHE_columns
    high_cardinality_columns OHE_columns_cutoff random_state train_size
    cv n_iter param_grid = (self0, inr tt) ->
  Efficacy._ml_data_prep self0 g = inr (self1, g1) ->
  Efficacy.compare_ml_efficacy self target_column test_data OHE_columns
    high_cardinality_columns OHE_columns_cutoff random_state train_size
    cv n_iter param_grid g
  = (self1,
     match Efficacy.ml_report self with
     | Some report => inr report
     | None =>
         inl (Raise "AttributeError"
                "'DataDriftDetector' object has no attribute 'ml_report'")
     end)
  /\ Efficacy.model_prior self1 = Efficacy.model_prior self
  /\ Efficacy.model_post self1 = Efficacy.model_post self
  /\ Efficacy.ml_report self1 = Efficacy.ml_report self.
Proof.
  intros Hcat Hnum Hcfg Hprep.
  pose proof (configure_carried _ _ _ _ _ _ _ _ _ _ _ _ _ Hcfg) as Hc0.
  pose proof (ml_data_prep_carried _ _ _ _ Hprep) as Hc1.
  unfold Efficacy.carried in Hc0, Hc1. rewrite Hc0 in Hc1.
  injection Hc1 as Hd Hmp Hmq Hr.
  unfold Efficacy.compare_ml_efficacy.
  rewrite Hcfg, Hprep, Hcat, Hnum, Hr.
  split; [reflexivity |]. repeat split; assumption.
Qed.

Lemma compare_ml_efficacy_target_without_role_witness :
  __init__ Examples.flag_prior Examples.flag_post None None
  = inr Examples.detector_flag /\
  exists self0 self1 g1,
    Efficacy.configure (Efficacy.new Examples.detector_flag) "flag" None
      None None 5%Z (Some 7%Z) (1 # 2) 3 5 Examples.no_grid = (self0, inr tt) /\
    Efficacy._ml_data_prep self0 [] = inr (self1, g1) /\
    Efficacy.compare_ml_efficacy (Efficacy.new Examples.detector_flag)
      "flag" None None None 5%Z (Some 7%Z) (1 # 2) 3 5 Examples.no_grid []
    = (self1,
       inl (Raise "AttributeError"
              "'DataDriftDetector' object has no attribute 'ml_report'")) /\
    Efficacy.model_prior self1 = None.
Proof.
  split; [vm_compute; reflexivity |].
  destruct (Efficacy.configure (Efficacy.new Examples.detector_flag) "flag"
              None None None 5%Z (Some 7%Z) (1 # 2) 3 5 Examples.no_grid)
    as [self0 [e | []]] eqn:Hcfg; [vm_compute in Hcfg; discriminate |].
  destruct (Efficacy._ml_data_prep self0 []) as [e | [self1 g1]] eqn:Hprep.
  { vm_compute in Hcfg. inversion Hcfg; subst.
    vm_compute in Hprep. discriminate. }
  destruct (compare_ml_efficacy_target_without_role
              (Efficacy.new Examples.detector_flag) self0 self1
              "flag" None None None 5%Z (Some 7%Z) (1 # 2) 3 5 Examples.no_grid [] g1
              eq_refl eq_refl Hcfg Hprep) as (Hret & Hmp & _ & _).
  exists self0, self1, g1. repeat split; assumption.
Defined.

(** C1 (the code at a failing input). A classification run on a binary
    target with a fitted pair of models raises [UnboundLocalError] instead
    of returning the two-row report: line 736 reads the local [y_test],
    which the body binds only at line 749. *)
Theorem compare_ml_efficacy_classification_raises :
  __init__ Examples.label_prior Examples.label_post None None
  = inr Examples.detector_label /\
  mem "label" (categorical_columns Examples.detector_label) = true /\
  snd (Efficacy.compare_ml_efficacy (Efficacy.new Examples.detector_label)
         "label" None None None 5%Z (Some 7%Z) (1 # 2) 3 5 Examples.no_grid [])
  = inl (Raise "UnboundLocalError"
           "local variable 'y_test' referenced before assignment").
Proof.
  split; [vm_compute; reflexivity |].
  split; [reflexivity |]. vm_compute. reflexivity.
Qed.

(* ================================================================== *)
(** * _ml_data_prep: the shuffle and the seed *)
(* ================================================================== *)




(* ================================================================== *)
(** * _ml_data_prep: what each lineage's matrices depend on *)
(* ================================================================== *)

Section Lineages.

Import Efficacy.
Context `{Conversions} `{TargetEncoder}.

(** ** Rows selected by a tag *)

Lemma value_eqb_str t s : value_eqb t (VStr s) = true -> t = VStr s.
Proof.
  unfold value_eqb. destruct t as [s' | q |]; simpl; try discriminate.
  destruct (String.compare s' s) eqn:E; try discriminate. intros _.
  apply OrderedTypeEx.String_as_OT.cmp_eq in E. congruence.
Qed.

Lemma agree_tagged_select d src v1 v2 tag :
  agree_tagged d src v1 v2 -> VStr tag <> d ->
  select (map (fun t => value_eqb t (VStr tag)) src) v1
  = select (map (fun t => value_eqb t (VStr tag)) src) v2.
Proof.
  intros Hagree Htag.
  induction Hagree as [| t x1 x2 src v1 v2 Hx _ IH]; simpl; [reflexivity |].
  destruct (value_eqb t (VStr tag)) eqn:E; [| exact IH].
  apply value_eqb_str in E. subst t. rewrite (Hx Htag), IH. reflexivity.
Qed.

Lemma agree_tagged_app d s s' v1 v1' v2 v2' :
  agree_tagged d s v1 v2 -> agree_tagged d s' v1' v2' ->
  agree_tagged d (s ++ s') (v1 ++ v1') (v2 ++ v2').
Proof.
  induction 1; simpl; intros H'; [exact H' |].
  constructor; auto.
Qed.

Lemma agree_tagged_repeat d t n v1 v2 :
  List.length v1 = n -> List.length v2 = n ->
  (t <> d -> v1 = v2) ->
  agree_tagged d (repeat t n) v1 v2.
Proof.
  revert v1 v2; induction n as [| n IH]; intros [| x1 v1] [| x2 v2];
    simpl; try discriminate; intros H1 H2 Heq.
  - constructor.
  - constructor.
    + intros Ht. specialize (Heq Ht). congruence.
    + apply IH; [lia | lia |]. intros Ht. specialize (Heq Ht). congruence.
Qed.

(** ** Frames that agree outside the differing rows *)

Lemma frames_agree_refl d src target df : frames_agree d src target df df.
Proof.
  induction df; constructor; [split; auto | assumption].
Qed.

Lemma frames_agree_lookup d src target df1 df2 c :
  frames_agree d src target df1 df2 -> c <> target ->
  lookup c df1 = lookup c df2.
Proof.
  intros Hagree Hc.
  induction Hagree as [| [n1 s1] [n2 s2] df1 df2 (Hn & Hs) _ IH]; simpl;
    [reflexivity |].
  simpl in Hn, Hs. subst n2.
  destruct (String.eqb n1 c) eqn:E; [| exact IH].
  apply String.eqb_eq in E. subst n1.
  destruct Hs as [-> | (Ht & _)]; [reflexivity | congruence].
Qed.

Lemma frames_agree_mask_rows d src target df1 df2 tag :
  frames_agree d src target df1 df2 -> VStr tag <> d ->
  mask_rows (map (fun t => value_eqb t (VStr tag)) src) df1
  = mask_rows (map (fun t => value_eqb t (VStr tag)) src) df2.
Proof.
  intros Hagree Htag. unfold mask_rows, map_values.
  induction Hagree as [| [n1 s1] [n2 s2] df1 df2 (Hn & Hs) _ IH]; simpl;
    [reflexivity |].
  simpl in Hn, Hs. subst n2. rewrite IH. f_equal. f_equal.
  destruct Hs as [-> | (_ & Hdt & Hv)]; [reflexivity |].
  rewrite Hdt, (agree_tagged_select _ _ _ _ _ Hv Htag). reflexivity.
Qed.

Lemma frames_agree_partition d src target df1 df2 tag :
  frames_agree d src target df1 df2 ->
  target <> "source" -> VStr tag <> d ->
  (forall s, lookup "source" df1 = Some s -> s_values s = src) ->
  partition df1 tag = partition df2 tag.
Proof.
  intros Hagree Htarget Htag Hsrc. unfold partition.
  rewrite <- (frames_agree_lookup _ _ _ _ _ "source" Hagree)
    by congruence.
  destruct (lookup "source" df1) as [source |] eqn:Hl; [| reflexivity].
  rewrite (Hsrc _ eq_refl).
  rewrite (frames_agree_mask_rows _ _ _ _ _ tag Hagree Htag).
  reflexivity.
Qed.

(** ** One-hot expansion *)

Lemma getitems_agree d src target df1 df2 cols :
  frames_agree d src target df1 df2 ->
  (forall c, In c cols -> c <> target) ->
  getitems df1 cols = getitems df2 cols.
Proof.
  intros Hagree Hcols. unfold getitems, getitem.
  induction cols as [| c cs IH]; simpl; [reflexivity |].
  rewrite (frames_agree_lookup _ _ _ _ _ c Hagree)
    by (apply Hcols; left; reflexivity).
  rewrite IH by (intros c' Hc'; apply Hcols; right; exact Hc').
  reflexivity.
Qed.

Lemma frames_agree_filter d src target df1 df2 (P : string -> bool) :
  frames_agree d src target df1 df2 ->
  frames_agree d src target
    (filter (fun col => P (fst col)) df1)
    (filter (fun col => P (fst col)) df2).
Proof.
  induction 1 as [| c1 c2 df1 df2 Hc _ IH]; simpl; [constructor |].
  destruct Hc as (Hn & Hs). rewrite <- Hn.
  destruct (P (fst c1)); [constructor; [split; assumption |] |]; exact IH.
Qed.

Lemma get_dummies_agree d src target df1 df2 cols d1 d2 :
  frames_agree d src target df1 df2 ->
  (forall c, In c cols -> c <> target) ->
  get_dummies df1 cols = inr d1 -> get_dummies df2 cols = inr d2 ->
  frames_agree d src target d1 d2.
Proof.
  intros Hagree Hcols. unfold get_dummies.
  rewrite (getitems_agree _ _ _ _ _ _ Hagree Hcols).
  destruct (getitems df2 cols) as [e | X]; cbn [Py.bind]; [discriminate |].
  intros E1 E2. inversion E1; inversion E2; subst.
  apply Forall2_app.
  - apply (frames_agree_filter _ _ _ _ _
             (fun n => negb (mem n cols)) Hagree).
  - apply frames_agree_refl.
Qed.

Lemma lookup_app c (a b : DataFrame) :
  lookup c (a ++ b)
  = match lookup c a with Some s => Some s | None => lookup c b end.
Proof.
  induction a as [| [n s] a IH]; simpl; [reflexivity |].
  destruct (String.eqb n c); [reflexivity | exact IH].
Qed.

Lemma lookup_filter c (P : string -> bool) (df : DataFrame) :
  lookup c (filter (fun col => P (fst col)) df)
  = if P c then lookup c df else None.
Proof.
  induction df as [| [n s] df IH]; simpl; [destruct (P c); reflexivity |].
  destruct (String.eqb n c) eqn:E.
  - apply String.eqb_eq in E. subst n.
    destruct (P c) eqn:HP; simpl.
    + rewrite String.eqb_refl. reflexivity.
    + exact IH.
  - destruct (P n); simpl; [rewrite E |]; exact IH.
Qed.

(** No indicator column is called "source": its name has an underscore. *)
Lemma dummy_name_not_source (c x : string) :
  (c ++ "_" ++ x)%string <> "source".
Proof.
  intros E.
  do 6 (destruct c as [| ? c]; simpl in E;
        [discriminate | injection E as _ E]).
  destruct c; discriminate.
Qed.

Lemma lookup_dummies_source (X : DataFrame) :
  lookup "source" (flat_map (fun col => dummies (fst col) (snd col)) X)
  = None.
Proof.
  induction X as [| [c s] X IH]; simpl; [reflexivity |].
  rewrite lookup_app, IH. unfold dummies.
  induction (categories (s_values s)) as [| level levels IHl]; simpl;
    [reflexivity |].
  destruct (String.eqb _ "source") eqn:E; [| exact IHl].
  apply String.eqb_eq in E. exfalso.
  exact (dummy_name_not_source _ _ E).
Qed.

Lemma get_dummies_source df cols d s :
  get_dummies df cols = inr d ->
  lookup "source" d = Some s -> lookup "source" df = Some s.
Proof.
  unfold get_dummies. intros E.
  apply bind_ok in E as (X & _ & E). inversion E; subst.
  rewrite lookup_app,
    (lookup_filter "source" (fun n => negb (mem n cols)) df),
    lookup_dummies_source.
  destruct (negb (mem "source" cols)); [| discriminate].
  destruct (lookup "source" df); [auto | discriminate].
Qed.

(** ** Partitions of the same shape *)

Lemma same_except_refl target F : same_except target F F.
Proof. induction F; constructor; auto. Qed.

Lemma same_except_columns target F1 F2 :
  same_except target F1 F2 -> columns F1 = columns F2.
Proof.
  induction 1 as [| c1 c2 F1 F2 (Hn & _) _ IH]; simpl; [reflexivity |].
  rewrite Hn. f_equal. exact IH.
Qed.

Lemma same_except_len target F1 F2 :
  same_except target F1 F2 -> len F1 = len F2.
Proof.
  destruct 1 as [| [n1 s1] [n2 s2] F1 F2 (_ & _ & Hl & _) _]; simpl;
    [reflexivity | exact Hl].
Qed.

Lemma same_except_lookup target F1 F2 c :
  same_except target F1 F2 -> c <> target -> lookup c F1 = lookup c F2.
Proof.
  intros Hsame Hc.
  induction Hsame as [| [n1 s1] [n2 s2] F1 F2 (Hn & _ & _ & Hs) _ IH];
    simpl; [reflexivity |].
  simpl in Hn, Hs. subst n2.
  destruct (String.eqb n1 c) eqn:E; [| exact IH].
  apply String.eqb_eq in E. subst n1. rewrite (Hs Hc). reflexivity.
Qed.

Lemma same_except_lookup_dtype target F1 F2 c :
  same_except target F1 F2 ->
  option_map s_dtype (lookup c F1) = option_map s_dtype (lookup c F2).
Proof.
  induction 1 as [| [n1 s1] [n2 s2] F1 F2 (Hn & Hdt & _) _ IH]; simpl;
    [reflexivity |].
  simpl in Hn, Hdt. subst n2.
  destruct (String.eqb n1 c); [simpl; congruence | exact IH].
Qed.

Lemma same_except_setitem target F1 F2 c (s : Series) :
  same_except target F1 F2 ->
  same_except target (setitem F1 c s) (setitem F2 c s).
Proof.
  induction 1 as [| [n1 s1] [n2 s2] F1 F2 Hc Hrest IH]; simpl.
  - constructor; [auto | constructor].
  - pose proof Hc as (Hn & _). simpl in Hn. subst n2.
    destruct (String.eqb n1 c).
    + constructor; [simpl; auto | exact Hrest].
    + constructor; [exact Hc | exact IH].
Qed.

Lemma lookup_setitem c (s : Series) df : lookup c (setitem df c s) = Some s.
Proof.
  induction df as [| [n s0] df IH]; simpl.
  - rewrite String.eqb_refl. reflexivity.
  - destruct (String.eqb n c) eqn:E; simpl; rewrite E; [reflexivity | exact IH].
Qed.

Lemma len_setitem df c (s : Series) :
  List.length (s_values s) = len df -> len (setitem df c s) = len df.
Proof.
  destruct df as [| [n s0] df]; simpl; [auto |].
  destruct (String.eqb n c); simpl; auto.
Qed.

Lemma all_length_setitem n df c (s : Series) :
  Forall (fun col => List.length (s_values (snd col)) = n) df ->
  List.length (s_values s) = n ->
  Forall (fun col => List.length (s_values (snd col)) = n) (setitem df c s).
Proof.
  intros Hall Hs.
  induction Hall as [| [n0 s0] df Hcol Hrest IH]; simpl.
  - constructor; [exact Hs | constructor].
  - destruct (String.eqb n0 c); constructor; auto.
Qed.

Lemma rectangular_setitem df c (s : Series) :
  rectangular df -> List.length (s_values s) = len df ->
  rectangular (setitem df c s).
Proof.
  intros Hrect Hs. unfold rectangular.
  rewrite (len_setitem df c s Hs).
  apply all_length_setitem; assumption.
Qed.

Lemma tagged_set_scalar d target tag F1 F2 :
  tagged d target tag F1 F2 ->
  tagged d target tag (set_scalar F1 "source" tag)
                      (set_scalar F2 "source" tag).
Proof.
  intros (Hsame & Hr1 & Hr2 & Heq). unfold set_scalar.
  rewrite <- (same_except_len _ _ _ Hsame).
  repeat split.
  - apply same_except_setitem; exact Hsame.
  - apply rectangular_setitem; [exact Hr1 |].
    simpl. apply repeat_length.
  - apply rectangular_setitem; [exact Hr2 |].
    simpl. rewrite repeat_length. apply (same_except_len _ _ _ Hsame).
  - intros Hd. rewrite (Heq Hd). reflexivity.
Qed.

Lemma len_set_scalar F c v : len (set_scalar F c v) = len F.
Proof.
  unfold set_scalar. apply len_setitem. simpl. apply repeat_length.
Qed.

Lemma lookup_set_scalar F c v :
  lookup c (set_scalar F c v)
  = Some (mkSeries object (repeat (VStr v) (len F))).
Proof. unfold set_scalar. apply lookup_setitem. Qed.

(** ** Concatenation *)

Lemma mem_app c l1 l2 : mem c (l1 ++ l2) = (mem c l1 || mem c l2)%bool.
Proof. unfold mem. apply existsb_app. Qed.

Lemma mem_fold_add_name c l acc :
  mem c (fold_left add_name l acc) = (mem c acc || mem c l)%bool.
Proof.
  revert acc; induction l as [| n l IH]; intros acc; simpl.
  - rewrite orb_false_r. reflexivity.
  - rewrite IH. unfold add_name.
    destruct (mem n acc) eqn:Hn.
    + destruct (String.eqb c n) eqn:E; [| reflexivity].
      apply String.eqb_eq in E. subst n. rewrite Hn. reflexivity.
    + rewrite mem_app. simpl. rewrite orb_false_r, orb_assoc. reflexivity.
Qed.

Lemma lookup_named (f : string -> Series) names c :
  lookup c (map (fun n => (n, f n)) names)
  = if mem c names then Some (f c) else None.
Proof.
  induction names as [| n names IH]; simpl; [reflexivity |].
  rewrite (String.eqb_sym c n).
  destruct (String.eqb n c) eqn:E; simpl; [| exact IH].
  apply String.eqb_eq in E. subst n. reflexivity.
Qed.

Lemma first_dtype_cons c F rest :
  first_dtype c (F :: rest)
  = match option_map s_dtype (lookup c F) with
    | Some dt => dt
    | None => first_dtype c rest
    end.
Proof. simpl. destruct (lookup c F); reflexivity. Qed.

Lemma column_or_nan_length c F :
  rectangular F -> List.length (column_or_nan c F) = len F.
Proof.
  intros Hrect. unfold column_or_nan.
  destruct (lookup c F) as [s |] eqn:Hl; [| apply repeat_length].
  unfold rectangular in Hrect. revert Hrect. generalize (len F) as n.
  intros n Hrect. revert Hl.
  induction Hrect as [| [n0 s0] df Hcol _ IH]; simpl; intros Hl;
    [discriminate |].
  destruct (String.eqb n0 c); [| exact (IH Hl)].
  injection Hl as <-. exact Hcol.
Qed.

Lemma tagged_column d target tag F1 F2 c :
  tagged d target tag F1 F2 ->
  agree_tagged d (repeat (VStr tag) (len F1))
               (column_or_nan c F1) (column_or_nan c F2).
Proof.
  intros (Hsame & Hr1 & Hr2 & Heq).
  apply agree_tagged_repeat.
  - apply column_or_nan_length; exact Hr1.
  - rewrite (same_except_len _ _ _ Hsame).
    apply column_or_nan_length; exact Hr2.
  - intros Hd. rewrite (Heq Hd). reflexivity.
Qed.

Lemma tagged_column_other d target tag F1 F2 c :
  tagged d target tag F1 F2 -> c <> target ->
  column_or_nan c F1 = column_or_nan c F2.
Proof.
  intros (Hsame & _) Hc. unfold column_or_nan.
  rewrite (same_except_lookup _ _ _ c Hsame Hc),
          (same_except_len _ _ _ Hsame).
  reflexivity.
Qed.

Lemma Forall2_map_same {A B} (R : B -> B -> Prop) (f g : A -> B) l :
  (forall x, R (f x) (g x)) -> Forall2 R (map f l) (map g l).
Proof. intros Hfg. induction l; simpl; constructor; auto. Qed.

(** The concatenation of three tagged partitions agrees, in two runs,
    outside the rows of the differing partition. *)
Lemma concat_agree d target tA tB tC A1 A2 B1 B2 C1 C2 :
  tagged d target tA A1 A2 -> tagged d target tB B1 B2 ->
  tagged d target tC C1 C2 ->
  frames_agree d
    (repeat (VStr tA) (len A1) ++ repeat (VStr tB) (len B1)
     ++ repeat (VStr tC) (len C1))
    target (concat [A1; B1; C1]) (concat [A2; B2; C2]).
Proof.
  intros HA HB HC. unfold concat, union_columns.
  pose proof HA as (HsA & _). pose proof HB as (HsB & _).
  pose proof HC as (HsC & _).
  cbn [flat_map].
  rewrite <- (same_except_columns _ _ _ HsA),
          <- (same_except_columns _ _ _ HsB),
          <- (same_except_columns _ _ _ HsC).
  apply Forall2_map_same. intros c. split; [reflexivity |].
  cbn [fst snd s_dtype s_values].
  assert (Hdt : first_dtype c [A1; B1; C1] = first_dtype c [A2; B2; C2]).
  { rewrite !first_dtype_cons.
    rewrite (same_except_lookup_dtype _ _ _ c HsA),
            (same_except_lookup_dtype _ _ _ c HsB),
            (same_except_lookup_dtype _ _ _ c HsC).
    reflexivity. }
  destruct (String.eqb c target) eqn:E.
  - right. apply String.eqb_eq in E. split; [exact E |].
    split; [exact Hdt |].
    rewrite !app_nil_r.
    repeat apply agree_tagged_app; eapply tagged_column; eassumption.
  - left. apply String.eqb_neq in E. rewrite Hdt.
    rewrite (tagged_column_other _ _ _ _ _ c HA E),
            (tagged_column_other _ _ _ _ _ c HB E),
            (tagged_column_other _ _ _ _ _ c HC E).
    reflexivity.
Qed.

(** The tags of the concatenation of three tagged partitions. *)
Lemma concat_source tA tB tC A B C s :
  lookup "source"
    (concat [set_scalar A "source" tA; set_scalar B "source" tB;
             set_scalar C "source" tC]) = Some s ->
  s_values s
  = repeat (VStr tA) (len (set_scalar A "source" tA))
    ++ repeat (VStr tB) (len (set_scalar B "source" tB))
    ++ repeat (VStr tC) (len (set_scalar C "source" tC)).
Proof.
  unfold concat.
  rewrite (lookup_named
             (fun c => mkSeries (first_dtype c _) (flat_map (column_or_nan c) _))).
  destruct (mem "source" _); [| discriminate].
  intros E. inversion E; subst. cbn [s_values flat_map].
  unfold column_or_nan. rewrite !lookup_set_scalar, !len_set_scalar.
  cbn [s_values]. rewrite app_nil_r. reflexivity.
Qed.

(** ** The partitions of the encoded concatenation *)

Lemma encoded_partition_agree d target cols tp1 tp2 te1 te2 tq1 tq2
      d1 d2 tag :
  target <> "source" ->
  tagged d target "Train Prior" tp1 tp2 ->
  tagged d target "Test" te1 te2 ->
  tagged d target "Train Post" tq1 tq2 ->
  (forall c, In c cols -> c <> target) ->
  get_dummies
    (concat [set_scalar tp1 "source" "Train Prior";
             set_scalar te1 "source" "Test";
             set_scalar tq1 "source" "Train Post"]) cols = inr d1 ->
  get_dummies
    (concat [set_scalar tp2 "source" "Train Prior";
             set_scalar te2 "source" "Test";
             set_scalar tq2 "source" "Train Post"]) cols = inr d2 ->
  VStr tag <> d ->
  partition d1 tag = partition d2 tag.
Proof.
  intros Htarget Hp He Hq Hcols E1 E2 Htag.
  apply tagged_set_scalar in Hp, He, Hq.
  pose proof (concat_agree _ _ _ _ _ _ _ _ _ _ _ Hp He Hq) as Hagree.
  eapply frames_agree_partition;
    [eapply get_dummies_agree; eassumption | exact Htarget | exact Htag |].
  intros s Hs. apply (get_dummies_source _ _ _ _ E1) in Hs.
  apply concat_source in Hs. exact Hs.
Qed.

Lemma tagged_same d target tag F : rectangular F -> tagged d target tag F F.
Proof.
  intros Hr. repeat split; auto. apply same_except_refl.
Qed.

Lemma tagged_differing target tag F1 F2 :
  same_except target F1 F2 -> rectangular F1 -> rectangular F2 ->
  tagged (VStr tag) target tag F1 F2.
Proof.
  intros Hs Hr1 Hr2. repeat split; auto. intros Hne. congruence.
Qed.

Lemma filter_not_target target cols c :
  In c (filter (fun col => negb (String.eqb col target)) cols) ->
  c <> target.
Proof.
  intros Hin. apply filter_In in Hin as (_ & Hc).
  apply negb_true_iff, String.eqb_neq in Hc. exact Hc.
Qed.

(** A target column called "source" is overwritten by the tags and dropped
    with them: no lineage can be encoded. *)
Lemma drop_lookup df c d : drop df c = inr d -> lookup c d = None.
Proof.
  unfold drop. destruct (lookup c df); [| discriminate].
  intros E. inversion E; subst.
  rewrite (lookup_filter c (fun n => negb (String.eqb n c)) df).
  rewrite String.eqb_refl. reflexivity.
Qed.

Lemma lineage_target_source OHE parts tp te tq rs hc r :
  one_hot_partitions "source" OHE parts = inr (tp, te, tq) ->
  lineage_matrices "source" rs hc tp te = inr r -> False.
Proof.
  destruct parts as [[train_prior test] train_post].
  unfold one_hot_partitions, lineage_matrices. intros E Hl.
  apply bind_ok in E as (df & _ & E).
  apply bind_ok in E as (tp' & Htp & E).
  apply bind_ok in E as (te' & _ & E).
  apply bind_ok in E as (tq' & _ & E).
  inversion E; subst.
  unfold partition in Htp.
  destruct (lookup "source" df); [| discriminate].
  apply drop_lookup in Htp.
  apply bind_ok in Hl as (fitted & Hfit & _).
  unfold fit_encode in Hfit.
  apply bind_ok in Hfit as (X & _ & Hfit).
  apply bind_ok in Hfit as (y & Hy & _).
  unfold getitem in Hy. rewrite Htp in Hy. discriminate.
Qed.

(** A completed [encode] is the one-hot partitioning followed, for each
    lineage, by its own encoder on its own training partition. *)
Lemma encode_factor target rs OHE hc parts b :
  encode target rs OHE hc parts = inr b ->
  exists tp te tq,
    one_hot_partitions target OHE parts = inr (tp, te, tq) /\
    lineage_matrices target rs hc tp te
    = inr (X_train_prior b, X_test_prior b) /\
    lineage_matrices target rs hc tq te
    = inr (X_train_post b, X_test_post b).
Proof.
  destruct parts as [[train_prior test] train_post].
  unfold encode, one_hot_partitions, lineage_matrices. intros E.
  apply bind_ok in E as (df & Hdf & E).
  apply bind_ok in E as (tp & Htp & E).
  apply bind_ok in E as (te & Hte & E).
  apply bind_ok in E as (tq & Htq & E).
  apply bind_ok in E as ([tf_prior tp'] & Hfp & E).
  apply bind_ok in E as (te_prior & Hap & E).
  apply bind_ok in E as ([tf_post tq'] & Hfq & E).
  apply bind_ok in E as (te_post & Haq & E).
  apply bind_ok in E as (Xtp & HXtp & E).
  apply bind_ok in E as (ytp & _ & E).
  apply bind_ok in E as (Xep & HXep & E).
  apply bind_ok in E as (yte & _ & E).
  apply bind_ok in E as (Xtq & HXtq & E).
  apply bind_ok in E as (ytq & _ & E).
  apply bind_ok in E as (Xeq & HXeq & E).
  inversion E; subst.
  cbn [X_train_prior X_test_prior X_train_post X_test_post].
  exists tp, te, tq.
  rewrite Hdf. cbn [Py.bind]. rewrite Htp. cbn [Py.bind].
  rewrite Hte. cbn [Py.bind]. rewrite Htq. cbn [Py.bind].
  split; [reflexivity |].
  rewrite Hfp, Hfq. cbn [Py.bind fst snd].
  rewrite Hap, Haq. cbn [Py.bind].
  rewrite HXtp, HXtq. cbn [Py.bind].
  rewrite HXep, HXeq. split; reflexivity.
Qed.

(** The prior-training and the test partition after the one-hot expansion
    do not depend on the target values of the post-training rows. *)
Lemma one_hot_partitions_prior target OHE tp te tq1 tq2 a1 b1 c1 a2 b2 c2 :
  target <> "source" ->
  rectangular tp -> rectangular te -> rectangular tq1 -> rectangular tq2 ->
  same_except target tq1 tq2 ->
  one_hot_partitions target OHE (tp, te, tq1) = inr (a1, b1, c1) ->
  one_hot_partitions target OHE (tp, te, tq2) = inr (a2, b2, c2) ->
  a1 = a2 /\ b1 = b2.
Proof.
  intros Htarget Hp He Hq1 Hq2 Hsame E1 E2.
  unfold one_hot_partitions in E1, E2.
  apply bind_ok in E1 as (d1 & Hd1 & E1).
  apply bind_ok in E1 as (x1 & Hx1 & E1).
  apply bind_ok in E1 as (y1 & Hy1 & E1).
  apply bind_ok in E1 as (z1 & _ & E1).
  apply bind_ok in E2 as (d2 & Hd2 & E2).
  apply bind_ok in E2 as (x2 & Hx2 & E2).
  apply bind_ok in E2 as (y2 & Hy2 & E2).
  apply bind_ok in E2 as (z2 & _ & E2).
  inversion E1; inversion E2; subst.
  assert (Hagree : forall tag, VStr tag <> VStr "Train Post" ->
                               partition d1 tag = partition d2 tag).
  { intros tag Htag.
    eapply (encoded_partition_agree (VStr "Train Post") target);
      [exact Htarget | apply tagged_same; exact Hp
       | apply tagged_same; exact He
       | apply tagged_differing; eassumption
       | apply filter_not_target | exact Hd1 | exact Hd2 | exact Htag]. }
  rewrite (Hagree "Train Prior") in Hx1 by discriminate.
  rewrite (Hagree "Test") in Hy1 by discriminate.
  split; congruence.
Qed.

(** Symmetrically for the post-training and the test partition. *)
Lemma one_hot_partitions_post target OHE tp1 tp2 te tq a1 b1 c1 a2 b2 c2 :
  target <> "source" ->
  rectangular tp1 -> rectangular tp2 -> rectangular te -> rectangular tq ->
  same_except target tp1 tp2 ->
  one_hot_partitions target OHE (tp1, te, tq) = inr (a1, b1, c1) ->
  one_hot_partitions target OHE (tp2, te, tq) = inr (a2, b2, c2) ->
  c1 = c2 /\ b1 = b2.
Proof.
  intros Htarget Hp1 Hp2 He Hq Hsame E1 E2.
  unfold one_hot_partitions in E1, E2.
  apply bind_ok in E1 as (d1 & Hd1 & E1).
  apply bind_ok in E1 as (x1 & _ & E1).
  apply bind_ok in E1 as (y1 & Hy1 & E1).
  apply bind_ok in E1 as (z1 & Hz1 & E1).
  apply bind_ok in E2 as (d2 & Hd2 & E2).
  apply bind_ok in E2 as (x2 & _ & E2).
  apply bind_ok in E2 as (y2 & Hy2 & E2).
  apply bind_ok in E2 as (z2 & Hz2 & E2).
  inversion E1; inversion E2; subst.
  assert (Hagree : forall tag, VStr tag <> VStr "Train Prior" ->
                               partition d1 tag = partition d2 tag).
  { intros tag Htag.
    eapply (encoded_partition_agree (VStr "Train Prior") target);
      [exact Htarget | apply tagged_differing; eassumption
       | apply tagged_same; exact He
       | apply tagged_same; exact Hq
       | apply filter_not_target | exact Hd1 | exact Hd2 | exact Htag]. }
  rewrite (Hagree "Train Post") in Hz1 by discriminate.
  rewrite (Hagree "Test") in Hy1 by discriminate.
  split; congruence.
Qed.

End Lineages.

(** The encoding stage, run on two triples of partitions. *)
Lemma encode_lineages
      `{Conversions} `{Efficacy.TargetEncoder}
      (target : string) (random_state : option Z)
      (OHE_columns high_cardinality_columns : list string)
      (train_prior train_prior' test train_post train_post' : DataFrame)
      (b b' : Efficacy.bundle) :
  Efficacy.rectangular train_prior -> Efficacy.rectangular train_prior' ->
  Efficacy.rectangular test ->
  Efficacy.rectangular train_post -> Efficacy.rectangular train_post' ->
  Efficacy.encode target random_state OHE_columns
    high_cardinality_columns (train_prior, test, train_post) = inr b ->
  Efficacy.encode target random_state OHE_columns
    high_cardinality_columns (train_prior', test, train_post') = inr b' ->
  (train_prior = train_prior' ->
   Efficacy.same_except target train_post train_post' ->
   Efficacy.X_train_prior b = Efficacy.X_train_prior b'
   /\ Efficacy.X_test_prior b = Efficacy.X_test_prior b')
  /\
  (train_post = train_post' ->
   Efficacy.same_except target train_prior train_prior' ->
   Efficacy.X_train_post b = Efficacy.X_train_post b'
   /\ Efficacy.X_test_post b = Efficacy.X_test_post b').
Proof.
  intros Hp Hp' He Hq Hq' E E'.
  apply encode_factor in E as (x & y & z & Hparts & Hprior & Hpost).
  apply encode_factor in E' as (x' & y' & z' & Hparts' & Hprior' & Hpost').
  destruct (String.eqb target "source") eqn:Ht.
  { apply String.eqb_eq in Ht. subst target.
    exfalso. exact (lineage_target_source _ _ _ _ _ _ _ _ Hparts Hprior). }
  apply String.eqb_neq in Ht.
  split.
  - intros <- Hsame.
    destruct (one_hot_partitions_prior _ _ _ _ _ _ _ _ _ _ _ _
                Ht Hp He Hq Hq' Hsame Hparts Hparts') as [-> ->].
    rewrite Hprior in Hprior'. injection Hprior' as -> ->.
    split; reflexivity.
  - intros <- Hsame.
    destruct (one_hot_partitions_post _ _ _ _ _ _ _ _ _ _ _ _
                Ht Hp Hp' He Hq Hsame Hparts Hparts') as [-> ->].
    rewrite Hpost in Hpost'. injection Hpost' as -> ->.
    split; reflexivity.
Qed.

(** C5. Each lineage's feature matrices are computed from that lineage's
    training rows and the test rows alone. Take two completed runs of
    [_ml_data_prep] with the same target, encoding lists and seed, and the
    same test partition. If they have the same prior-training partition and
    post-training partitions that differ in the target values only, the
    prior model's training and test features are identical; symmetrically,
    if they have the same post-training partition and prior-training
    partitions that differ in the target values only, the post model's
    features are identical. This holds for every encoder: the encoder of a
    lineage is fitted on that lineage's training partition and applied to
    the test partition. *)
Theorem ml_data_prep_lineages_independent
        `{Conversions} `{Efficacy.TargetEncoder} `{Efficacy.Learner}
        (self self' s s' : Efficacy.obj) (g g' k k' h h' : Efficacy.rng)
        (p : Efficacy.params)
        (train_prior train_prior' test train_post train_post' : DataFrame) :
  Efficacy.self_params self = Some p ->
  Efficacy.self_params self' = Some p ->
  Efficacy.self_OHE_columns self' = Efficacy.self_OHE_columns self ->
  Efficacy.self_high_cardinality_columns self'
  = Efficacy.self_high_cardinality_columns self ->
  Efficacy.partitions self g = inr ((train_prior, test, train_post), k) ->
  Efficacy.partitions self' g'
  = inr ((train_prior', test, train_post'), k') ->
  Efficacy.rectangular train_prior -> Efficacy.rectangular train_prior' ->
  Efficacy.rectangular test ->
  Efficacy.rectangular train_post -> Efficacy.rectangular train_post' ->
  Efficacy._ml_data_prep self g = inr (s, h) ->
  Efficacy._ml_data_prep self' g' = inr (s', h') ->
  exists b b',
    Efficacy.self_bundle s = Some b /\ Efficacy.self_bundle s' = Some b' /\
    (train_prior = train_prior' ->
     Efficacy.same_except (Efficacy.target_column p)
       train_post train_post' ->
     Efficacy.X_train_prior b = Efficacy.X_train_prior b'
     /\ Efficacy.X_test_prior b = Efficacy.X_test_prior b')
    /\
    (train_post = train_post' ->
     Efficacy.same_except (Efficacy.target_column p)
       train_prior train_prior' ->
     Efficacy.X_train_post b = Efficacy.X_train_post b'
     /\ Efficacy.X_test_post b = Efficacy.X_test_post b').
Proof.
  intros Hparams Hparams' HOHE Hhc Hparts Hparts' Hp Hp' He Hq Hq' E E'.
  unfold Efficacy._ml_data_prep in E, E'.
  rewrite Hparts in E. rewrite Hparts' in E'.
  rewrite Hparams in E. rewrite Hparams', HOHE, Hhc in E'.
  cbn [Py.bind fst snd] in E, E'.
  apply bind_ok in E as (OHE & HO & E).
  rewrite HO in E'. cbn [Py.bind Efficacy.getattr Py.Ok] in E, E'.
  apply bind_ok in E as (hc & Hh & E).
  rewrite Hh in E'. cbn [Py.bind] in E'.
  apply bind_ok in E as (b & Hb & E).
  apply bind_ok in E' as (b' & Hb' & E').
  inversion E; inversion E'; subst.
  exists b, b'. split; [reflexivity |]. split; [reflexivity |].
  exact (encode_lineages _ _ _ _ _ _ _ _ _ _ _ Hp Hp' He Hq Hq' Hb Hb').
Qed.

Lemma ml_data_prep_lineages_independent_witness :
  exists s s' h h' b b',
    Efficacy._ml_data_prep (Examples.prepared_hc Examples.part_post) []
    = inr (s, h) /\
    Efficacy._ml_data_prep (Examples.prepared_hc Examples.part_post') []
    = inr (s', h') /\
    Efficacy.self_bundle s = Some b /\ Efficacy.self_bundle s' = Some b' /\
    Efficacy.same_except "y" Examples.part_post Examples.part_post' /\
    Efficacy.y_train_post b <> Efficacy.y_train_post b' /\
    Efficacy.X_train_prior b = Efficacy.X_train_prior b' /\
    Efficacy.X_test_prior b = Efficacy.X_test_prior b'.
Proof.
  destruct (Efficacy._ml_data_prep (Examples.prepared_hc Examples.part_post)
              []) as [e | [s h]] eqn:E; [vm_compute in E; discriminate |].
  destruct (Efficacy._ml_data_prep
              (Examples.prepared_hc Examples.part_post') [])
    as [e | [s' h']] eqn:E'; [vm_compute in E'; discriminate |].
  assert (Hsame : Efficacy.same_except "y" Examples.part_post
                                        Examples.part_post').
  { repeat constructor. simpl. intros Hy. congruence. }
  destruct (ml_data_prep_lineages_independent
              (Examples.prepared_hc Examples.part_post)
              (Examples.prepared_hc Examples.part_post')
              s s' [] [] [] [] h h' Examples.params_y
              Examples.color_prior Examples.color_prior Examples.part_test
              Examples.part_post Examples.part_post'
              eq_refl eq_refl eq_refl eq_refl eq_refl eq_refl
              ltac:(repeat constructor) ltac:(repeat constructor)
              ltac:(repeat constructor) ltac:(repeat constructor)
              ltac:(repeat constructor) E E')
    as (b & b' & Hb & Hb' & Hprior & _).
  destruct (Hprior eq_refl Hsame) as [HX HXt].
  exists s, s', h, h', b, b'.
  repeat (split; [assumption || reflexivity |]).
  split; [| split; assumption].
  vm_compute in E. vm_compute in E'.
  inversion E; inversion E'; subst.
  simpl in Hb, Hb'. inversion Hb; inversion Hb'; subst.
  simpl. discriminate.
Defined.

(* ================================================================== *)
(** * Identical and disjoint distributions *)
(* ================================================================== *)

Section ExtremeDistances.

Import Scipy Drift.
Open Scope R_scope.






End ExtremeDistances.



(* ================================================================== *)
(** * Columns without a common category *)
(* ================================================================== *)

Section DisjointSupport.

Import Scipy Drift.
Open Scope R_scope.







(** A cell of [categories] is a cell of the column, and not missing. *)
Lemma insert_unique_In x v l : In x (insert_unique v l) -> x = v \/ In x l.
Proof.
  induction l as [| y ys IH]; simpl.
  - intros [<- | []]. left; reflexivity.
  - destruct (value_compare v y).
    + intros Hin. right; exact Hin.
    + intros [<- | Hin]; [left; reflexivity | right; exact Hin].
    + intros [<- | Hin]; [right; left; reflexivity |].
      destruct (IH Hin) as [-> | Hin']; [left | right; right]; auto.
Qed.

Lemma categories_In x l :
  In x (categories l) -> In x l /\ is_nan x = false.
Proof.
  unfold categories.
  induction l as [| y ys IH]; simpl; [intros [] |].
  destruct (is_nan y) eqn:Ey; simpl.
  - intros Hin. destruct (IH Hin). split; [right |]; assumption.
  - intros Hin. apply insert_unique_In in Hin as [-> | Hin].
    + split; [left; reflexivity | exact Ey].
    + destruct (IH Hin). split; [right |]; assumption.
Qed.

Lemma veq_is_nan a b : veq a b -> is_nan a = is_nan b.
Proof. unfold veq. destruct a, b; simpl; intros E; congruence. Qed.

(** A cell that is not missing is equivalent to one of the categories. *)
Lemma categories_cover v l :
  In v l -> is_nan v = false -> exists c, In c (categories l) /\ veq v c.
Proof.
  intros Hin Hv.
  assert (HA : InA veq v (categories l)).
  { apply categories_InA. apply (In_InA veq_equivalence).
    apply filter_In. split; [exact Hin | rewrite Hv; reflexivity]. }
  apply InA_alt in HA as (c & Hvc & Hc). exists c. split; assumption.
Qed.

Lemma size_pos_cell c col :
  size c col <> O -> exists v, In v col /\ veq c v.
Proof.
  unfold size. intros Hs.
  destruct (filter (value_eqb c) col) as [| v rest] eqn:E;
    [contradiction Hs; reflexivity |].
  assert (Hin : In v (filter (value_eqb c) col)) by (rewrite E; left; auto).
  apply filter_In in Hin as [Hin Hv]. exists v. split; [exact Hin |].
  unfold value_eqb in Hv. unfold veq.
  destruct (value_compare c v); congruence.
Qed.

Lemma cell_size_pos c v col : In v col -> veq c v -> size c col <> O.
Proof.
  unfold size. intros Hin Hv.
  assert (H : In v (filter (value_eqb c) col)).
  { apply filter_In. split; [exact Hin |].
    unfold value_eqb. unfold veq in Hv. rewrite Hv. reflexivity. }
  destruct (filter (value_eqb c) col); [destruct H | discriminate].
Qed.




End DisjointSupport.



(* ================================================================== *)
(** * When the steps of calculate_drift return *)
(* ================================================================== *)

Section Readiness.

Import Scipy Drift.
Open Scope R_scope.

Lemma total_nonzero (f : value -> nat) (index : list value) :
  fold_right Nat.add O (map f index) <> O <->
  exists c, In c index /\ f c <> O.
Proof.
  induction index as [| c cs IH]; simpl.
  - split; [intros Hn; contradiction Hn; reflexivity | intros (c & [] & _)].
  - split.
    + intros Hn. destruct (Nat.eq_dec (f c) O) as [Hz | Hz].
      * rewrite Hz in Hn. simpl in Hn.
        apply IH in Hn as (c' & Hc' & Hf). exists c'. split; [right |]; auto.
      * exists c. split; [left; reflexivity | exact Hz].
    + intros (c' & [<- | Hc'] & Hf); [lia |].
      assert (fold_right Nat.add O (map f cs) <> O)
        by (apply IH; exists c'; split; assumption).
      lia.
Qed.

Lemma probability_array_returns source index col :
  (forall c, In c index -> is_nan c = false) ->
  (forall v, In v col -> is_nan v = false ->
             exists c, In c index /\ veq v c) ->
  (exists arr, probability_array source index col = inr arr)
  <-> (0 < List.length (categories col))%nat.
Proof.
  intros Hindex Hcover. unfold probability_array.
  destruct (fold_right Nat.add O (map (fun c => size c col) index) =? 0)%nat
    eqn:Et.
  - apply Nat.eqb_eq in Et. split; [intros (arr & E); discriminate |].
    intros Hlen. exfalso.
    destruct (categories col) as [| c0 rest] eqn:Ec; [simpl in Hlen; lia |].
    assert (Hc0 : In c0 (categories col)) by (rewrite Ec; left; reflexivity).
    apply categories_In in Hc0 as [Hin Hnan].
    destruct (Hcover c0 Hin Hnan) as (c & Hc & Hv).
    assert (Hne : fold_right Nat.add O (map (fun c => size c col) index)
                  <> O).
    { apply total_nonzero. exists c. split; [exact Hc |].
      apply (cell_size_pos c c0 col Hin).
      pose proof veq_equivalence as Eq. symmetry. exact Hv. }
    contradiction.
  - apply Nat.eqb_neq in Et. split; [| intros _; eexists; reflexivity].
    intros _. apply total_nonzero in Et as (c & Hc & Hs).
    apply size_pos_cell in Hs as (v & Hv & Hcv).
    assert (Hvn : is_nan v = false)
      by (rewrite <- (veq_is_nan c v Hcv); apply Hindex; exact Hc).
    destruct (categories_cover v col Hv Hvn) as (c' & Hc' & _).
    destruct (categories col); [destruct Hc' | simpl; lia].
Qed.

Lemma categorical_distance_returns self col :
  (exists d, categorical_distance self col = inr d)
  <-> categorical_ready self col = true.
Proof.
  unfold categorical_distance, categorical_ready, getitem, nunique.
  destruct (lookup col (df_prior self)) as [sp |];
    [| split; [intros (d & E); discriminate
              | rewrite andb_false_r; discriminate]].
  destruct (lookup col (df_post self)) as [sq |];
    [| split; [intros (d & E); discriminate
              | rewrite andb_false_r; discriminate]].
  cbn [Py.bind Py.Ok].
  destruct (String.eqb col "_source");
    [split; [intros (d & E); discriminate | discriminate] |].
  cbn [negb andb].
  set (index := categories (s_values sp ++ s_values sq)).
  assert (Hindex : forall c, In c index -> is_nan c = false).
  { intros c Hc. apply categories_In in Hc. tauto. }
  assert (Hp : forall v, In v (s_values sp) -> is_nan v = false ->
                         exists c, In c index /\ veq v c).
  { intros v Hv Hn. apply categories_cover; [| exact Hn].
    apply in_or_app. left; exact Hv. }
  assert (Hq : forall v, In v (s_values sq) -> is_nan v = false ->
                         exists c, In c index /\ veq v c).
  { intros v Hv Hn. apply categories_cover; [| exact Hn].
    apply in_or_app. right; exact Hv. }
  pose proof (probability_array_returns "prior" index _ Hindex Hp) as Rp.
  pose proof (probability_array_returns "post" index _ Hindex Hq) as Rq.
  rewrite andb_true_iff, !Nat.ltb_lt. rewrite <- Rp, <- Rq.
  split.
  - intros (d & E).
    apply bind_ok in E as (a & Ha & E). apply bind_ok in E as (b & Hb & _).
    split; eexists; eassumption.
  - intros [(a & Ha) (b & Hb)]. rewrite Ha, Hb. cbn [Py.bind].
    eexists; reflexivity.
Qed.










End Readiness.

(* ================================================================== *)
(** * The order of the rows *)
(* ================================================================== *)

Section RowOrder.

Import Scipy Drift.
Open Scope R_scope.
























End RowOrder.



(* ================================================================== *)
(** * What __init__ leaves in the detector *)
(* ================================================================== *)

Section InitCasts.

Context `{Conversions}.

Lemma lookup_none df c : lookup c df = None <-> ~ In c (columns df).
Proof.
  induction df as [| [n s] df IH]; simpl; [tauto |].
  destruct (String.eqb n c) eqn:E.
  - apply String.eqb_eq in E. split; [discriminate | tauto].
  - apply String.eqb_neq in E. rewrite IH. tauto.
Qed.

Lemma lookup_nodup df c s :
  NoDup (columns df) -> In (c, s) df -> lookup c df = Some s.
Proof.
  induction df as [| [n s0] df IH]; simpl; [tauto |].
  intros Hnd Hin. inversion Hnd as [| ? ? Hn Hnd']; subst.
  destruct Hin as [E | Hin].
  - injection E as -> ->. rewrite String.eqb_refl. reflexivity.
  - destruct (String.eqb n c) eqn:E; [| exact (IH Hnd' Hin)].
    apply String.eqb_eq in E. subst n. contradiction Hn.
    apply in_map_iff. exists (c, s). split; [reflexivity | exact Hin].
Qed.

Lemma lookup_setitem_other df c c' (s : Series) :
  c <> c' -> lookup c (setitem df c' s) = lookup c df.
Proof.
  intros Hne. induction df as [| [n s0] df IH]; simpl.
  - destruct (String.eqb c' c) eqn:E; [| reflexivity].
    apply String.eqb_eq in E. congruence.
  - destruct (String.eqb n c') eqn:E; simpl.
    + apply String.eqb_eq in E. subst n.
      destruct (String.eqb c' c) eqn:E'; [| reflexivity].
      apply String.eqb_eq in E'. congruence.
    + rewrite IH. reflexivity.
Qed.

Lemma setitems_lookup_other cols : forall df new df' c,
  setitems df cols new = inr df' -> ~ In c cols ->
  lookup c df' = lookup c df.
Proof.
  induction cols as [| c0 cs IH]; intros df new df' c E Hc;
    destruct new as [| [n s] ns]; simpl in E; try discriminate.
  - injection E as <-. reflexivity.
  - destruct (lookup c0 df); [| discriminate].
    rewrite (IH _ _ _ c E) by (simpl in Hc; tauto).
    apply lookup_setitem_other. simpl in Hc. intros ->. tauto.
Qed.

(** After [df[cols] = new], a column named in [cols] is one of [new]. *)
Lemma setitems_lookup (P : Series -> bool) cols : forall df new df' c,
  setitems df cols new = inr df' ->
  Forall (fun col => P (snd col) = true) new ->
  In c cols -> column_is P df' c = true.
Proof.
  induction cols as [| c0 cs IH]; intros df new df' c E Hnew Hc;
    [destruct Hc |].
  destruct new as [| [n s] ns]; simpl in E; try discriminate.
  destruct (lookup c0 df); [| discriminate].
  inversion Hnew as [| ? ? Hs Hns]; subst. simpl in Hs.
  destruct (in_dec string_dec c cs) as [Hin | Hnin].
  - exact (IH _ _ _ c E Hns Hin).
  - destruct Hc as [-> | Hc]; [| contradiction].
    unfold column_is.
    rewrite (setitems_lookup_other _ _ _ _ c E Hnin), lookup_setitem.
    exact Hs.
Qed.

Lemma setitems_error_class cols : forall df new e,
  List.length new = List.length cols ->
  setitems df cols new = inl e -> exn_class e = "KeyError".
Proof.
  induction cols as [| c0 cs IH]; intros df new e Hlen E;
    destruct new as [| [n s] ns]; simpl in *; try discriminate.
  destruct (lookup c0 df).
  - injection Hlen as Hlen. exact (IH _ _ _ Hlen E).
  - injection E as <-. reflexivity.
Qed.

Lemma getitems_error_class df cols e :
  getitems df cols = inl e -> exn_class e = "KeyError".
Proof.
  unfold getitems. intros E. apply mapM_error in E as (c & _ & E).
  unfold getitem in E. destruct (lookup c df); [discriminate |].
  injection E as <-. reflexivity.
Qed.

Lemma getitems_missing df cols c :
  In c cols -> lookup c df = None ->
  exists e, getitems df cols = inl e.
Proof.
  unfold getitems. induction cols as [| c0 cs IH]; simpl; [tauto |].
  intros Hin Hc. unfold getitem at 1.
  destruct (lookup c0 df) as [s |] eqn:E0; cbn [Py.bind Py.Ok Py.Err];
    [| eexists; reflexivity].
  destruct Hin as [-> | Hin]; [congruence |].
  destruct (IH Hin Hc) as (e & ->). eexists; reflexivity.
Qed.

Lemma astype_str_length sub :
  List.length (astype_str sub) = List.length sub.
Proof. unfold astype_str. apply length_map. Qed.

Lemma astype_float_length sub sub' :
  astype_float sub = inr sub' -> List.length sub' = List.length sub.
Proof. apply mapM_length. Qed.

Lemma cast_str_error_class df cols e :
  cast_str df cols = inl e -> exn_class e = "KeyError".
Proof.
  unfold cast_str. intros E. apply bind_err in E as [E | (sub & Hsub & E)].
  - exact (getitems_error_class _ _ _ E).
  - apply (setitems_error_class _ _ _ _
             (eq_trans (astype_str_length sub)
                       (getitems_length _ _ _ Hsub)) E).
Qed.

Lemma cast_str_columns df cols df' :
  cast_str df cols = inr df' -> columns df' = columns df.
Proof.
  unfold cast_str. intros E. apply bind_ok in E as (sub & _ & E).
  exact (setitems_columns _ _ _ _ E).
Qed.

Lemma cast_float_columns df cols df' :
  cast_float df cols = inr df' -> columns df' = columns df.
Proof.
  unfold cast_float. intros E. apply bind_ok in E as (sub & _ & E).
  apply bind_ok in E as (sub' & _ & E).
  exact (setitems_columns _ _ _ _ E).
Qed.

Lemma cast_float_missing df cols c :
  In c cols -> lookup c df = None ->
  exists e, cast_float df cols = inl e /\ exn_class e = "KeyError".
Proof.
  intros Hin Hc. unfold cast_float.
  destruct (getitems_missing df cols c Hin Hc) as (e & E).
  exists e. rewrite E. split; [reflexivity |].
  exact (getitems_error_class _ _ _ E).
Qed.

Lemma astype_str_columns_are_strings sub :
  Forall (fun col => string_column (snd col) = true) (astype_str sub).
Proof.
  unfold astype_str. apply Forall_forall. intros col Hin.
  apply in_map_iff in Hin as (col0 & <- & _).
  unfold string_column, series_astype_str. simpl.
  apply forallb_forall. intros v Hv.
  apply in_map_iff in Hv as (v0 & <- & _). reflexivity.
Qed.

Lemma float_of_value_not_string vs vs' :
  mapM float_of_value vs = inr vs' ->
  forallb (fun v => negb (is_string v)) vs' = true.
Proof.
  revert vs'. induction vs as [| v vs IH]; intros vs' E; simpl in E.
  - injection E as <-. reflexivity.
  - apply bind_ok in E as (v' & Hv & E).
    apply bind_ok in E as (rest & Hrest & E).
    injection E as <-. simpl. rewrite (IH _ Hrest), andb_true_r.
    unfold float_of_value in Hv.
    destruct v as [str | q |]; [destruct (float_of_string str) | |];
      try discriminate; injection Hv as <-; reflexivity.
Qed.

Lemma astype_float_columns_are_floats sub sub' :
  astype_float sub = inr sub' ->
  Forall (fun col => float_column (snd col) = true) sub'.
Proof.
  unfold astype_float. revert sub'.
  induction sub as [| col sub IH]; intros sub' E; simpl in E.
  - injection E as <-. constructor.
  - apply bind_ok in E as (col' & Hcol & E).
    apply bind_ok in E as (rest & Hrest & E).
    injection E as <-. constructor; [| exact (IH _ Hrest)].
    apply bind_ok in Hcol as (s & Hs & Hcol). injection Hcol as <-.
    unfold series_astype_float in Hs.
    apply bind_ok in Hs as (vs & Hvs & Hs). injection Hs as <-.
    unfold float_column. simpl. exact (float_of_value_not_string _ _ Hvs).
Qed.

Lemma cast_float_lookup df cols df' c :
  cast_float df cols = inr df' -> In c cols ->
  column_is float_column df' c = true.
Proof.
  unfold cast_float. intros E Hc. apply bind_ok in E as (sub & _ & E).
  apply bind_ok in E as (sub' & Hsub' & E).
  exact (setitems_lookup float_column _ _ _ _ c E
           (astype_float_columns_are_floats _ _ Hsub') Hc).
Qed.

Lemma cast_str_lookup df cols df' c :
  cast_str df cols = inr df' -> In c cols ->
  column_is string_column df' c = true.
Proof.
  unfold cast_str. intros E Hc. apply bind_ok in E as (sub & _ & E).
  exact (setitems_lookup string_column _ _ _ _ c E
           (astype_str_columns_are_strings _) Hc).
Qed.

Lemma cast_float_lookup_other df cols df' c :
  cast_float df cols = inr df' -> ~ In c cols ->
  lookup c df' = lookup c df.
Proof.
  unfold cast_float. intros E Hc. apply bind_ok in E as (sub & _ & E).
  apply bind_ok in E as (sub' & _ & E).
  exact (setitems_lookup_other _ _ _ _ c E Hc).
Qed.

(** The steps of a successful [__init__]. *)
Lemma init_steps prior post cats nums d :
  __init__ prior post cats nums = inr d ->
  columns prior = columns post /\ dtypes prior = dtypes post /\
  exists P1 Q1,
    cast_str prior (categorical_columns d) = inr P1 /\
    cast_str post (categorical_columns d) = inr Q1 /\
    cast_float P1 (numeric_columns d) = inr (df_prior d) /\
    cast_float Q1 (numeric_columns d) = inr (df_post d) /\
    categorical_columns d
    = match cats with
      | None => map fst (filter (fun col =>
                                   dtype_eqb (s_dtype (snd col)) object)
                                prior)
      | Some l => l
      end /\
    numeric_columns d
    = match nums with
      | None => map fst (filter (fun col =>
                                   existsb (dtype_eqb (s_dtype (snd col)))
                                           num_types)
                                P1)
      | Some l => l
      end.
Proof.
  unfold __init__. intros E.
  apply bind_ok in E as ([] & Hchecks & E).
  apply schema_checks_ok in Hchecks as [Hcols Hdts].
  cbv zeta in E.
  apply bind_ok in E as (P1 & HP1 & E).
  apply bind_ok in E as (Q1 & HQ1 & E).
  apply bind_ok in E as (P2 & HP2 & E).
  apply bind_ok in E as (Q2 & HQ2 & E).
  injection E as <-. cbn [categorical_columns numeric_columns df_prior df_post].
  split; [exact Hcols |]. split; [exact Hdts |].
  exists P1, Q1. repeat split; assumption.
Qed.

End InitCasts.

(** X5 ([__init__], lines 65-118). A detector that was built keeps the
    column names of the frames it was given; each numeric column of both
    frames is stored as [float64] without a string cell, and each
    categorical column that is not also numeric as strings. *)
Theorem init_normalises_role_columns `{Conversions}
        (df_prior_ df_post_ : DataFrame)
        (categorical_columns_ numeric_columns_ : option (list string))
        (d : Detector.t) :
  __init__ df_prior_ df_post_ categorical_columns_ numeric_columns_ = inr d ->
  columns (df_prior d) = columns df_prior_ /\
  columns (df_post d) = columns df_prior_ /\
  (forall c, In c (numeric_columns d) ->
             column_is float_column (df_prior d) c = true
             /\ column_is float_column (df_post d) c = true) /\
  (forall c, In c (categorical_columns d) ->
             ~ In c (numeric_columns d) ->
             column_is string_column (df_prior d) c = true
             /\ column_is string_column (df_post d) c = true).
Proof.
  intros E.
  destruct (init_steps _ _ _ _ _ E)
    as (Hcols & _ & P1 & Q1 & HP1 & HQ1 & HP2 & HQ2 & _ & _).
  split; [| split; [| split]].
  - rewrite (cast_float_columns _ _ _ HP2). exact (cast_str_columns _ _ _ HP1).
  - rewrite (cast_float_columns _ _ _ HQ2), (cast_str_columns _ _ _ HQ1).
    symmetry. exact Hcols.
  - intros c Hc. split.
    + exact (cast_float_lookup _ _ _ c HP2 Hc).
    + exact (cast_float_lookup _ _ _ c HQ2 Hc).
  - intros c Hc Hn. unfold column_is. split.
    + rewrite (cast_float_lookup_other _ _ _ c HP2 Hn).
      exact (cast_str_lookup _ _ _ c HP1 Hc).
    + rewrite (cast_float_lookup_other _ _ _ c HQ2 Hn).
      exact (cast_str_lookup _ _ _ c HQ1 Hc).
Qed.

Lemma init_normalises_role_columns_witness :
  exists d,
    __init__ Examples.color_prior Examples.color_post None None = inr d /\
    columns (df_prior d) = ["color"; "y"] /\
    column_is float_column (df_post d) "y" = true /\
    column_is string_column (df_prior d) "color" = true.
Proof.
  eexists. split; [reflexivity |].
  destruct (init_normalises_role_columns Examples.color_prior
              Examples.color_post None None _ eq_refl)
    as (Hc & _ & Hnum & Hcat).
  split; [exact Hc |]. split.
  - apply (Hnum "y"). left; reflexivity.
  - apply (Hcat "color"); [left; reflexivity |].
    simpl. intros [E | []]. discriminate.
Defined.

(* ================================================================== *)
(** * The role lists of __init__ *)
(* ================================================================== *)

Section InitRoles.

Context `{Conversions}.

Lemma mem_In c l : mem c l = true <-> In c l.
Proof.
  unfold mem. rewrite existsb_exists. split.
  - intros (x & Hx & E). apply String.eqb_eq in E. subst x. exact Hx.
  - intros Hin. exists c. split; [exact Hin | apply String.eqb_refl].
Qed.

Lemma setitem_schema_same df c (s s0 : Series) :
  lookup c df = Some s0 -> s_dtype s = s_dtype s0 ->
  schema (setitem df c s) = schema df.
Proof.
  induction df as [| [n s1] df IH]; simpl; [discriminate |].
  destruct (String.eqb n c) eqn:E; simpl.
  - intros [= ->] ->. reflexivity.
  - intros Hl Hs. rewrite (IH Hl Hs). reflexivity.
Qed.

Lemma lookup_dtype_schema a : forall b c,
  schema a = schema b ->
  option_map s_dtype (lookup c a) = option_map s_dtype (lookup c b).
Proof.
  induction a as [| [n s] a IH]; intros [| [n' s'] b] c E; simpl in *;
    try discriminate; [reflexivity |].
  injection E as -> Hs E.
  destruct (String.eqb n' c); simpl; [f_equal; exact Hs | exact (IH _ _ E)].
Qed.

Lemma setitems_object_schema cols : forall df new df',
  setitems df cols new = inr df' ->
  Forall (fun col => s_dtype (snd col) = object) new ->
  (forall c s, In c cols -> lookup c df = Some s -> s_dtype s = object) ->
  schema df' = schema df.
Proof.
  induction cols as [| c0 cs IH]; intros df new df' E Hnew Hobj;
    destruct new as [| [n s] ns]; simpl in E; try discriminate.
  - injection E as <-. reflexivity.
  - destruct (lookup c0 df) as [s0 |] eqn:E0; [| discriminate].
    inversion Hnew as [| ? ? Hs Hns]; subst. simpl in Hs.
    assert (Hsame : schema (setitem df c0 s) = schema df).
    { apply (setitem_schema_same df c0 s s0 E0).
      rewrite Hs. symmetry. apply (Hobj c0 s0); [left; reflexivity | exact E0]. }
    rewrite (IH _ _ _ E Hns); [exact Hsame |].
    intros c s1 Hc Hl.
    pose proof (lookup_dtype_schema _ _ c Hsame) as Hd.
    rewrite Hl in Hd. simpl in Hd.
    destruct (lookup c df) as [s2 |] eqn:E2; [| discriminate].
    simpl in Hd. injection Hd as ->.
    apply (Hobj c s2); [right; exact Hc | exact E2].
Qed.

(** Casting columns that hold strings already keeps the schema. *)
Lemma cast_str_object_schema df cols df' :
  cast_str df cols = inr df' ->
  (forall c s, In c cols -> lookup c df = Some s -> s_dtype s = object) ->
  schema df' = schema df.
Proof.
  unfold cast_str. intros E Hobj. apply bind_ok in E as (sub & _ & E).
  apply (setitems_object_schema _ _ _ _ E); [| exact Hobj].
  unfold astype_str. apply Forall_forall. intros col Hin.
  apply in_map_iff in Hin as (col0 & <- & _). reflexivity.
Qed.

Lemma in_inferred (P : dtype -> bool) df c s :
  NoDup (columns df) -> In (c, s) df ->
  (In c (map fst (filter (fun col => P (s_dtype (snd col))) df))
   <-> P (s_dtype s) = true).
Proof.
  intros Hnd Hin. rewrite in_map_iff. split.
  - intros ([c' s'] & Hc & Hf). simpl in Hc. subst c'.
    apply filter_In in Hf as [Hin' HP]. simpl in HP.
    pose proof (lookup_nodup df c s Hnd Hin) as L.
    rewrite (lookup_nodup df c s' Hnd Hin') in L. injection L as ->.
    exact HP.
  - intros HP. exists (c, s). split; [reflexivity |].
    apply filter_In. split; [exact Hin | exact HP].
Qed.

Lemma dtype_eqb_iff a b : dtype_eqb a b = true <-> a = b.
Proof.
  split; [apply dtype_eqb_eq | intros ->; apply dtype_eqb_refl].
Qed.

Lemma num_types_iff dt :
  existsb (dtype_eqb dt) num_types = true <-> In dt num_types.
Proof.
  rewrite existsb_exists. split.
  - intros (x & Hx & E). apply dtype_eqb_eq in E. subst x. exact Hx.
  - intros Hin. exists dt. split; [exact Hin | apply dtype_eqb_refl].
Qed.

End InitRoles.

(** X6 ([__init__], lines 85-109). With no role list given and distinct
    column names, a column is categorical exactly when its storage type
    is [object], and numeric exactly when its storage type is one of
    [num_types]; a column of any other storage type gets no role. *)
Theorem init_infers_roles_from_dtypes `{Conversions}
        (df_prior_ df_post_ : DataFrame) (d : Detector.t)
        (c : string) (s : Series) :
  __init__ df_prior_ df_post_ None None = inr d ->
  NoDup (columns df_prior_) ->
  In (c, s) df_prior_ ->
  (In c (categorical_columns d) <-> s_dtype s = object) /\
  (In c (numeric_columns d) <-> In (s_dtype s) num_types).
Proof.
  intros E Hnd Hin.
  destruct (init_steps _ _ _ _ _ E)
    as (_ & _ & P1 & Q1 & HP1 & _ & _ & _ & Hcat & Hnum).
  assert (Hschema : schema P1 = schema df_prior_).
  { apply (cast_str_object_schema _ _ _ HP1).
    intros c0 s0 Hc0 Hl. rewrite Hcat in Hc0.
    apply in_map_iff in Hc0 as ([c1 s1] & Hc1 & Hf). simpl in Hc1. subst c1.
    apply filter_In in Hf as [Hin1 Hobj]. simpl in Hobj.
    rewrite (lookup_nodup df_prior_ c0 s1 Hnd Hin1) in Hl. injection Hl as <-.
    apply dtype_eqb_eq. exact Hobj. }
  split.
  - rewrite Hcat.
    rewrite (in_inferred (fun dt => dtype_eqb dt object) df_prior_ c s Hnd Hin).
    apply dtype_eqb_iff.
  - rewrite Hnum.
    rewrite (infer_schema (fun dt => existsb (dtype_eqb dt) num_types) P1).
    rewrite Hschema.
    rewrite <- (infer_schema (fun dt => existsb (dtype_eqb dt) num_types)
                  df_prior_).
    rewrite (in_inferred (fun dt => existsb (dtype_eqb dt) num_types)
               df_prior_ c s Hnd Hin).
    apply num_types_iff.
Qed.

Lemma init_infers_roles_from_dtypes_witness :
  exists d,
    __init__ Examples.flag_prior Examples.flag_post None None = inr d /\
    (In "flag" (categorical_columns d)
     <-> other_dtype "bool" = object) /\
    (In "flag" (numeric_columns d)
     <-> In (other_dtype "bool") num_types).
Proof.
  eexists. split; [reflexivity |].
  apply (init_infers_roles_from_dtypes Examples.flag_prior
           Examples.flag_post _ "flag" (Examples.flags [1; 0; 1]%Z)
           eq_refl).
  - repeat constructor; simpl; intuition discriminate.
  - right; left; reflexivity.
Defined.

(** X7 ([__init__], lines 74-112). When the two frames have the same
    schema and a role list names a column the frames do not have, the
    constructor raises [KeyError]. *)
Theorem init_unknown_role_column `{Conversions}
        (df_prior_ df_post_ : DataFrame)
        (categorical_columns_ numeric_columns_ : option (list string))
        (c : string) :
  columns df_prior_ = columns df_post_ ->
  dtypes df_prior_ = dtypes df_post_ ->
  names_column categorical_columns_ c = true
  \/ names_column numeric_columns_ c = true ->
  ~ In c (columns df_prior_) ->
  exists e,
    __init__ df_prior_ df_post_ categorical_columns_ numeric_columns_ = inl e
    /\ exn_class e = "KeyError".
Proof.
  intros Hcols Hdts Hnames Hc. unfold __init__.
  rewrite (proj2 (schema_checks_ok df_prior_ df_post_) (conj Hcols Hdts)).
  cbn [Py.bind]. cbv zeta.
  set (categorical_columns_' := match categorical_columns_ with
                | None => map fst (filter (fun col =>
                                             dtype_eqb (s_dtype (snd col))
                                                       object) df_prior_)
                | Some l => l
                end).
  destruct (cast_str df_prior_ categorical_columns_') as [e | P1] eqn:EP1; cbn [Py.bind];
    [exists e; split; [reflexivity | exact (cast_str_error_class _ _ _ EP1)] |].
  destruct (cast_str df_post_ categorical_columns_') as [e | Q1] eqn:EQ1; cbn [Py.bind];
    [exists e; split; [reflexivity | exact (cast_str_error_class _ _ _ EQ1)] |].
  assert (Hnum : names_column numeric_columns_ c = true).
  { destruct Hnames as [Hcat | Hnum]; [| exact Hnum]. exfalso.
    destruct categorical_columns_ as [l |]; [| discriminate]. simpl in Hcat.
    apply mem_In in Hcat. unfold cast_str in EP1.
    destruct (getitems_missing df_prior_ l c Hcat (proj2 (lookup_none _ _) Hc))
      as (e & Ee).
    subst categorical_columns_'. rewrite Ee in EP1. discriminate. }
  destruct numeric_columns_ as [l |]; [| discriminate]. simpl in Hnum.
  apply mem_In in Hnum.
  assert (HcP1 : lookup c P1 = None).
  { apply lookup_none. rewrite (cast_str_columns _ _ _ EP1). exact Hc. }
  destruct (cast_float_missing P1 l c Hnum HcP1) as (e & Ee & Hclass).
  rewrite Ee. cbn [Py.bind]. exists e. split; [reflexivity | exact Hclass].
Qed.

Lemma init_unknown_role_column_witness :
  exists e,
    __init__ Examples.color_prior Examples.color_post
             None (Some ["y"; "z"]) = inl e
    /\ exn_class e = "KeyError".
Proof.
  apply (init_unknown_role_column Examples.color_prior Examples.color_post
           None (Some ["y"; "z"]) "z" eq_refl eq_refl).
  - right; reflexivity.
  - simpl. intuition discriminate.
Defined.

(* ================================================================== *)
(** * The split of the post frame *)
(* ================================================================== *)

Section Split.

Import Efficacy.

Lemma set_nth_perm (xs : list nat) : forall i a,
  (i < List.length xs)%nat ->
  Permutation (nth i xs O :: set_nth xs i a) (a :: xs).
Proof.
  induction xs as [| b ys IH]; intros i a Hi; simpl in Hi; [lia |].
  destruct i as [| i']; simpl.
  - apply perm_swap.
  - etransitivity; [apply perm_swap |].
    etransitivity; [apply perm_skip, IH; lia |].
    apply perm_swap.
Qed.

Lemma swap_perm (x : list nat) : forall i j,
  (j <= i)%nat -> (i < List.length x)%nat -> Permutation (swap x i j) x.
Proof.
  induction x as [| a xs IH]; intros i j Hji Hi; simpl in Hi; [lia |].
  destruct j as [| j'], i as [| i']; try lia.
  - reflexivity.
  - unfold swap. simpl. apply set_nth_perm. lia.
  - unfold swap. simpl. apply perm_skip.
    apply (IH i' j'); lia.
Qed.

Lemma random_interval_bound i g : (fst (random_interval i g) <= i)%nat.
Proof.
  unfold random_interval. destruct g as [| r g']; simpl fst; [lia |].
  pose proof (Nat.mod_upper_bound r (S i)). lia.
Qed.

Lemma fisher_yates_perm i : forall x g,
  (i = O \/ i < List.length x)%nat ->
  Permutation (fst (fisher_yates i x g)) x.
Proof.
  induction i as [| i' IH]; intros x g Hi; simpl; [reflexivity |].
  destruct Hi as [Hi | Hi]; [discriminate |].
  pose proof (random_interval_bound (S i') g) as Hj.
  destruct (random_interval (S i') g) as [j g']. simpl in Hj.
  pose proof (swap_perm x (S i') j Hj Hi) as Hs.
  etransitivity; [apply IH | exact Hs].
  right. rewrite (Permutation_length Hs). lia.
Qed.

Lemma shuffle_order df g :
  exists order,
    Permutation order (seq 0 (len df)) /\
    fst (shuffle df g) = take order df.
Proof.
  unfold shuffle.
  pose proof (fisher_yates_perm (pred (len df)) (seq 0 (len df)) g) as Hp.
  destruct (fisher_yates (pred (len df)) (seq 0 (len df)) g) as [order g'].
  exists order. split; [| reflexivity].
  apply Hp. rewrite length_seq. lia.
Qed.

Lemma lookup_map_values f df c :
  lookup c (map_values f df)
  = option_map (fun s => mkSeries (s_dtype s) (f (s_values s)))
               (lookup c df).
Proof.
  induction df as [| [n s] df IH]; simpl; [reflexivity |].
  destruct (String.eqb n c); [reflexivity | exact IH].
Qed.

Lemma map_nth_seq {A} (d : A) (l : list A) :
  map (fun i => nth i l d) (seq 0 (List.length l)) = l.
Proof.
  induction l as [| a l IH]; simpl; [reflexivity |].
  rewrite <- seq_shift, map_map. simpl. rewrite IH. reflexivity.
Qed.

Lemma rectangular_lookup df c s :
  rectangular df -> lookup c df = Some s ->
  List.length (s_values s) = len df.
Proof.
  unfold rectangular. intros Hr.
  generalize (len df) Hr. clear Hr. intros n Hr.
  induction Hr as [| [n0 s0] df Hs _ IH]; simpl; [discriminate |].
  destruct (String.eqb n0 c); [intros [= <-]; exact Hs | exact IH].
Qed.

Lemma len_take order df :
  df <> [] -> len (take order df) = List.length order.
Proof.
  destruct df as [| [n s] df]; [intros Hn; contradiction Hn; reflexivity |].
  intros _. simpl. apply length_map.
Qed.

(** What [split] returns without an external test set, in terms of the
    order the shuffle draws. *)
Lemma split_shape d ts g train_prior test train_post g' :
  split d ts None g = ((train_prior, test, train_post), g') ->
  exists order k,
    Permutation order (seq 0 (len (df_post d))) /\
    train_prior = df_prior d /\
    train_post = map_values (firstn k) (take order (df_post d)) /\
    test = map_values (skipn k) (take order (df_post d)) /\
    k = slice_bound
          (int (inject_Z (Z.of_nat (len (take order (df_post d)))) * ts)%Q)
          (len (take order (df_post d))).
Proof.
  unfold split. intros E.
  destruct (shuffle_order (df_post d) g) as (order & Hp & Hs).
  destruct (shuffle (df_post d) g) as [shuffled g1]. simpl in Hs. subst.
  injection E as <- <- <- <-.
  exists order. eexists. split; [exact Hp |].
  split; [reflexivity |]. split; [reflexivity |].
  split; reflexivity.
Qed.

Lemma int_of_whole (n : nat) (ts : Q) :
  (ts == 1)%Q -> int (inject_Z (Z.of_nat n) * ts)%Q = Z.of_nat n.
Proof.
  intros H1. unfold int. destruct ts as [a b].
  unfold Qeq in H1. simpl in *.
  assert (Ha : a = Zpos b) by lia. subst a.
  apply Z.quot_mul. discriminate.
Qed.

Lemma int_of_none (n : nat) (ts : Q) :
  (ts == 0)%Q -> int (inject_Z (Z.of_nat n) * ts)%Q = 0%Z.
Proof.
  intros H0. unfold int. destruct ts as [a b].
  unfold Qeq in H0. simpl in *.
  assert (Ha : a = 0%Z) by lia. subst a.
  rewrite Z.mul_0_r. apply Z.quot_0_l. discriminate.
Qed.

End Split.

(** X8 ([_ml_data_prep], lines 538-554). Without an external test set
    the post frame is split without losing or repeating a row: one
    reordering of the row positions, the same for every column, lists the
    training rows followed by the test rows. The prior frame is the prior
    training partition as it is. *)
Theorem split_keeps_every_row (d : Detector.t) (ts : Q) (g g' : Efficacy.rng)
        (train_prior test train_post : DataFrame) :
  Efficacy.split d ts None g = ((train_prior, test, train_post), g') ->
  Efficacy.rectangular (df_post d) ->
  train_prior = df_prior d /\
  exists order,
    Permutation order (seq 0 (len (df_post d))) /\
    forall c s, lookup c (df_post d) = Some s ->
      exists s1 s2,
        lookup c train_post = Some s1 /\ lookup c test = Some s2 /\
        s_values s1 ++ s_values s2
        = map (fun i => nth i (s_values s) VNaN) order /\
        Permutation (s_values s1 ++ s_values s2) (s_values s).
Proof.
  intros E Hrect.
  destruct (split_shape _ _ _ _ _ _ _ E)
    as (order & k & Hp & -> & -> & -> & _).
  split; [reflexivity |]. exists order. split; [exact Hp |].
  intros c s Hs. unfold take. rewrite !lookup_map_values, Hs. simpl.
  eexists. eexists. split; [reflexivity |]. split; [reflexivity |].
  simpl. rewrite firstn_skipn. split; [reflexivity |].
  etransitivity; [apply Permutation_map; exact Hp |].
  rewrite <- (rectangular_lookup _ _ _ Hrect Hs), map_nth_seq.
  reflexivity.
Qed.

Lemma split_keeps_every_row_witness :
  exists train_prior test train_post g' s1 s2,
    Efficacy.split Examples.detector_color (1 # 2) None [3; 1; 4]%nat
    = ((train_prior, test, train_post), g') /\
    lookup "y" train_post = Some s1 /\ lookup "y" test = Some s2 /\
    Permutation (s_values s1 ++ s_values s2)
                (s_values (Examples.nums [2; 3; 4; 5]%Z)).
Proof.
  destruct (Efficacy.split Examples.detector_color (1 # 2) None
              [3; 1; 4]%nat) as [[[train_prior test] train_post] g'] eqn:E.
  destruct (split_keeps_every_row Examples.detector_color (1 # 2)
              [3; 1; 4]%nat g' train_prior test train_post E
              ltac:(repeat constructor))
    as (_ & order & _ & Hcols).
  destruct (Hcols "y" (Examples.nums [2; 3; 4; 5]%Z) eq_refl)
    as (s1 & s2 & H1 & H2 & _ & Hperm).
  exists train_prior, test, train_post, g', s1, s2.
  repeat split; assumption.
Defined.

(** X9 ([_ml_data_prep], lines 550-554). Without an external test set
    the rows of the post training partition and of the test partition add
    up to the rows of the post frame, whatever [train_size] is; with
    [train_size = 1] the test partition is empty, and with
    [train_size = 0] the post training partition is. *)
Theorem split_sizes_add_up (d : Detector.t) (ts : Q)
        (g g' : Efficacy.rng) (train_prior test train_post : DataFrame)
        (c : string) (s1 s2 : Series) :
  Efficacy.split d ts None g = ((train_prior, test, train_post), g') ->
  lookup c train_post = Some s1 -> lookup c test = Some s2 ->
  (List.length (s_values s1) + List.length (s_values s2)
   = len (df_post d))%nat /\
  ((ts == 1)%Q -> List.length (s_values s2) = O) /\
  ((ts == 0)%Q -> List.length (s_values s1) = O).
Proof.
  intros E.
  destruct (split_shape _ _ _ _ _ _ _ E)
    as (order & k & Hp & -> & -> & -> & Hk).
  pose proof (Permutation_length Hp) as Hlen. rewrite length_seq in Hlen.
  unfold take. rewrite !lookup_map_values.
  destruct (lookup c (df_post d)) as [s |] eqn:Hs; simpl; [| discriminate].
  intros [= <-] [= <-]. simpl.
  assert (Hne : df_post d <> [])
    by (intros Hd; rewrite Hd in Hs; discriminate).
  rewrite (len_take order _ Hne), Hlen in Hk.
  set (l := map (fun i => nth i (s_values s) VNaN) order).
  assert (Hl : List.length l = len (df_post d))
    by (unfold l; rewrite length_map; exact Hlen).
  split; [| split].
  - rewrite <- Hl, <- length_app, firstn_skipn. reflexivity.
  - intros H1. rewrite (int_of_whole _ ts H1) in Hk.
    unfold slice_bound in Hk.
    destruct (Z.of_nat (len (df_post d)) <? 0)%Z eqn:Eneg;
      [apply Z.ltb_lt in Eneg; lia |].
    rewrite Nat2Z.id in Hk. subst k.
    rewrite length_skipn, Hl. lia.
  - intros H0. rewrite (int_of_none _ ts H0) in Hk.
    simpl in Hk. subst k. reflexivity.
Qed.

Lemma split_sizes_add_up_witness :
  exists train_prior test train_post g' s1 s2,
    Efficacy.split Examples.detector_color 1 None [3; 1; 4]%nat
    = ((train_prior, test, train_post), g') /\
    lookup "y" train_post = Some s1 /\ lookup "y" test = Some s2 /\
    List.length (s_values s1) = 4%nat /\ List.length (s_values s2) = 0%nat.
Proof.
  eexists. eexists. eexists. eexists. eexists. eexists.
  split; [reflexivity |]. split; [reflexivity |]. split; [reflexivity |].
  destruct (split_sizes_add_up Examples.detector_color 1
              [3; 1; 4]%nat _ _ _ _ "y" _ _ eq_refl eq_refl eq_refl)
    as (Hsum & Hwhole & _).
  split; [| apply Hwhole; reflexivity].
  rewrite (Hwhole ltac:(reflexivity)) in Hsum.
  rewrite Nat.add_0_r in Hsum. exact Hsum.
Defined.

(* ================================================================== *)
(** * The encoding lists and the feature matrices *)
(* ================================================================== *)

Section Encoding.

Import Efficacy.
Context `{Conversions} `{TargetEncoder} `{Learner}.

Lemma in_selected (Q : string -> nat -> bool) df c s :
  NoDup (columns df) -> In (c, s) df ->
  (In c (map fst
           (filter (fun cn => Q (fst cn) (snd cn))
                   (map (fun col => (fst col, nunique (snd col))) df)))
   <-> Q c (nunique s) = true).
Proof.
  intros Hnd Hin. rewrite in_map_iff. split.
  - intros ([c' k] & Hc & Hf). simpl in Hc. subst c'.
    apply filter_In in Hf as [Hin' HQ]. simpl in HQ.
    apply in_map_iff in Hin' as ([c' s'] & E & Hin'). simpl in E.
    injection E as -> <-.
    pose proof (lookup_nodup df c s Hnd Hin) as L.
    rewrite (lookup_nodup df c s' Hnd Hin') in L. injection L as ->.
    exact HQ.
  - intros HQ. exists (c, nunique s). split; [reflexivity |].
    apply filter_In. split; [| exact HQ].
    apply in_map_iff. exists (c, s). split; [reflexivity | exact Hin].
Qed.

Lemma not_in_filter_neq (c : string) (l : list string) :
  ~ In c (filter (fun n => negb (String.eqb n c)) l).
Proof.
  intros Hin. apply filter_In in Hin as [_ Hc].
  rewrite String.eqb_refl in Hc. discriminate.
Qed.

Lemma encode_features target rs OHE hc parts b :
  encode target rs OHE hc parts = inr b ->
  ~ In target (columns (X_train_prior b))
  /\ ~ In "source" (columns (X_train_prior b)).
Proof.
  destruct parts as [[train_prior test] train_post].
  unfold encode. intros E.
  apply bind_ok in E as (df & _ & E).
  apply bind_ok in E as (tp & Htp & E).
  apply bind_ok in E as (te & _ & E).
  apply bind_ok in E as (tq & _ & E).
  apply bind_ok in E as ([tf_prior tp'] & Hfp & E).
  apply bind_ok in E as (te_prior & _ & E).
  apply bind_ok in E as ([tf_post tq'] & _ & E).
  apply bind_ok in E as (te_post & _ & E).
  apply bind_ok in E as (Xtp & HXtp & E).
  apply bind_ok in E as (ytp & _ & E).
  apply bind_ok in E as (Xep & _ & E).
  apply bind_ok in E as (yte & _ & E).
  apply bind_ok in E as (Xtq & _ & E).
  apply bind_ok in E as (ytq & _ & E).
  apply bind_ok in E as (Xeq & _ & E).
  inversion E; subst; simpl.
  apply partition_columns in Htp. apply fit_encode_columns in Hfp.
  apply features_columns in HXtp.
  rewrite HXtp. split; [apply not_in_filter_neq |].
  intros Hin. apply filter_In in Hin as [Hin _].
  rewrite Hfp, Htp in Hin. exact (not_in_filter_neq _ _ Hin).
Qed.

End Encoding.

(** X10 ([compare_ml_efficacy], lines 491-504). When no encoding list is
    given and the prior frame has distinct column names, a column is
    one-hot encoded exactly when it is categorical and has at most
    [OHE_columns_cutoff] distinct values in the prior frame, and target
    encoded exactly when it is categorical and has more: every
    categorical column gets one of the two encodings, no column both. *)
Theorem default_encoding_by_cardinality
        `{Conversions} `{Efficacy.TargetEncoder} `{Efficacy.Learner}
        (self self0 : Efficacy.obj) (target : string)
        (test_data : option DataFrame) (cutoff : Z) (rs : option Z)
        (ts : Q) (cv_ n_iter_ : nat) (grid_ : Efficacy.grid)
        (r : result unit) :
  Efficacy.configure self target test_data None None cutoff rs ts
                     cv_ n_iter_ grid_ = (self0, r) ->
  mem target (columns (df_prior (Efficacy.detector self))) = true ->
  NoDup (columns (df_prior (Efficacy.detector self))) ->
  exists ohe hc,
    Efficacy.self_OHE_columns self0 = Some ohe /\
    Efficacy.self_high_cardinality_columns self0 = Some hc /\
    forall c s, In (c, s) (df_prior (Efficacy.detector self)) ->
      (In c ohe <-> In c (categorical_columns (Efficacy.detector self))
                    /\ (Z.of_nat (nunique s) <= cutoff)%Z) /\
      (In c hc <-> In c (categorical_columns (Efficacy.detector self))
                   /\ (cutoff < Z.of_nat (nunique s))%Z).
Proof.
  unfold Efficacy.configure. intros E Hmem Hnd. rewrite Hmem in E.
  cbn [assert Py.Ok] in E. cbv zeta in E.
  eexists. eexists.
  split; [destruct (Efficacy.normalise_test _ _) in E; injection E as <- _;
          reflexivity |].
  split; [destruct (Efficacy.normalise_test _ _) in E; injection E as <- _;
          reflexivity |].
  intros c s Hin. split.
  - pose proof (in_selected
                  (fun c n => (Z.of_nat n <=? cutoff)%Z
                              && mem c (categorical_columns (Efficacy.detector self)))
                  _ c s Hnd Hin) as Hsel.
    cbv beta in Hsel. rewrite Hsel, andb_true_iff, Z.leb_le, mem_In. tauto.
  - pose proof (in_selected
                  (fun c n => (cutoff <? Z.of_nat n)%Z
                              && mem c (categorical_columns (Efficacy.detector self)))
                  _ c s Hnd Hin) as Hsel.
    cbv beta in Hsel. rewrite Hsel, andb_true_iff, Z.ltb_lt, mem_In. tauto.
Qed.

Lemma default_encoding_by_cardinality_witness :
  exists self0 ohe hc,
    Efficacy.configure (Efficacy.new Examples.detector_color) "y" None
                       None None 2 (Some 7%Z) (1 # 2) 3 5 Examples.no_grid
    = (self0, inr tt) /\
    Efficacy.self_OHE_columns self0 = Some ohe /\
    Efficacy.self_high_cardinality_columns self0 = Some hc /\
    (In "color" ohe <-> In "color" ["color"] /\ (2 <= 2)%Z).
Proof.
  destruct (default_encoding_by_cardinality
              (Efficacy.new Examples.detector_color) _ "y" None 2
              (Some 7%Z) (1 # 2) 3 5 Examples.no_grid (inr tt) eq_refl
              eq_refl ltac:(repeat constructor; simpl; intuition discriminate))
    as (ohe & hc & Hohe & Hhc & Hall).
  eexists. exists ohe, hc. split; [reflexivity |].
  split; [exact Hohe |]. split; [exact Hhc |].
  exact (proj1 (Hall "color" (Examples.strs ["r"; "g"; "r"])
                  (or_introl eq_refl))).
Defined.

(** X11 ([_ml_data_prep], lines 560-616). None of the four feature
    matrices has the target column or the [source] tag among its
    columns. *)
Theorem features_exclude_target_and_tag
        `{Conversions} `{Efficacy.TargetEncoder} `{Efficacy.Learner}
        (self self' : Efficacy.obj) (g g' : Efficacy.rng)
        (p : Efficacy.params) :
  Efficacy._ml_data_prep self g = inr (self', g') ->
  Efficacy.self_params self = Some p ->
  exists b,
    Efficacy.self_bundle self' = Some b /\
    Forall (fun X => ~ In (Efficacy.target_column p) (columns X)
                     /\ ~ In "source" (columns X))
           [Efficacy.X_train_prior b; Efficacy.X_test_prior b;
            Efficacy.X_train_post b; Efficacy.X_test_post b].
Proof.
  unfold Efficacy._ml_data_prep. intros E Hp.
  apply bind_ok in E as (parts_g & _ & E).
  apply bind_ok in E as (OHE & _ & E).
  apply bind_ok in E as (p' & Hp' & E).
  apply bind_ok in E as (hc & _ & E).
  apply bind_ok in E as (b & Hb & E).
  rewrite Hp in Hp'. injection Hp' as <-.
  inversion E; subst. exists b. split; [reflexivity |].
  destruct (encode_features _ _ _ _ _ _ Hb) as [Ht Hs].
  destruct (encode_columns _ _ _ _ _ _ Hb) as (cols & E1 & E2 & E3 & E4).
  rewrite <- E1 in E2, E3, E4.
  repeat constructor; rewrite ?E2, ?E3, ?E4; assumption.
Qed.

Lemma features_exclude_target_and_tag_witness :
  exists self' g' b,
    Efficacy._ml_data_prep Examples.prepared_color [] = inr (self', g') /\
    Efficacy.self_bundle self' = Some b /\
    Forall (fun X => ~ In "y" (columns X) /\ ~ In "source" (columns X))
           [Efficacy.X_train_prior b; Efficacy.X_test_prior b;
            Efficacy.X_train_post b; Efficacy.X_test_post b].
Proof.
  destruct (Efficacy._ml_data_prep Examples.prepared_color [])
    as [e | [self' g']] eqn:E; [vm_compute in E; discriminate |].
  destruct (features_exclude_target_and_tag Examples.prepared_color self'
              [] g' Examples.params_y E eq_refl) as (b & Hb & Hall).
  exists self', g', b. repeat split; assumption.
Defined.

(* ================================================================== *)
(** * The reports of compare_ml_efficacy *)
(* ================================================================== *)

Section Reports.

Import Efficacy.
Context `{Conversions} `{TargetEncoder} `{Learner}.

Lemma eval_regressor_report self self' :
  _eval_regressor self = inr self' ->
  exists b mp mq y_pred_prior y_pred_post mae_prior r2_prior mae_post
         r2_post,
    self_bundle self = Some b /\
    model_prior self = Some mp /\ model_post self = Some mq /\
    predict mp (X_test_prior b) = inr y_pred_prior /\
    predict mq (X_test_post b) = inr y_pred_post /\
    mean_absolute_error (s_values (y_test b)) y_pred_prior = inr mae_prior /\
    r2_score (s_values (y_test b)) y_pred_prior = inr r2_prior /\
    mean_absolute_error (s_values (y_test b)) y_pred_post = inr mae_post /\
    r2_score (s_values (y_test b)) y_pred_post = inr r2_post /\
    self' = set_ml_report self
      [ mkRow (Lineage "Prior")
          [("RMSE", Num (_rmse (s_values (y_test b)) y_pred_prior));
           ("MAE", Num mae_prior); ("R2", Num r2_prior)];
        mkRow (Lineage "Post")
          [("RMSE", Num (_rmse (s_values (y_test b)) y_pred_post));
           ("MAE", Num mae_post); ("R2", Num r2_post)] ].
Proof.
  unfold _eval_regressor. intros E.
  apply bind_ok in E as (mp & Hmp & E).
  apply bind_ok in E as (b & Hb & E).
  apply bind_ok in E as (yp & Hyp & E).
  apply bind_ok in E as (mq & Hmq & E).
  apply bind_ok in E as (yq & Hyq & E).
  cbv zeta in E.
  apply bind_ok in E as (mae_p & Hmae_p & E).
  apply bind_ok in E as (r2_p & Hr2_p & E).
  apply bind_ok in E as (mae_q & Hmae_q & E).
  apply bind_ok in E as (r2_q & Hr2_q & E).
  injection E as <-.
  unfold getattr in Hmp, Hb, Hmq.
  destruct (model_prior self); [injection Hmp as -> | discriminate].
  destruct (self_bundle self); [injection Hb as -> | discriminate].
  destruct (model_post self); [injection Hmq as -> | discriminate].
  exists b, mp, mq, yp, yq, mae_p, r2_p, mae_q, r2_q.
  repeat (split; [assumption || reflexivity |]). reflexivity.
Qed.

Lemma build_classifier_keeps self g self' :
  _build_classifier self g = inr self' ->
  self_bundle self' = self_bundle self /\ ml_report self' = ml_report self.
Proof.
  unfold _build_classifier. intros E.
  apply bind_ok in E as (p & _ & E). apply bind_ok in E as (b & _ & E).
  apply bind_ok in E as (mp & _ & E). apply bind_ok in E as (mq & _ & E).
  injection E as <-. split; reflexivity.
Qed.

End Reports.

(** X12 ([compare_ml_efficacy] and [_eval_regressor], lines 406-528 and
    695-721). For a target that is numeric and not categorical, a report
    that is returned has exactly the rows [Prior] and [Post] with the
    columns [RMSE], [MAE] and [R2]; both rows score the predictions of the
    stored model of that lineage, on its own test matrix, against the one
    stored test target, and the report is the one stored on the object. *)
Theorem compare_ml_efficacy_regression_report
        `{Conversions} `{Efficacy.TargetEncoder} `{Efficacy.Learner}
        (self self' : Efficacy.obj) (target : string)
        (test_data : option DataFrame)
        (OHE hc : option (list string)) (cutoff : Z) (rs : option Z)
        (ts : Q) (cv_ n_iter_ : nat) (grid_ : Efficacy.grid)
        (g : Efficacy.rng) (report : Efficacy.ml_report_t) :
  mem target (categorical_columns (Efficacy.detector self)) = false ->
  mem target (numeric_columns (Efficacy.detector self)) = true ->
  Efficacy.compare_ml_efficacy self target test_data OHE hc cutoff rs ts
                               cv_ n_iter_ grid_ g = (self', inr report) ->
  exists b mp mq y_pred_prior y_pred_post mae_prior r2_prior mae_post
         r2_post,
    Efficacy.self_bundle self' = Some b /\
    Efficacy.model_prior self' = Some mp /\
    Efficacy.model_post self' = Some mq /\
    Efficacy.predict mp (Efficacy.X_test_prior b) = inr y_pred_prior /\
    Efficacy.predict mq (Efficacy.X_test_post b) = inr y_pred_post /\
    Efficacy.mean_absolute_error (s_values (Efficacy.y_test b)) y_pred_prior
    = inr mae_prior /\
    Efficacy.r2_score (s_values (Efficacy.y_test b)) y_pred_prior
    = inr r2_prior /\
    Efficacy.mean_absolute_error (s_values (Efficacy.y_test b)) y_pred_post
    = inr mae_post /\
    Efficacy.r2_score (s_values (Efficacy.y_test b)) y_pred_post
    = inr r2_post /\
    Efficacy.ml_report self' = Some report /\
    report =
      [ Efficacy.mkRow (Efficacy.Lineage "Prior")
          [("RMSE", Efficacy.Num
                      (Efficacy._rmse (s_values (Efficacy.y_test b))
                                      y_pred_prior));
           ("MAE", Efficacy.Num mae_prior); ("R2", Efficacy.Num r2_prior)];
        Efficacy.mkRow (Efficacy.Lineage "Post")
          [("RMSE", Efficacy.Num
                      (Efficacy._rmse (s_values (Efficacy.y_test b))
                                      y_pred_post));
           ("MAE", Efficacy.Num mae_post); ("R2", Efficacy.Num r2_post)] ].
Proof.
  intros Hcat Hnum. unfold Efficacy.compare_ml_efficacy.
  destruct (Efficacy.configure _ _ _ _ _ _ _ _ _ _ _) as [self0 [e | u]];
    [discriminate |].
  destruct (Efficacy._ml_data_prep self0 g) as [e | [self1 g1]]; [discriminate |].
  cbv zeta. rewrite Hcat, Hnum. unfold Efficacy.step.
  destruct (Efficacy._build_regressor self1 g1) as [e | self2]; [discriminate |].
  destruct (Efficacy._eval_regressor self2) as [e | self3] eqn:Eeval;
    [discriminate |].
  intros E. injection E as <- Hrep.
  destruct (eval_regressor_report _ _ Eeval)
    as (b & mp & mq & yp & yq & mae_p & r2_p & mae_q & r2_q
        & Hb & Hmp & Hmq & Hyp & Hyq & Hmae_p & Hr2_p & Hmae_q & Hr2_q
        & ->).
  cbn [Efficacy.ml_report Efficacy.set_ml_report Efficacy.getattr Py.Ok] in Hrep.
  injection Hrep as <-.
  exists b, mp, mq, yp, yq, mae_p, r2_p, mae_q, r2_q.
  cbn [Efficacy.self_bundle Efficacy.model_prior Efficacy.model_post Efficacy.ml_report Efficacy.set_ml_report].
  repeat (split; [assumption || reflexivity |]). reflexivity.
Qed.

Lemma compare_ml_efficacy_regression_report_witness :
  exists self' report,
    Efficacy.compare_ml_efficacy
      (Efficacy.new Examples.detector_color) "y" None None None 10
      (Some 7%Z) (1 # 2) 3 5 Examples.no_grid [3; 1; 4]%nat
    = (self', inr report)
    /\ map Efficacy.index report
       = [Efficacy.Lineage "Prior"; Efficacy.Lineage "Post"]
    /\ Efficacy.ml_report self' = Some report.
Proof.
  assert (E : exists self' report,
             Efficacy.compare_ml_efficacy
               (Efficacy.new Examples.detector_color) "y" None None None 10
               (Some 7%Z) (1 # 2) 3 5 Examples.no_grid [3; 1; 4]%nat
             = (self', inr report))
    by (eexists; eexists; reflexivity).
  destruct E as (self' & report & E).
  exists self', report. split; [exact E |].
  destruct (compare_ml_efficacy_regression_report
              (Efficacy.new Examples.detector_color) self' "y" None None
              None 10 (Some 7%Z) (1 # 2) 3 5 Examples.no_grid
              [3; 1; 4]%nat report eq_refl eq_refl E)
    as (b & mp & mq & yp & yq & mae_p & r2_p & mae_q & r2_q & _ & _ & _ & _
        & _ & _ & _ & _ & _ & Hrep & Hrows).
  split; [| exact Hrep].
  rewrite Hrows. reflexivity.
Defined.

(** X13 ([compare_ml_efficacy] and [_eval_classifier], lines 406-528 and
    724-801). For a categorical target no call returns a report, whatever
    the data, the arguments and the learner: the call raises, and the
    report stored on the object stays what it was. *)
Theorem compare_ml_efficacy_categorical_target_never_reports
        `{Conversions} `{Efficacy.TargetEncoder} `{Efficacy.Learner}
        (self : Efficacy.obj) (target : string)
        (test_data : option DataFrame)
        (OHE hc : option (list string)) (cutoff : Z) (rs : option Z)
        (ts : Q) (cv_ n_iter_ : nat) (grid_ : Efficacy.grid)
        (g : Efficacy.rng) :
  mem target (categorical_columns (Efficacy.detector self)) = true ->
  exists e,
    snd (Efficacy.compare_ml_efficacy self target test_data OHE hc cutoff
                                      rs ts cv_ n_iter_ grid_ g) = inl e
    /\ Efficacy.ml_report
         (fst (Efficacy.compare_ml_efficacy self target test_data OHE hc
                 cutoff rs ts cv_ n_iter_ grid_ g))
       = Efficacy.ml_report self.
Proof.
  intros Hcat. unfold Efficacy.compare_ml_efficacy.
  destruct (Efficacy.configure _ _ _ _ _ _ _ _ _ _ _) as [self0 [e | u]] eqn:Ec;
    pose proof (configure_carried _ _ _ _ _ _ _ _ _ _ _ _ _ Ec) as C0;
    unfold Efficacy.carried in C0; injection C0 as _ _ _ R0.
  { exists e. split; [reflexivity | exact R0]. }
  destruct (Efficacy._ml_data_prep self0 g) as [e | [self1 g1]] eqn:Ep.
  { exists e. split; [reflexivity | exact R0]. }
  pose proof (ml_data_prep_carried _ _ _ _ Ep) as C1.
  unfold Efficacy.carried in C1. injection C1 as _ _ _ R1.
  cbv zeta. rewrite Hcat. unfold Efficacy.step.
  destruct (Efficacy._build_classifier self1 g1) as [e | self2] eqn:Eb.
  { exists e. split; [reflexivity | simpl; congruence]. }
  destruct (build_classifier_keeps _ _ _ Eb) as [_ R2].
  destruct (eval_classifier_raises self2) as (e & Ee). rewrite Ee.
  exists e. split; [reflexivity | simpl; congruence].
Qed.

Lemma compare_ml_efficacy_categorical_target_never_reports_witness :
  exists e,
    snd (Efficacy.compare_ml_efficacy
           (Efficacy.new Examples.detector_label) "label" None None None 10
           (Some 7%Z) (1 # 2) 3 5 Examples.no_grid [])
    = inl e
    /\ Efficacy.ml_report
         (fst (Efficacy.compare_ml_efficacy
                 (Efficacy.new Examples.detector_label) "label" None None
                 None 10 (Some 7%Z) (1 # 2) 3 5 Examples.no_grid []))
       = None.
Proof.
  apply (compare_ml_efficacy_categorical_target_never_reports
           (Efficacy.new Examples.detector_label) "label").
  reflexivity.
Defined.

(** X14 ([compare_ml_efficacy], lines 471-516). An external test set
    that lacks one of the detector's numeric columns makes the call raise
    [KeyError] before any model is trained: the models and the report
    stored on the object stay what they were. *)
Theorem compare_ml_efficacy_test_data_missing_column
        `{Conversions} `{Efficacy.TargetEncoder} `{Efficacy.Learner}
        (self : Efficacy.obj) (target : string) (test : DataFrame)
        (OHE hc : option (list string)) (cutoff : Z) (rs : option Z)
        (ts : Q) (cv_ n_iter_ : nat) (grid_ : Efficacy.grid)
        (g : Efficacy.rng) (c : string) :
  mem target (columns (df_prior (Efficacy.detector self))) = true ->
  In c (numeric_columns (Efficacy.detector self)) ->
  ~ In c (columns test) ->
  exists e self',
    Efficacy.compare_ml_efficacy self target (Some test) OHE hc cutoff rs
                                 ts cv_ n_iter_ grid_ g = (self', inl e)
    /\ exn_class e = "KeyError"
    /\ Efficacy.carried self' = Efficacy.carried self.
Proof.
  intros Hmem Hc Hmiss. unfold Efficacy.compare_ml_efficacy.
  destruct (Efficacy.configure _ _ _ _ _ _ _ _ _ _ _) as [self0 r] eqn:Ec.
  pose proof (configure_carried _ _ _ _ _ _ _ _ _ _ _ _ _ Ec) as C0.
  unfold Efficacy.configure in Ec. rewrite Hmem in Ec.
  cbn [assert Py.Ok] in Ec. cbv zeta in Ec.
  unfold Efficacy.normalise_test in Ec.
  destruct (cast_float_missing test _ c Hc (proj2 (lookup_none _ _) Hmiss))
    as (e & Ee & Hclass).
  rewrite Ee in Ec. cbn [Py.bind] in Ec. injection Ec as <- <-.
  exists e. eexists. split; [reflexivity |]. split; [exact Hclass |].
  exact C0.
Qed.

Lemma compare_ml_efficacy_test_data_missing_column_witness :
  exists e self',
    Efficacy.compare_ml_efficacy
      (Efficacy.new Examples.detector_color) "y"
      (Some [("color", Examples.strs ["r"])]) None None 10 (Some 7%Z)
      (1 # 2) 3 5 Examples.no_grid [] = (self', inl e)
    /\ exn_class e = "KeyError"
    /\ Efficacy.carried self'
       = Efficacy.carried (Efficacy.new Examples.detector_color).
Proof.
  apply (compare_ml_efficacy_test_data_missing_column
           (Efficacy.new Examples.detector_color) "y"
           [("color", Examples.strs ["r"])] None None 10 (Some 7%Z)
           (1 # 2) 3 5 Examples.no_grid [] "y").
  - reflexivity.
  - left; reflexivity.
  - simpl. intuition discriminate.
Defined.

(* ================================================================== *)
(** * The root mean squared error *)
(* ================================================================== *)

Section Rmse.

Import Scipy Efficacy.
Open Scope R_scope.






End Rmse.



(* ================================================================== *)
(** * The data of the plots *)
(* ================================================================== *)

Section PlotData.

Import Plots.
Context `{Conversions} `{Seaborn}.

Lemma getitems_spec df cols sub :
  getitems df cols = inr sub ->
  columns sub = cols /\
  forall c, In c cols -> lookup c df <> None /\ lookup c sub = lookup c df.
Proof.
  unfold getitems. revert sub.
  induction cols as [| c0 cs IH]; intros sub E; simpl in E.
  - injection E as <-. split; [reflexivity | intros c []].
  - apply bind_ok in E as (col & Hcol & E).
    apply bind_ok in E as (rest & Hrest & E). injection E as <-.
    apply bind_ok in Hcol as (s & Hs & Hcol). injection Hcol as <-.
    unfold getitem in Hs.
    destruct (lookup c0 df) as [s0 |] eqn:E0; [| discriminate].
    injection Hs as ->.
    destruct (IH _ Hrest) as [Hc Hl]. split; [simpl; rewrite Hc; reflexivity |].
    intros c Hin. simpl.
    destruct (String.eqb c0 c) eqn:Ec.
    + apply String.eqb_eq in Ec. subst c0. rewrite E0.
      split; [discriminate | reflexivity].
    + destruct Hin as [-> | Hin]; [rewrite String.eqb_refl in Ec; discriminate |].
      exact (Hl c Hin).
Qed.

Lemma getitems_present df cols :
  (forall c, In c cols -> In c (columns df)) ->
  exists sub, getitems df cols = inr sub.
Proof.
  intros Hall. destruct (getitems df cols) as [e | sub] eqn:E;
    [| eexists; reflexivity].
  unfold getitems in E. apply mapM_error in E as (c & Hc & E).
  unfold getitem in E. destruct (lookup c df) eqn:El; [discriminate |].
  apply lookup_none in El. contradiction (El (Hall c Hc)).
Qed.

Lemma lookup_concat2 A B c :
  lookup c (concat [A; B])
  = if mem c (columns A ++ columns B)
    then Some (mkSeries (first_dtype c [A; B])
                        (column_or_nan c A ++ column_or_nan c B))
    else None.
Proof.
  unfold concat. rewrite lookup_named.
  unfold union_columns, first_occurrences. rewrite mem_fold_add_name.
  simpl. rewrite !app_nil_r. reflexivity.
Qed.

Lemma fold_add_name_known l : forall acc,
  (forall x, In x l -> In x acc) -> fold_left add_name l acc = acc.
Proof.
  induction l as [| x l IH]; intros acc Hall; simpl; [reflexivity |].
  unfold add_name at 2.
  rewrite (proj2 (mem_In x acc) (Hall x (or_introl eq_refl))).
  apply IH. intros y Hy. apply Hall. right; exact Hy.
Qed.

Lemma fold_add_name_fresh l : forall acc,
  NoDup (acc ++ l) -> fold_left add_name l acc = acc ++ l.
Proof.
  induction l as [| x l IH]; intros acc Hnd; simpl.
  - rewrite app_nil_r. reflexivity.
  - unfold add_name at 2.
    destruct (mem x acc) eqn:Ex.
    + apply mem_In in Ex. apply NoDup_remove_2 in Hnd.
      contradiction Hnd. apply in_or_app. left; exact Ex.
    + rewrite IH; rewrite <- app_assoc; [reflexivity | exact Hnd].
Qed.

Lemma first_occurrences_twice l :
  NoDup l -> first_occurrences (l ++ l) = l.
Proof.
  intros Hnd. unfold first_occurrences. rewrite fold_left_app.
  rewrite (fold_add_name_fresh l [] Hnd). simpl.
  apply fold_add_name_known. auto.
Qed.

Lemma columns_setitem_new df c (s : Series) :
  lookup c df = None -> columns (setitem df c s) = columns df ++ [c].
Proof.
  induction df as [| [n s0] df IH]; simpl; [reflexivity |].
  destruct (String.eqb n c); [discriminate |].
  intros Hl. simpl. rewrite (IH Hl). reflexivity.
Qed.

Lemma add_str_strings suffix vs vs' :
  mapM (add_str_value suffix) vs = inr vs' ->
  forallb is_string vs = true ->
  Forall (fun v => exists x, v = VStr (x ++ suffix)) vs'.
Proof.
  revert vs'. induction vs as [| v vs IH]; intros vs' E Hs; simpl in E.
  - injection E as <-. constructor.
  - simpl in Hs. apply andb_true_iff in Hs as [Hv Hs].
    apply bind_ok in E as (v' & Hv' & E).
    apply bind_ok in E as (rest & Hrest & E). injection E as <-.
    constructor; [| exact (IH _ Hrest Hs)].
    destruct v as [x | |]; try discriminate.
    injection Hv' as <-. exists x. reflexivity.
Qed.

Lemma add_str_suffixed suffix sub out :
  add_str (astype_str sub) suffix = inr out ->
  Forall (fun col => suffixed_column suffix (snd col)) out.
Proof.
  unfold add_str. intros E.
  pose proof (astype_str_columns_are_strings sub) as Hstr.
  revert out E. induction Hstr as [| col cols Hcol _ IH]; intros out E;
    simpl in E.
  - injection E as <-. constructor.
  - apply bind_ok in E as (col' & Hcol' & E).
    apply bind_ok in E as (rest & Hrest & E). injection E as <-.
    constructor; [| exact (IH _ Hrest)].
    apply bind_ok in Hcol' as (vs & Hvs & Hcol'). injection Hcol' as <-.
    unfold string_column in Hcol. apply andb_true_iff in Hcol as [_ Hcol].
    split; [reflexivity | exact (add_str_strings _ _ _ Hvs Hcol)].
Qed.

Lemma setitems_lookup_prop (P : Series -> Prop) cols : forall df new df' c,
  setitems df cols new = inr df' ->
  Forall (fun col => P (snd col)) new ->
  In c cols -> exists s, lookup c df' = Some s /\ P s.
Proof.
  induction cols as [| c0 cs IH]; intros df new df' c E Hnew Hc;
    [destruct Hc |].
  destruct new as [| [n s] ns]; simpl in E; try discriminate.
  destruct (lookup c0 df); [| discriminate].
  inversion Hnew as [| ? ? Hs Hns]; subst. simpl in Hs.
  destruct (in_dec string_dec c cs) as [Hin | Hnin].
  - exact (IH _ _ _ c E Hns Hin).
  - destruct Hc as [-> | Hc]; [| contradiction].
    exists s. split; [| exact Hs].
    rewrite (setitems_lookup_other _ _ _ _ c E Hnin). apply lookup_setitem.
Qed.

Lemma column_or_nan_tag F tag :
  column_or_nan "_source" (set_scalar F "_source" tag)
  = repeat (VStr tag) (len F).
Proof. unfold column_or_nan. rewrite lookup_set_scalar. reflexivity. Qed.

Lemma tagged_concat_source A B :
  lookup "_source"
    (concat [set_scalar A "_source" "Prior"; set_scalar B "_source" "Post"])
  = Some (mkSeries object
            (repeat (VStr "Prior") (len A) ++ repeat (VStr "Post") (len B))).
Proof.
  rewrite lookup_concat2, !column_or_nan_tag.
  assert (Hm : mem "_source" (columns (set_scalar A "_source" "Prior")
                              ++ columns (set_scalar B "_source" "Post"))
               = true).
  { apply mem_In, in_or_app. left.
    destruct (in_dec string_dec "_source"
                (columns (set_scalar A "_source" "Prior"))) as [Hin | Hn];
      [exact Hin |].
    apply lookup_none in Hn. rewrite lookup_set_scalar in Hn. discriminate. }
  rewrite Hm. simpl. rewrite lookup_set_scalar. reflexivity.
Qed.

Lemma violin_grid_spec self cats nums on_y height aspect g :
  violin_grid self cats nums on_y height aspect = inr g ->
  let plotted := match cats with
                 | None => default_categorical self
                 | Some l => l
                 end in
  let numeric := match nums with
                 | None => numeric_columns self
                 | Some l => l
                 end in
  (forall c, In c plotted ->
             exists s, lookup c (pg_data g) = Some s
                       /\ suffixed_column "_" s) /\
  (~ In "_source" plotted ->
   lookup "_source" (pg_data g)
   = Some (mkSeries object
             (repeat (VStr "Prior") (len (df_prior self))
              ++ repeat (VStr "Post") (len (df_post self))))) /\
  pg_hue g = "_source" /\
  (pg_x_vars g, pg_y_vars g)
  = if on_y then (numeric, plotted) else (plotted, numeric).
Proof.
  unfold violin_grid. cbv zeta. intros E.
  apply bind_ok in E as (sub & Hsub & E).
  apply bind_ok in E as (suffixed & Hsuf & E).
  apply bind_ok in E as (plot_df & Hset & E).
  assert (Hg : pg_data g = plot_df /\ pg_hue g = "_source" /\
               (pg_x_vars g, pg_y_vars g)
               = if on_y
                 then (match nums with
                       | None => numeric_columns self | Some l => l end,
                       match cats with
                       | None => default_categorical self | Some l => l end)
                 else (match cats with
                       | None => default_categorical self | Some l => l end,
                       match nums with
                       | None => numeric_columns self | Some l => l end)).
  { destruct on_y; injection E as <-; repeat split. }
  destruct Hg as (-> & Hhue & Haxes).
  split; [| split; [| split; assumption]].
  - intros c Hc.
    exact (setitems_lookup_prop (suffixed_column "_") _ _ _ _ c Hset
             (add_str_suffixed _ _ _ Hsuf) Hc).
  - intros Hn. rewrite (setitems_lookup_other _ _ _ _ _ Hset Hn).
    apply tagged_concat_source.
Qed.

Lemma scatter_matrix_returns self nums alpha :
  let numeric := match nums with
                 | None => numeric_columns self
                 | Some l => l
                 end in
  (exists p, scatter_matrix self nums alpha = inr p)
  <-> forall c, In c numeric ->
                In c (columns (df_prior self))
                /\ In c (columns (df_post self)).
Proof.
  cbv zeta. unfold scatter_matrix. cbv zeta.
  set (numeric := match nums with
                  | None => numeric_columns self | Some l => l end).
  split.
  - intros (p & E) c Hc.
    apply bind_ok in E as (sp & Hsp & E). apply bind_ok in E as (sq & Hsq & _).
    destruct (proj2 (getitems_spec _ _ _ Hsp) c Hc) as [Hp _].
    destruct (proj2 (getitems_spec _ _ _ Hsq) c Hc) as [Hq _].
    split.
    + destruct (in_dec string_dec c (columns (df_prior self))); [assumption |].
      contradiction Hp. apply lookup_none. assumption.
    + destruct (in_dec string_dec c (columns (df_post self))); [assumption |].
      contradiction Hq. apply lookup_none. assumption.
  - intros Hall.
    destruct (getitems_present (df_prior self) numeric
                (fun c Hc => proj1 (Hall c Hc))) as (sp & ->).
    destruct (getitems_present (df_post self) numeric
                (fun c Hc => proj2 (Hall c Hc))) as (sq & ->).
    cbn [Py.bind]. eexists; reflexivity.
Qed.

Lemma scatter_matrix_spec self nums alpha p :
  scatter_matrix self nums alpha = inr p ->
  let numeric := match nums with
                 | None => numeric_columns self
                 | Some l => l
                 end in
  NoDup numeric -> ~ In "_source" numeric ->
  columns (pp_data p) = numeric ++ ["_source"] /\
  pp_hue p = "_source" /\
  forall c, In c numeric ->
    exists sp sq,
      lookup c (df_prior self) = Some sp /\
      lookup c (df_post self) = Some sq /\
      lookup c (pp_data p)
      = Some (mkSeries (s_dtype sp) (s_values sp ++ s_values sq)).
Proof.
  unfold scatter_matrix. cbv zeta.
  set (numeric := match nums with
                  | None => numeric_columns self | Some l => l end).
  intros E Hnd Hsrc.
  apply bind_ok in E as (A & HA & E). apply bind_ok in E as (B & HB & E).
  injection E as <-. cbn [pp_data pp_hue].
  destruct (getitems_spec _ _ _ HA) as [HcA HlA].
  destruct (getitems_spec _ _ _ HB) as [HcB HlB].
  assert (HsA : lookup "_source" A = None)
    by (apply lookup_none; rewrite HcA; exact Hsrc).
  assert (HsB : lookup "_source" B = None)
    by (apply lookup_none; rewrite HcB; exact Hsrc).
  assert (HcolsA : columns (set_scalar A "_source" "Prior")
                   = numeric ++ ["_source"]).
  { unfold set_scalar. rewrite (columns_setitem_new _ _ _ HsA), HcA.
    reflexivity. }
  assert (HcolsB : columns (set_scalar B "_source" "Post")
                   = numeric ++ ["_source"]).
  { unfold set_scalar. rewrite (columns_setitem_new _ _ _ HsB), HcB.
    reflexivity. }
  assert (Hnd' : NoDup (numeric ++ ["_source"])).
  { apply NoDup_app; [exact Hnd | repeat constructor; simpl; tauto |].
    intros x Hx [<- | []]. contradiction. }
  split; [| split; [reflexivity |]].
  - assert (Hu : forall dfs, columns (concat dfs) = union_columns dfs).
    { intros dfs. unfold concat, columns. rewrite map_map. apply map_id. }
    rewrite Hu. unfold union_columns. simpl.
    rewrite app_nil_r, HcolsA, HcolsB.
    apply first_occurrences_twice. exact Hnd'.
  - intros c Hc.
    destruct (HlA c Hc) as [HpA HeA]. destruct (HlB c Hc) as [HpB HeB].
    destruct (lookup c (df_prior self)) as [sp |] eqn:Ep;
      [| contradiction HpA; reflexivity].
    destruct (lookup c (df_post self)) as [sq |] eqn:Eq;
      [| contradiction HpB; reflexivity].
    exists sp, sq. split; [reflexivity |]. split; [reflexivity |].
    assert (Hne : c <> "_source") by (intros ->; contradiction).
    rewrite lookup_concat2, HcolsA.
    rewrite (proj2 (mem_In c _)) by (apply in_or_app; left; apply in_or_app;
                                     left; exact Hc).
    unfold column_or_nan, set_scalar. simpl.
    rewrite !(lookup_setitem_other _ _ _ _ Hne), HeA, HeB. reflexivity.
Qed.

End PlotData.

(** X16 ([plot_categorical_to_numeric], lines 237-283). In the data of
    the grid that is built, every plotted categorical column is a column
    of strings that end in an underscore; for frames that have columns,
    and unless [_source] itself is plotted, the [_source] column tags the
    rows of the prior frame "Prior", followed by those of the post frame
    tagged "Post"; and the
    categorical columns go to the y axis exactly when
    [categorical_on_y_axis] is set. *)
Theorem violin_grid_data `{Conversions}
        (self : Detector.t) (cats nums : option (list string))
        (on_y : bool) (height aspect : Q) (g : Plots.pair_grid) :
  Plots.violin_grid self cats nums on_y height aspect = inr g ->
  let plotted := match cats with
                 | None => Plots.default_categorical self
                 | Some l => l
                 end in
  let numeric := match nums with
                 | None => numeric_columns self
                 | Some l => l
                 end in
  (forall c, In c plotted ->
             exists s, lookup c (Plots.pg_data g) = Some s
                       /\ Plots.suffixed_column "_" s) /\
  (df_prior self <> [] -> df_post self <> [] ->
   ~ In "_source" plotted ->
   lookup "_source" (Plots.pg_data g)
   = Some (mkSeries object
             (repeat (VStr "Prior") (len (df_prior self))
              ++ repeat (VStr "Post") (len (df_post self))))) /\
  Plots.pg_hue g = "_source" /\
  (Plots.pg_x_vars g, Plots.pg_y_vars g)
  = if on_y then (numeric, plotted) else (plotted, numeric).
Proof.
  intros E. cbv zeta.
  destruct (violin_grid_spec self cats nums on_y height aspect g E)
    as (Hcols & Htags & Hhue & Haxes).
  split; [exact Hcols |]. split; [| split; [exact Hhue | exact Haxes]].
  intros _ _. exact Htags.
Qed.

Lemma violin_grid_data_witness :
  exists g s,
    Plots.violin_grid Examples.detector_color None None true 4 1 = inr g /\
    lookup "color" (Plots.pg_data g) = Some s /\
    Plots.suffixed_column "_" s /\
    Plots.pg_y_vars g = ["color"].
Proof.
  assert (E : exists g, Plots.violin_grid Examples.detector_color None None
                          true 4 1 = inr g)
    by (eexists; reflexivity).
  destruct E as (g & E).
  destruct (violin_grid_data Examples.detector_color None None true 4 1 g E)
    as (Hcols & _ & _ & Haxes).
  destruct (Hcols "color" (or_introl eq_refl)) as (s & Hs & Hsuf).
  exists g, s. split; [exact E |]. split; [exact Hs |].
  split; [exact Hsuf |].
  injection Haxes as _ Hy. exact Hy.
Defined.

(** X17 ([plot_categorical_to_numeric] and [plot_categorical], lines
    240-246 and 356-361). With distinct column names, the categorical
    columns plotted when none is named are exactly the categorical
    columns with at most 20 distinct values in the prior frame. *)
Theorem default_categorical_low_cardinality (self : Detector.t)
        (c : string) (s : Series) :
  NoDup (columns (df_prior self)) -> In (c, s) (df_prior self) ->
  (In c (Plots.default_categorical self)
   <-> In c (categorical_columns self) /\ (nunique s <= 20)%nat).
Proof.
  intros Hnd Hin. unfold Plots.default_categorical. cbv zeta.
  pose proof (in_selected
                (fun c n => (n <=? 20)%nat
                            && mem c (categorical_columns self))
                _ c s Hnd Hin) as Hsel.
  cbv beta in Hsel. rewrite Hsel, andb_true_iff, Nat.leb_le, mem_In. tauto.
Qed.

Lemma default_categorical_low_cardinality_witness :
  In "color" (Plots.default_categorical Examples.detector_color)
  <-> In "color" ["color"] /\ (2 <= 20)%nat.
Proof.
  apply (default_categorical_low_cardinality Examples.detector_color
           "color" (Examples.strs ["r"; "g"; "r"])).
  - repeat constructor; simpl; intuition discriminate.
  - left; reflexivity.
Defined.

(** X18 ([plot_numeric_to_numeric], lines 318-335). The frame to plot is
    built exactly when every column to plot is a column of both frames
    (otherwise the lookup raises); for distinct names other than
    [_source] it has these columns followed by [_source], and each
    column holds the cells of the prior frame followed by those of the
    post frame. *)
Theorem scatter_matrix_data
        (self : Detector.t) (nums : option (list string)) (alpha : Q) :
  let numeric := match nums with
                 | None => numeric_columns self
                 | Some l => l
                 end in
  ((exists p, Plots.scatter_matrix self nums alpha = inr p)
   <-> forall c, In c numeric ->
                 In c (columns (df_prior self))
                 /\ In c (columns (df_post self))) /\
  forall p,
    Plots.scatter_matrix self nums alpha = inr p ->
    NoDup numeric -> ~ In "_source" numeric ->
    columns (Plots.pp_data p) = numeric ++ ["_source"] /\
    Plots.pp_hue p = "_source" /\
    forall c, In c numeric ->
      exists sp sq,
        lookup c (df_prior self) = Some sp /\
        lookup c (df_post self) = Some sq /\
        lookup c (Plots.pp_data p)
        = Some (mkSeries (s_dtype sp) (s_values sp ++ s_values sq)).
Proof.
  cbv zeta. split.
  - apply scatter_matrix_returns.
  - intros p E. exact (scatter_matrix_spec self nums alpha p E).
Qed.

Lemma scatter_matrix_data_witness :
  exists p,
    Plots.scatter_matrix Examples.detector_color None 1 = inr p /\
    columns (Plots.pp_data p) = ["y"; "_source"].
Proof.
  destruct (scatter_matrix_data Examples.detector_color None 1)
    as [Hret Hdata].
  destruct (proj2 Hret) as (p & E).
  { simpl. intros c [<- | []]. split; right; left; reflexivity. }
  exists p. split; [exact E |].
  apply (Hdata p E).
  - repeat constructor. simpl. tauto.
  - simpl. intuition discriminate.
Defined.

(* ================================================================== *)
(** * The two models of a call *)
(* ================================================================== *)

Section Models.

Import Efficacy Fitting.
Context `{Conversions} `{TargetEncoder} `{Learner}.

Lemma build_regressor_fits self g self' :
  _build_regressor self g = inr self' -> fitted_pair false self'.
Proof.
  unfold _build_regressor. intros E.
  apply bind_ok in E as (p & Hp & E). apply bind_ok in E as (b & Hb & E).
  apply bind_ok in E as (mp & Hmp & E). apply bind_ok in E as (mq & Hmq & E).
  injection E as <-.
  unfold getattr in Hp, Hb.
  destruct (self_params self) as [p0 |] eqn:Ep; [injection Hp as -> | discriminate].
  destruct (self_bundle self) as [b0 |] eqn:Eb; [injection Hb as -> | discriminate].
  exists b, p, mp, mq, g, g. cbn [self_bundle self_params model_prior
                                 model_post set_models].
  repeat (split; [assumption || reflexivity |]). assumption.
Qed.

Lemma build_classifier_fits self g self' :
  _build_classifier self g = inr self' -> fitted_pair true self'.
Proof.
  unfold _build_classifier. intros E.
  apply bind_ok in E as (p & Hp & E). apply bind_ok in E as (b & Hb & E).
  apply bind_ok in E as (mp & Hmp & E). apply bind_ok in E as (mq & Hmq & E).
  injection E as <-.
  unfold getattr in Hp, Hb.
  destruct (self_params self) as [p0 |] eqn:Ep; [injection Hp as -> | discriminate].
  destruct (self_bundle self) as [b0 |] eqn:Eb; [injection Hb as -> | discriminate].
  exists b, p, mp, mq, g, g. cbn [self_bundle self_params model_prior
                                 model_post set_models].
  repeat (split; [assumption || reflexivity |]). assumption.
Qed.

Lemma eval_regressor_keeps self self' :
  _eval_regressor self = inr self' ->
  fitted_pair false self -> fitted_pair false self'.
Proof.
  intros E Hfit.
  destruct (eval_regressor_report _ _ E)
    as (b & mp & mq & yp & yq & mae_p & r2_p & mae_q & r2_q
        & _ & _ & _ & _ & _ & _ & _ & _ & _ & ->).
  exact Hfit.
Qed.

End Models.

(** X19 ([compare_ml_efficacy], [_build_regressor] and
    [_build_classifier], lines 406-528 and 627-692). After a call,
    whether it returned or raised, the two models stored on the object
    are either the two that were stored before the call, or two models
    fitted in this call: the prior model on the prior training matrices
    and the post model on the post training matrices that the object now
    stores, both with the stored [random_state], [param_grid], [n_iter]
    and [cv], as classifiers exactly when the target is categorical. A
    call never leaves one new model beside one old model. *)
Theorem compare_ml_efficacy_stores_models_together
        `{Conversions} `{Efficacy.TargetEncoder} `{Efficacy.Learner}
        (self self' : Efficacy.obj) (target : string)
        (test_data : option DataFrame)
        (OHE hc : option (list string)) (cutoff : Z) (rs : option Z)
        (ts : Q) (cv_ n_iter_ : nat) (grid_ : Efficacy.grid)
        (g : Efficacy.rng) (r : result Efficacy.ml_report_t) :
  Efficacy.compare_ml_efficacy self target test_data OHE hc cutoff rs ts
                               cv_ n_iter_ grid_ g = (self', r) ->
  (Efficacy.model_prior self' = Efficacy.model_prior self
   /\ Efficacy.model_post self' = Efficacy.model_post self)
  \/ Fitting.fitted_pair
       (mem target (categorical_columns (Efficacy.detector self))) self'.
Proof.
  unfold Efficacy.compare_ml_efficacy.
  destruct (Efficacy.configure _ _ _ _ _ _ _ _ _ _ _) as [self0 [e | u]] eqn:Ec;
    pose proof (configure_carried _ _ _ _ _ _ _ _ _ _ _ _ _ Ec) as C0;
    unfold Efficacy.carried in C0; injection C0 as _ P0 Q0 _.
  { intros E. injection E as <- _. left. split; assumption. }
  destruct (Efficacy._ml_data_prep self0 g) as [e | [self1 g1]] eqn:Ep.
  { intros E. injection E as <- _. left. split; assumption. }
  pose proof (ml_data_prep_carried _ _ _ _ Ep) as C1.
  unfold Efficacy.carried in C1. injection C1 as _ P1 Q1 _.
  cbv zeta. unfold Efficacy.step.
  destruct (mem target (categorical_columns (Efficacy.detector self))).
  - destruct (Efficacy._build_classifier self1 g1) as [e | self2] eqn:Eb.
    { intros E. injection E as <- _. left. split; congruence. }
    pose proof (build_classifier_fits _ _ _ Eb) as Hfit.
    destruct (eval_classifier_raises self2) as (e & Ee). rewrite Ee.
    intros E. injection E as <- _. right. exact Hfit.
  - destruct (mem target (numeric_columns (Efficacy.detector self))).
    + destruct (Efficacy._build_regressor self1 g1) as [e | self2] eqn:Eb.
      { intros E. injection E as <- _. left. split; congruence. }
      pose proof (build_regressor_fits _ _ _ Eb) as Hfit.
      destruct (Efficacy._eval_regressor self2) as [e | self3] eqn:Ee.
      * intros E. injection E as <- _. right. exact Hfit.
      * intros E. injection E as <- _. right.
        exact (eval_regressor_keeps _ _ Ee Hfit).
    + intros E. injection E as <- _. left. split; congruence.
Qed.

Lemma compare_ml_efficacy_stores_models_together_witness :
  exists self' r,
    Efficacy.compare_ml_efficacy
      (Efficacy.new Examples.detector_color) "y" None None None 10
      (Some 7%Z) (1 # 2) 3 5 Examples.no_grid [3; 1; 4]%nat = (self', r)
    /\ Efficacy.model_prior self' = Some (VNum 1)
    /\ Fitting.fitted_pair false self'.
Proof.
  assert (E : exists self' report,
             Efficacy.compare_ml_efficacy
               (Efficacy.new Examples.detector_color) "y" None None None 10
               (Some 7%Z) (1 # 2) 3 5 Examples.no_grid [3; 1; 4]%nat
             = (self', inr report)
             /\ Efficacy.model_prior self' = Some (VNum 1))
    by (eexists; eexists; split; reflexivity).
  destruct E as (self' & report & E & Hm).
  exists self', (inr report). split; [exact E |]. split; [exact Hm |].
  destruct (compare_ml_efficacy_stores_models_together
              (Efficacy.new Examples.detector_color) self' "y" None None
              None 10 (Some 7%Z) (1 # 2) 3 5 Examples.no_grid
              [3; 1; 4]%nat (inr report) E) as [[Hp _] | Hfit].
  - rewrite Hm in Hp. discriminate.
  - exact Hfit.
Defined.

(* ================================================================== *)
(** * The order of float64 *)
(* ================================================================== *)

Import Floats.

Section FloatOrder.

Open Scope float_scope.

Ltac compare_cases :=
  repeat match goal with
         | |- context [PosDef.Pos.compare_cont Eq ?a ?b] =>
             change (PosDef.Pos.compare_cont Eq a b) with (Pos.compare a b)
         | H : context [PosDef.Pos.compare_cont Eq ?a ?b] |- _ =>
             change (PosDef.Pos.compare_cont Eq a b) with (Pos.compare a b)
               in H
         end;
  repeat match goal with
         | H : context [(?x ?= ?y)%Z] |- _ =>
             destruct (Z.compare_spec x y); simpl in H
         | H : context [(?x ?= ?y)%positive] |- _ =>
             destruct (Pos.compare_spec x y); simpl in H
         | |- context [(?x ?= ?y)%Z] =>
             destruct (Z.compare_spec x y); simpl
         | |- context [(?x ?= ?y)%positive] =>
             destruct (Pos.compare_spec x y); simpl
         end;
  subst; try discriminate; try reflexivity; try lia.

Lemma SFleb_trans a b c :
  SFleb a b = true -> SFleb b c = true -> SFleb a c = true.
Proof.
  unfold SFleb, SFcompare.
  destruct a as [sa | sa | | sa ma ea], b as [sb | sb | | sb mb eb],
           c as [sc | sc | | sc mc ec];
    repeat match goal with s : bool |- _ => destruct s end;
    simpl; try discriminate; try reflexivity; intros H1 H2;
    compare_cases.
Qed.

Lemma SFleb_total a b :
  a <> S754_nan -> b <> S754_nan -> SFltb a b = false -> SFleb b a = true.
Proof.
  unfold SFleb, SFltb, SFcompare.
  destruct a as [sa | sa | | sa ma ea], b as [sb | sb | | sb mb eb];
    repeat match goal with s : bool |- _ => destruct s end;
    simpl; try discriminate; try reflexivity; try congruence;
    intros _ _ H1; compare_cases.
Qed.

Lemma SFltb_leb a b : SFltb a b = true -> SFleb a b = true.
Proof.
  unfold SFleb, SFltb. destruct (SFcompare a b) as [[| |] |];
    try discriminate; reflexivity.
Qed.

Lemma SFltb_not_leb a b : SFltb a b = true -> SFleb b a = false.
Proof.
  unfold SFleb, SFltb, SFcompare.
  destruct a as [sa | sa | | sa ma ea], b as [sb | sb | | sb mb eb];
    repeat match goal with s : bool |- _ => destruct s end;
    simpl; try discriminate; try reflexivity; intros H1; compare_cases.
Qed.

Lemma SFeqb_leb a b : SFeqb a b = true -> SFleb a b = true /\ SFleb b a = true.
Proof.
  unfold SFleb, SFeqb, SFcompare.
  destruct a as [sa | sa | | sa ma ea], b as [sb | sb | | sb mb eb];
    repeat match goal with s : bool |- _ => destruct s end;
    simpl; try discriminate; try (split; reflexivity); intros H1;
    split; compare_cases.
Qed.

Lemma is_nan_spec x : is_nan x = false -> Prim2SF x <> S754_nan.
Proof.
  unfold is_nan. rewrite eqb_spec. intros H E. rewrite E in H.
  discriminate.
Qed.

Lemma ltb_leb x y : (x <? y) = true -> (x <=? y) = true.
Proof. rewrite ltb_spec, leb_spec. apply SFltb_leb. Qed.

Lemma leb_total x y :
  is_nan x = false -> is_nan y = false ->
  (x <? y) = false -> (y <=? x) = true.
Proof.
  rewrite ltb_spec, leb_spec. intros Hx Hy.
  apply SFleb_total; apply is_nan_spec; assumption.
Qed.

Lemma leb_trans x y z :
  (x <=? y) = true -> (y <=? z) = true -> (x <=? z) = true.
Proof. rewrite !leb_spec. apply SFleb_trans. Qed.

(** Two keys of which one is less than the other do not have the same
    score. *)
Lemma ltb_scores x y s :
  (x <? y) = true -> (x =? s) = true -> (y =? s) = true -> False.
Proof.
  rewrite ltb_spec, !eqb_spec. intros Hlt Hx Hy.
  apply SFeqb_leb in Hx as [_ Hx]. apply SFeqb_leb in Hy as [Hy _].
  pose proof (SFleb_trans _ _ _ Hy Hx) as Hle.
  rewrite (SFltb_not_leb _ _ Hlt) in Hle. discriminate.
Qed.

End FloatOrder.

(* ================================================================== *)
(** * float64: the loops and the ranking *)
(* ================================================================== *)

Section Ranking64.

Import Binary64 Scipy64 Drift64.
Open Scope float_scope.

Lemma update_keys64 (res : dict) (k : string) (v : float) :
  map fst (update res k v) = add_name (map fst res) k.
Proof.
  induction res as [| [k0 v0] rest IH]; simpl.
  - reflexivity.
  - unfold add_name. rewrite mem_cons, (String.eqb_sym k k0).
    destruct (String.eqb k0 k) eqn:E; simpl.
    + reflexivity.
    + rewrite IH. unfold add_name.
      destruct (mem k (map fst rest)); reflexivity.
Qed.

Lemma update_in64 (res : dict) (k : string) (v : float) c d :
  In (c, d) (update res k v) -> (c, d) = (k, v) \/ In (c, d) res.
Proof.
  induction res as [| [k0 v0] rest IH]; simpl.
  - intros [E | []]; left; congruence.
  - destruct (String.eqb k0 k) eqn:E; simpl.
    + apply String.eqb_eq in E; subst.
      intros [E' | Hin]; [left; congruence | right; right; exact Hin].
    + intros [E' | Hin]; [right; left; exact E' |].
      destruct (IH Hin); auto.
Qed.

Lemma distances_keys64 f cols res res' :
  distances f cols res = inr res' ->
  map fst res' = fold_left add_name cols (map fst res).
Proof.
  revert res; induction cols as [| col rest IH]; simpl; intros res E.
  - inversion E; reflexivity.
  - apply bind_ok in E as (d & _ & E).
    rewrite (IH _ E), update_keys64. reflexivity.
Qed.

Lemma distances_values64 f cols res res' :
  (forall c d, In (c, d) res -> f c = inr d) ->
  distances f cols res = inr res' ->
  forall c d, In (c, d) res' -> f c = inr d.
Proof.
  revert res; induction cols as [| col rest IH]; simpl; intros res Hres E.
  - inversion E; subst; exact Hres.
  - apply bind_ok in E as (d & Ed & E).
    eapply IH; [| exact E].
    intros c d' Hin. apply update_in64 in Hin as [Hin | Hin]; auto.
    inversion Hin; subst; exact Ed.
Qed.

Lemma distances_error64 f cols res e :
  distances f cols res = inl e -> exists col, In col cols /\ f col = inl e.
Proof.
  revert res; induction cols as [| col rest IH]; simpl; intros res E;
    [discriminate |].
  apply bind_err in E as [E | (d & _ & E)]; [eauto |].
  destruct (IH _ E) as (c & Hin & Hc). eauto.
Qed.

Lemma distances_fail64 f cols res col e :
  In col cols -> f col = inl e ->
  exists e', distances f cols res = inl e'.
Proof.
  revert res; induction cols as [| c rest IH]; simpl; intros res Hin Hf;
    [contradiction |].
  destruct (f c) as [e0 | d] eqn:Hc; simpl; [eauto |].
  destruct Hin as [-> | Hin]; [congruence |].
  apply IH; assumption.
Qed.

Lemma distances_returns64 f cols res :
  (exists res', distances f cols res = inr res')
  <-> forall col, In col cols -> exists d, f col = inr d.
Proof.
  split.
  - intros (res' & E) col Hcol.
    destruct (f col) as [e | d] eqn:Ef; [| eexists; reflexivity].
    destruct (distances_fail64 f cols res col e Hcol Ef) as (e' & Ee).
    congruence.
  - intros Hall.
    destruct (distances f cols res) as [e | res'] eqn:E;
      [| eexists; reflexivity].
    apply distances_error64 in E as (col & Hcol & Ef).
    destruct (Hall col Hcol) as (d & Ed). congruence.
Qed.

(** What [rank] makes of the dict a loop returned. *)
Lemma distances_ranked64 `{Sorted} f cols res :
  distances f cols [] = inr res -> ranked f cols (rank res).
Proof.
  intros E. exists res. split; [| split].
  - apply distances_keys64 in E. exact E.
  - eapply distances_values64; [| exact E]. intros ? ? [].
  - destruct cols as [| c cs].
    + simpl in E. inversion E; reflexivity.
    + assert (Hlen : (0 < List.length res)%nat).
      { apply distances_keys64 in E.
        rewrite <- (length_map fst), E. simpl.
        eapply Nat.lt_le_trans; [| apply fold_add_name_length].
        simpl; lia. }
      unfold rank. apply Nat.ltb_lt in Hlen. rewrite Hlen.
      exists (sorted_reverse res). split; [reflexivity |].
      split; [apply sorted_perm |].
      intros Hn. split; [apply sorted_descending | apply sorted_stable];
        exact Hn.
Qed.

(** ** The reference sort keeps the promise of [sorted] *)

Import Samples64.

Lemma insert_desc_perm64 x l : Permutation (insert_desc x l) (x :: l).
Proof.
  induction l as [| y ys IH]; simpl; [reflexivity |].
  destruct (snd x <? snd y); [| reflexivity].
  rewrite IH. apply perm_swap.
Qed.

Lemma sorted_desc_perm64 l : Permutation (sorted_desc l) l.
Proof.
  induction l as [| x xs IH]; simpl; [reflexivity |].
  rewrite insert_desc_perm64. constructor; exact IH.
Qed.

Lemma no_nan_cons x l :
  no_nan (x :: l) = true <-> is_nan (snd x) = false /\ no_nan l = true.
Proof.
  unfold no_nan. simpl. rewrite andb_true_iff, negb_true_iff. reflexivity.
Qed.

Lemma no_nan_perm l l' : Permutation l l' -> no_nan l = no_nan l'.
Proof.
  unfold no_nan. induction 1 as [| x l l' _ IH | x y l | l l' l'' _ IH1 _ IH2];
    simpl.
  - reflexivity.
  - rewrite IH; reflexivity.
  - rewrite !andb_assoc, (andb_comm (negb (is_nan (snd y)))). reflexivity.
  - congruence.
Qed.

Lemma insert_desc_descending64 x l :
  is_nan (snd x) = false -> no_nan l = true ->
  descending l -> descending (insert_desc x l).
Proof.
  unfold descending. intros Hx.
  induction l as [| y ys IH]; simpl; intros Hn Hs.
  - repeat constructor.
  - apply no_nan_cons in Hn as [Hy Hn].
    inversion Hs as [| ? ? Hys Hall]; subst.
    destruct (snd x <? snd y) eqn:Hlt.
    + constructor; [apply IH; assumption |].
      eapply Permutation_Forall;
        [symmetry; apply insert_desc_perm64 |].
      constructor; [apply ltb_leb; exact Hlt | exact Hall].
    + pose proof (leb_total _ _ Hx Hy Hlt) as Hle.
      constructor; [exact Hs |].
      constructor; [exact Hle |].
      eapply Forall_impl; [| exact Hall]. simpl.
      intros z Hz. eapply leb_trans; eassumption.
Qed.

Lemma sorted_desc_descending64 l :
  no_nan l = true -> descending (sorted_desc l).
Proof.
  induction l as [| x xs IH]; simpl; intros Hn.
  - constructor.
  - apply no_nan_cons in Hn as [Hx Hn].
    apply insert_desc_descending64; [exact Hx | | apply IH; exact Hn].
    rewrite (no_nan_perm _ _ (sorted_desc_perm64 xs)). exact Hn.
Qed.

Lemma insert_desc_filter64 s x l :
  filter (has_score s) (insert_desc x l) = filter (has_score s) (x :: l).
Proof.
  induction l as [| y ys IH]; [reflexivity |].
  cbn [insert_desc].
  destruct (snd x <? snd y) eqn:Hlt; [| reflexivity].
  cbn [filter] in *. rewrite IH.
  unfold has_score.
  destruct (snd x =? s) eqn:Ex, (snd y =? s) eqn:Ey; try reflexivity.
  exfalso. exact (ltb_scores _ _ _ Hlt Ex Ey).
Qed.

Lemma sorted_desc_stable64 l : stable l (sorted_desc l).
Proof.
  intros s. induction l as [| x xs IH]; [reflexivity |].
  cbn [sorted_desc fold_right]. fold (sorted_desc xs).
  rewrite insert_desc_filter64. cbn [filter]. rewrite IH. reflexivity.
Qed.

End Ranking64.

(** The reference sort as an interpretation of [sorted]. *)
Definition reference_sort : Drift64.Sorted :=
  {| Drift64.sorted_reverse := Samples64.sorted_desc;
     Drift64.sorted_perm := sorted_desc_perm64;
     Drift64.sorted_descending := sorted_desc_descending64;
     Drift64.sorted_stable := fun items _ => sorted_desc_stable64 items |}.

(* ================================================================== *)
(** * float64: which calls raise *)
(* ================================================================== *)

Section Failure64.

Import Binary64 Scipy64 Drift64.
Open Scope float_scope.

Context {L : Libm}.

Lemma to_float_numbers64 values data :
  mapM to_float values = inr data ->
  forallb is_number values = true /\ data = map number values.
Proof.
  revert data; induction values as [| v vs IH]; simpl; intros data E.
  - inversion E; auto.
  - apply bind_ok in E as (x & Hx & E).
    apply bind_ok in E as (xs & Hxs & E).
    inversion E; subst. destruct (IH _ Hxs) as [Hall ->].
    destruct v; simpl in Hx; inversion Hx; subst. simpl. auto.
Qed.

Lemma to_float_all_numbers64 values :
  forallb is_number values = true ->
  mapM to_float values = inr (map number values).
Proof.
  induction values as [| v vs IH]; simpl; [reflexivity |].
  intros Hall. apply andb_true_iff in Hall as [Hv Hvs].
  destruct v; try discriminate. simpl. rewrite (IH Hvs). reflexivity.
Qed.

(** [gaussian_kde] returns exactly on the samples that fit. *)
Lemma gaussian_kde_returns64 (s : Series) :
  (exists k, gaussian_kde (s_values s) = inr k) <-> fits s = true.
Proof.
  unfold fits, refused, gaussian_kde.
  destruct (List.length (s_values s) <=? 1)%nat.
  { rewrite andb_false_r. split; [intros (k & E) |]; discriminate. }
  cbn [orb]. rewrite negb_involutive.
  destruct (forallb is_number (s_values s)) eqn:Hall.
  - rewrite (to_float_all_numbers64 _ Hall). cbn [Py.bind andb]. cbv zeta.
    destruct (is_finite (data_covariance (map number (s_values s))));
      [| split; [intros (k & E) |]; discriminate].
    destruct (0 <? data_covariance (map number (s_values s)));
      [| split; [intros (k & E) |]; discriminate].
    split; [reflexivity | eexists; reflexivity].
  - split; [| discriminate]. intros (k & E).
    apply bind_ok in E as (data & Hdata & _).
    apply to_float_numbers64 in Hdata as [Hall' _]. congruence.
Qed.

Lemma gaussian_kde_error64 values e :
  gaussian_kde values = inl e -> Drift.drift_error e.
Proof.
  unfold gaussian_kde, Drift.drift_error.
  destruct (List.length values <=? 1)%nat.
  { intros E; inversion E; subst; simpl; auto. }
  intros E. apply bind_err in E as [E | (data & _ & E)].
  - apply mapM_error in E as (v & _ & E).
    destruct v; simpl in E; inversion E; subst; simpl; auto.
  - cbv zeta in E.
    destruct (is_finite (data_covariance data));
      [destruct (0 <? data_covariance data); [discriminate |] |];
      inversion E; subst; simpl; auto 6.
Qed.

Lemma probability_array_returns64 source index col :
  (exists arr, probability_array source index col = inr arr)
  <-> (exists arr, Drift.probability_array source index col = inr arr).
Proof.
  unfold probability_array, Drift.probability_array.
  destruct (fold_right Nat.add O (map (fun c => Drift.size c col) index)
            =? 0)%nat.
  - split; intros (arr & E); discriminate.
  - split; intros _; eexists; reflexivity.
Qed.

Lemma categorical_distance_returns64 self col :
  (exists d, categorical_distance self col = inr d)
  <-> categorical_ready self col = true.
Proof.
  rewrite <- categorical_distance_returns.
  unfold categorical_distance, Drift.categorical_distance.
  destruct (getitem (df_prior self) col) as [e | sp]; cbn [Py.bind];
    [split; intros (d & E); discriminate |].
  destruct (getitem (df_post self) col) as [e | sq]; cbn [Py.bind];
    [split; intros (d & E); discriminate |].
  destruct (String.eqb col "_source");
    [split; intros (d & E); discriminate |].
  cbv zeta.
  pose proof (probability_array_returns64 "prior"
                (categories (s_values sp ++ s_values sq)) (s_values sp))
    as Rp.
  pose proof (probability_array_returns64 "post"
                (categories (s_values sp ++ s_values sq)) (s_values sq))
    as Rq.
  split; intros (d & E);
    apply bind_ok in E as (a & Ha & E); apply bind_ok in E as (b & Hb & _).
  - destruct (proj1 Rp (ex_intro _ a Ha)) as (a' & ->).
    destruct (proj1 Rq (ex_intro _ b Hb)) as (b' & ->).
    cbn [Py.bind]. eexists; reflexivity.
  - destruct (proj2 Rp (ex_intro _ a Ha)) as (a' & ->).
    destruct (proj2 Rq (ex_intro _ b Hb)) as (b' & ->).
    cbn [Py.bind]. eexists; reflexivity.
Qed.

Lemma numeric_distance_returns64 self col :
  (exists d, numeric_distance self col = inr d)
  <-> numeric_ready self col = true.
Proof.
  unfold numeric_distance, numeric_ready, getitem.
  destruct (lookup col (df_prior self)) as [sp |];
    [| split; [intros (d & E); discriminate | discriminate]].
  destruct (lookup col (df_post self)) as [sq |];
    [| split; [intros (d & E); discriminate | discriminate]].
  cbn [Py.bind Py.Ok].
  rewrite andb_true_iff, <- !gaussian_kde_returns64.
  split.
  - intros (d & E).
    apply bind_ok in E as (kp & Hp & E). apply bind_ok in E as (kq & Hq & _).
    split; eexists; eassumption.
  - intros [(kp & Hp) (kq & Hq)]. rewrite Hp, Hq. cbn [Py.bind].
    eexists; reflexivity.
Qed.

Lemma categorical_distance_error64 self col e :
  categorical_distance self col = inl e -> Drift.drift_error e.
Proof.
  unfold categorical_distance. intros E.
  apply bind_err in E as [E | (sp & _ & E)];
    [eapply getitem_error; eauto |].
  apply bind_err in E as [E | (sq & _ & E)];
    [eapply getitem_error; eauto |].
  destruct (String.eqb col "_source").
  { inversion E; subst. right; left; reflexivity. }
  unfold probability_array in E.
  repeat match type of E with
         | context [(?n =? 0)%nat] => destruct (n =? 0)%nat
         end;
    cbn [Py.bind Py.Err Py.Ok] in E; inversion E; subst;
    left; reflexivity.
Qed.

Lemma numeric_distance_error64 self col e :
  numeric_distance self col = inl e -> Drift.drift_error e.
Proof.
  unfold numeric_distance. intros E.
  apply bind_err in E as [E | (sp & _ & E)];
    [eapply getitem_error; eauto |].
  apply bind_err in E as [E | (sq & _ & E)];
    [eapply getitem_error; eauto |].
  apply bind_err in E as [E | (kp & _ & E)];
    [eapply gaussian_kde_error64; eauto |].
  apply bind_err in E as [E | (kq & _ & E)];
    [eapply gaussian_kde_error64; eauto |].
  discriminate.
Qed.

Lemma calculate_drift_error64 `{Sorted} self e :
  calculate_drift self = inl e -> Drift.drift_error e.
Proof.
  unfold calculate_drift. intros E.
  apply bind_err in E as [E | (cat_res & _ & E)].
  { apply distances_error64 in E as (col & _ & E).
    eapply categorical_distance_error64; eauto. }
  apply bind_err in E as [E | (num_res & _ & E)]; [| discriminate].
  apply distances_error64 in E as (col & _ & E).
  eapply numeric_distance_error64; eauto.
Qed.

(** A column whose sample the estimator refuses stops the numeric loop. *)
Lemma numeric_distance_refused self col :
  column_is refused (df_prior self) col = true
  \/ column_is refused (df_post self) col = true ->
  exists e, numeric_distance self col = inl e.
Proof.
  intros Hr.
  destruct (numeric_distance self col) as [e | d] eqn:E; [eauto |].
  exfalso.
  assert (Hready : numeric_ready self col = true)
    by (apply numeric_distance_returns64; eauto).
  unfold numeric_ready, column_is, fits in *.
  destruct (lookup col (df_prior self)) as [sp |]; [| discriminate].
  destruct (lookup col (df_post self)) as [sq |]; [| discriminate].
  apply andb_true_iff in Hready as [Hp Hq].
  apply andb_true_iff in Hp as [_ Hp]. apply andb_true_iff in Hq as [_ Hq].
  destruct Hr as [Hr | Hr]; rewrite Hr in *; discriminate.
Qed.

End Failure64.

(** C3 (as stated, refuted). A numeric column that holds seven times 1.1
    has one distinct value, and [calculate_drift] returns a report that
    scores it: the mean numpy computes of the seven cells is not 1.1, so the
    covariance handed to the estimator is a positive number and nothing is
    raised. Where a constant column does stop the call, as the column of two
    1.0 does, the exception is the estimator's [LinAlgError], whose message
    does not name the column: the code defines no [InsufficientDataError]. *)
Lemma calculate_drift_constant_column_counterexample :
  In "x" (numeric_columns Samples64.detector_sevens) /\
  (Drift.distinct_values (df_prior Samples64.detector_sevens) "x" < 2)%nat /\
  (0 <? Scipy64.data_covariance
          (repeat (Binary64.of_Q (11 # 10)) 7))%float = true /\
  (forall (L : Binary64.Libm) (S : Drift64.Sorted),
      exists r, Drift64.calculate_drift Samples64.detector_sevens = inr r) /\
  (Drift.distinct_values (df_prior Examples.detector_const) "x" < 2)%nat /\
  (forall (L : Binary64.Libm) (S : Drift64.Sorted),
      Drift64.calculate_drift Examples.detector_const
      = inl (Raise "LinAlgError" "singular data covariance matrix")).
Proof.
  split; [left; reflexivity |].
  split; [vm_compute; lia |].
  split; [vm_compute; reflexivity |].
  split; [| split; [vm_compute; lia |]].
  - intros L S.
    assert (Hx : Drift64.numeric_ready Samples64.detector_sevens "x" = true)
      by (vm_compute; reflexivity).
    apply numeric_distance_returns64 in Hx as (d & Hd).
    unfold Drift64.calculate_drift.
    change (numeric_columns Samples64.detector_sevens) with ["x"].
    change (categorical_columns Samples64.detector_sevens)
      with (@nil string).
    cbn [Drift64.distances Py.bind Py.Ok]. rewrite Hd.
    cbn [Drift64.distances Py.bind Py.Ok]. eexists; reflexivity.
  - intros L S. vm_compute. reflexivity.
Qed.

(** C3 (amended). If the estimator refuses the sample a numeric column has
    in the prior or in the post frame, because it has fewer than two rows
    or because its covariance, as numpy computes it, is not a positive
    finite number, [calculate_drift] returns no report: it raises, and the
    exception is the one of the estimator or of an earlier step, never
    [InsufficientDataError]. *)
Theorem calculate_drift_fails_on_refused_sample
        (L : Binary64.Libm) (S : Drift64.Sorted)
        (self : Detector.t) (col : string) :
  In col (numeric_columns self) ->
  column_is Drift64.refused (df_prior self) col = true
  \/ column_is Drift64.refused (df_post self) col = true ->
  exists e, Drift64.calculate_drift self = inl e
            /\ exn_class e <> "InsufficientDataError".
Proof.
  intros Hin Hr.
  assert (Hfail : exists e, Drift64.calculate_drift self = inl e).
  { unfold Drift64.calculate_drift.
    destruct (Drift64.distances (Drift64.categorical_distance self) _ _)
      as [e | cat_res]; cbn [Py.bind]; [eauto |].
    destruct (numeric_distance_refused self col Hr) as (e & He).
    destruct (distances_fail64 (Drift64.numeric_distance self)
                (numeric_columns self) [] col e Hin He) as (e' & ->).
    cbn [Py.bind]. eauto. }
  destruct Hfail as (e & He). exists e. split; [exact He |].
  apply drift_error_class. eapply calculate_drift_error64; exact He.
Qed.

Lemma calculate_drift_fails_on_refused_sample_witness :
  In "x" (numeric_columns Examples.detector_const) /\
  (column_is Drift64.refused (df_prior Examples.detector_const) "x" = true
   \/ column_is Drift64.refused (df_post Examples.detector_const) "x"
      = true) /\
  exists e,
    @Drift64.calculate_drift Samples64.libm_table reference_sort
                             Examples.detector_const = inl e
    /\ exn_class e <> "InsufficientDataError".
Proof.
  assert (Hin : In "x" (numeric_columns Examples.detector_const))
    by (left; reflexivity).
  assert (Hr : column_is Drift64.refused
                 (df_prior Examples.detector_const) "x" = true
               \/ column_is Drift64.refused
                    (df_post Examples.detector_const) "x" = true)
    by (left; vm_compute; reflexivity).
  split; [exact Hin |]. split; [exact Hr |].
  exact (calculate_drift_fails_on_refused_sample
           Samples64.libm_table reference_sort
           Examples.detector_const "x" Hin Hr).
Defined.

(** X3 ([calculate_drift], lines 121-195). [calculate_drift] returns a
    report exactly when every categorical column is present in both
    frames, is not named [_source] and has a cell that is not missing on
    each side, and every numeric column is present in both frames and
    holds, on each side, at least two cells, numbers only, whose
    covariance as numpy computes it in float64 is a positive finite
    number. In every other case it raises. *)
Theorem calculate_drift_returns_iff_samples_fit
        (L : Binary64.Libm) (S : Drift64.Sorted) (self : Detector.t) :
  (exists r, Drift64.calculate_drift self = inr r)
  <-> Drift64.drift_ready self = true.
Proof.
  unfold Drift64.drift_ready. rewrite andb_true_iff, !forallb_forall.
  assert (Hc : (forall col, In col (categorical_columns self) ->
                            categorical_ready self col = true)
               <-> exists res,
                     Drift64.distances (Drift64.categorical_distance self)
                                       (categorical_columns self) []
                     = inr res).
  { rewrite distances_returns64. split; intros Hall col Hcol;
      apply categorical_distance_returns64; auto. }
  assert (Hn : (forall col, In col (numeric_columns self) ->
                            Drift64.numeric_ready self col = true)
               <-> exists res,
                     Drift64.distances (Drift64.numeric_distance self)
                                       (numeric_columns self) []
                     = inr res).
  { rewrite distances_returns64. split; intros Hall col Hcol;
      apply numeric_distance_returns64; auto. }
  rewrite Hc, Hn. unfold Drift64.calculate_drift. split.
  - intros (r & E).
    apply bind_ok in E as (cat_res & Hcat & E).
    apply bind_ok in E as (num_res & Hnum & _).
    split; eexists; eassumption.
  - intros [(cat_res & Hcat) (num_res & Hnum)]. rewrite Hcat, Hnum.
    cbn [Py.bind]. eexists; reflexivity.
Qed.

Lemma calculate_drift_returns_iff_samples_fit_witness :
  Drift64.drift_ready Samples64.detector_sevens = true /\
  Drift64.drift_ready Examples.detector_const = false /\
  exists r,
    @Drift64.calculate_drift Samples64.libm_table reference_sort
                             Samples64.detector_sevens = inr r.
Proof.
  split; [vm_compute; reflexivity |].
  split; [vm_compute; reflexivity |].
  apply (proj2 (calculate_drift_returns_iff_samples_fit
                  Samples64.libm_table reference_sort
                  Samples64.detector_sevens)).
  vm_compute; reflexivity.
Defined.

(* ================================================================== *)
(** * float64: a distance that is not a number *)
(* ================================================================== *)

Section NotANumber.

Import Binary64 Scipy64 Drift64.
Open Scope float_scope.

Context {L : Libm}.

Lemma add_nan_l x : nan + x = nan.
Proof. apply Prim2SF_inj. rewrite add_spec. reflexivity. Qed.

Lemma div_nan_l x : nan / x = nan.
Proof. apply Prim2SF_inj. rewrite div_spec. reflexivity. Qed.

Lemma leb_nan_r x : (x <=? nan) = false.
Proof.
  rewrite leb_spec. change (Prim2SF nan) with S754_nan.
  unfold SFleb, SFcompare. destruct (Prim2SF x); reflexivity.
Qed.

Lemma midpoint_nan_l x : midpoint nan x = nan.
Proof. unfold midpoint. rewrite add_nan_l. reflexivity. Qed.

Lemma rel_entr_nan_r x : rel_entr x nan = nan.
Proof.
  unfold rel_entr. change (is_nan nan) with true.
  rewrite orb_true_r. reflexivity.
Qed.

Lemma normalize_nan s n :
  map (fun x => x / s) (repeat nan n) = repeat nan n.
Proof.
  induction n as [| n IH]; simpl; [reflexivity |].
  rewrite IH, div_nan_l. reflexivity.
Qed.

Lemma map2_midpoint_nan q :
  map2 midpoint (repeat nan (List.length q)) q
  = repeat nan (List.length q).
Proof.
  induction q as [| x xs IH]; simpl; [reflexivity |].
  rewrite IH, midpoint_nan_l. reflexivity.
Qed.

Lemma map2_rel_entr_nan_l n :
  map2 rel_entr (repeat nan n) (repeat nan n) = repeat nan n.
Proof.
  induction n as [| n IH]; simpl; [reflexivity |].
  rewrite IH. reflexivity.
Qed.

Lemma map2_rel_entr_nan_r q :
  map2 rel_entr q (repeat nan (List.length q))
  = repeat nan (List.length q).
Proof.
  induction q as [| x xs IH]; simpl; [reflexivity |].
  rewrite IH, rel_entr_nan_r. reflexivity.
Qed.

(** An array of [STEPS] NaN is at distance NaN of every array. *)
Lemma jensenshannon_nan q :
  List.length q = STEPS -> jensenshannon (repeat nan STEPS) q = nan.
Proof.
  intros Hq. unfold jensenshannon. cbv zeta.
  rewrite normalize_nan.
  set (q' := map (fun x => x / np_sum q) q).
  assert (Hq' : List.length q' = STEPS)
    by (unfold q'; rewrite length_map; exact Hq).
  rewrite <- Hq'.
  rewrite map2_midpoint_nan, map2_rel_entr_nan_l, map2_rel_entr_nan_r.
  rewrite Hq'. vm_compute. reflexivity.
Qed.

(** Kernels whose exponents are all below the underflow threshold of [exp]
    are all zero. *)
Lemma evaluate_underflow (k : kde) (points : list float) :
  (forall x, (x <? -750) = true -> exp x = 0) ->
  forallb (fun xj =>
             forallb (fun e => e <? -750)
                     (energies (map (fun x => x / cho_cov k) (dataset k))
                               xj))
          (map (fun x => x / cho_cov k) points) = true ->
  evaluate k points
  = map (fun xj =>
           estimate (pow (2 * pi) (- (1 / 2)) / cho_cov k) (weights k)
                    (map (fun _ => 0)
                         (energies (map (fun x => x / cho_cov k)
                                        (dataset k)) xj)))
        (map (fun x => x / cho_cov k) points).
Proof.
  intros Hexp Hall. unfold evaluate. cbv zeta.
  apply map_ext_in. intros xj Hxj.
  rewrite forallb_forall in Hall. specialize (Hall xj Hxj).
  rewrite forallb_forall in Hall.
  f_equal. apply map_ext_in. intros e He. apply Hexp, Hall, He.
Qed.

Lemma evaluate_length (k : kde) (points : list float) :
  List.length (evaluate k points) = List.length points.
Proof. unfold evaluate. cbv zeta. rewrite !length_map. reflexivity. Qed.

Lemma leb_nan_l x : (nan <=? x) = false.
Proof. rewrite leb_spec. reflexivity. Qed.

(** Zero times a float is a zero or NaN. *)
Lemma mul_zero_l x : 0 * x = 0 \/ 0 * x = -0 \/ 0 * x = nan.
Proof.
  pose proof (mul_spec 0 x) as E. change (Prim2SF 0) with (S754_zero false) in E.
  unfold SF64mul, SFmul in E.
  destruct (Prim2SF x) as [s | s | | s m e]; try destruct s; cbn [xorb] in E.
  all: try (left; apply Prim2SF_inj; rewrite E; reflexivity).
  all: try (right; left; apply Prim2SF_inj; rewrite E; reflexivity).
  all: right; right; apply Prim2SF_inj; rewrite E; reflexivity.
Qed.

(** A list with a NaN key and another item is not in descending order. *)
Lemma descending_nan (l : list (string * float)) (c : string) :
  In (c, nan) l -> (2 <= List.length l)%nat -> ~ descending l.
Proof.
  intros Hin Hlen Hs. unfold descending in Hs.
  inversion Hs as [| a rest _ Hall]; subst; [destruct Hin |].
  destruct Hin as [-> | Hin].
  - destruct rest as [| b rest]; [simpl in Hlen; lia |].
    inversion Hall as [| ? ? Hb _]; subst. simpl in Hb.
    rewrite leb_nan_r in Hb. discriminate.
  - rewrite Forall_forall in Hall. specialize (Hall _ Hin). simpl in Hall.
    rewrite leb_nan_l in Hall. discriminate.
Qed.

(** Two prior values a millionth apart between post values ten apart: the
    distance is NaN. Every kernel of the prior density has an exponent
    below -750 at every point of the grid, so every sampled prior density
    is a zero, or NaN, and so is their sum; line 182 divides the one by
    the other. *)
Lemma numeric_distance_underflow (self : Detector.t) (col : string) :
  libm_facts L ->
  getitem (df_prior self) col
  = Ok (Samples64.ratios [5%Q; (5000001 # 1000000)%Q]) ->
  getitem (df_post self) col = Ok (Samples64.ratios [0%Q; 10%Q]) ->
  numeric_distance self col = inr nan.
Proof.
  intros [Hexp Hscott] Hp Hq. unfold numeric_distance.
  rewrite Hp, Hq. cbn [Py.bind Py.Ok].
  assert (Hnan : forall factor,
             pow 2 (- (1 / 5)) = factor ->
             In factor [next_down scott_two; scott_two; next_up scott_two] ->
             forall z, 0 * (pow (2 * pi) (- (1 / 2))
                            / (sqrt (data_covariance
                                       [5; of_Q (5000001 # 1000000)])
                               * factor)) = z ->
             In z [0; -0; nan] ->
             kde_prior <- gaussian_kde
                            (s_values (Samples64.ratios
                                         [5%Q; (5000001 # 1000000)%Q])) ;;
             kde_post <- gaussian_kde
                           (s_values (Samples64.ratios [0%Q; 10%Q])) ;;
             (let min_ := py_min (min_list (dataset kde_prior))
                                 (min_list (dataset kde_post)) in
              let max_ := py_max (max_list (dataset kde_prior))
                                 (max_list (dataset kde_post)) in
              let range_ := linspace min_ max_ STEPS in
              let arr_prior_ := evaluate kde_prior range_ in
              let arr_post_ := evaluate kde_post range_ in
              let arr_prior :=
                map (fun x => x / np_sum arr_prior_) arr_prior_ in
              let arr_post :=
                map (fun x => x / np_sum arr_post_) arr_post_ in
              Ok (jensenshannon arr_prior arr_post))
             = inr nan).
  { intros factor Hf Hin z Hz Hzin.
    assert (Ep : gaussian_kde
                   (s_values (Samples64.ratios
                                [5%Q; (5000001 # 1000000)%Q]))
                 = inr (mkKde [5; of_Q (5000001 # 1000000)] [1 / 2; 1 / 2]
                              (sqrt (data_covariance
                                       [5; of_Q (5000001 # 1000000)])
                               * factor))).
    { rewrite <- Hf. vm_compute. reflexivity. }
    assert (Eq : gaussian_kde (s_values (Samples64.ratios [0%Q; 10%Q]))
                 = inr (mkKde [0; 10] [1 / 2; 1 / 2]
                              (sqrt (data_covariance [0; 10]) * factor))).
    { rewrite <- Hf. vm_compute. reflexivity. }
    rewrite Ep, Eq. cbn [Py.bind]. cbv zeta.
    set (kp := mkKde _ _ (_ * factor)).
    set (kq := mkKde [0; 10] _ _).
    set (range_ := linspace _ _ STEPS).
    assert (Hlen : List.length range_ = STEPS)
      by (vm_compute; reflexivity).
    assert (Hlow : forallb
                     (fun xj =>
                        forallb (fun e => e <? -750)
                                (energies (map (fun x => x / cho_cov kp)
                                               (dataset kp)) xj))
                     (map (fun x => x / cho_cov kp) range_) = true).
    { subst kp range_.
      destruct Hin as [<- | [<- | [<- | []]]]; vm_compute; reflexivity. }
    rewrite (evaluate_underflow kp range_ Hexp Hlow).
    set (arr_prior_ := map _ (map _ range_)).
    assert (Ea : map (fun x => x / np_sum arr_prior_) arr_prior_
                 = repeat nan STEPS).
    { subst arr_prior_ kp range_. cbn [cho_cov dataset weights].
      destruct Hin as [<- | [<- | [<- | []]]];
        vm_compute; vm_compute in Hz; rewrite !Hz;
        destruct Hzin as [<- | [<- | [<- | []]]];
        vm_compute; reflexivity. }
    rewrite Ea, jensenshannon_nan; [reflexivity |].
    rewrite length_map, evaluate_length. exact Hlen. }
  eapply Hnan; [reflexivity | exact Hscott | reflexivity |].
  destruct (mul_zero_l (pow (2 * pi) (- (1 / 2))
                        / (sqrt (data_covariance
                                   [5; of_Q (5000001 # 1000000)])
                           * pow 2 (- (1 / 5))))) as [-> | [-> | ->]];
    simpl; auto.
Qed.

End NotANumber.

(** The tabulated C library has the values the statements rely on. *)
Lemma libm_table_facts : Scipy64.libm_facts Samples64.libm_table.
Proof.
  split.
  - intros x Hx. simpl. unfold Samples64.table_exp. rewrite Hx.
    reflexivity.
  - right; left. vm_compute. reflexivity.
Defined.

(** C8 (the claim against the code). The detector whose numeric column
    holds 5.0 and 5.000001 in the prior frame and 0.0 and 10.0 in the post
    frame gets a report in which the distance of the column is NaN: every
    sampled prior density underflows, and line 182 divides zero by zero.
    NaN lies in no interval, it compares false with every bound. The C
    library is any whose [exp] is zero below -750 and whose [2 ** -0.2] is
    within one unit in the last place of the nearest float64. *)
Theorem calculate_drift_score_not_a_number
        (L : Binary64.Libm) (S : Drift64.Sorted) :
  Scipy64.libm_facts L ->
  exists d,
    Drift64.calculate_drift Samples64.detector_tight
    = inr (Drift64.mkReport (Drift64.PyDict [])
                            (Drift64.PyList [("x", d)]))
    /\ is_nan d = true
    /\ forall lo hi : float, ((lo <=? d) && (d <=? hi))%float = false.
Proof.
  intros HL. exists nan.
  split; [| split; [reflexivity |
                    intros lo hi; rewrite leb_nan_r; reflexivity]].
  assert (Hd : Drift64.numeric_distance Samples64.detector_tight "x"
               = inr nan)
    by (apply numeric_distance_underflow; [exact HL | reflexivity ..]).
  unfold Drift64.calculate_drift.
  change (numeric_columns Samples64.detector_tight) with ["x"].
  change (categorical_columns Samples64.detector_tight) with (@nil string).
  cbn [Drift64.distances Py.bind Py.Ok]. rewrite Hd.
  cbn [Drift64.distances Drift64.update Py.bind Py.Ok].
  unfold Drift64.rank. cbn [List.length Nat.ltb Nat.leb].
  rewrite (Permutation_length_1_inv
             (Permutation_sym (Drift64.sorted_perm [("x", nan)]))).
  reflexivity.
Qed.

Lemma calculate_drift_score_not_a_number_witness :
  Scipy64.libm_facts Samples64.libm_table /\
  exists d,
    @Drift64.calculate_drift Samples64.libm_table reference_sort
                             Samples64.detector_tight
    = inr (Drift64.mkReport (Drift64.PyDict [])
                            (Drift64.PyList [("x", d)]))
    /\ is_nan d = true
    /\ forall lo hi : float, ((lo <=? d) && (d <=? hi))%float = false.
Proof.
  split; [exact libm_table_facts |].
  exact (calculate_drift_score_not_a_number
           Samples64.libm_table reference_sort libm_table_facts).
Defined.

(* ================================================================== *)
(** * float64: the order of the report *)
(* ================================================================== *)

(** C7 (as stated, refuted). A detector without numeric columns gets an
    empty dict, not an empty list, as the numeric side of its report: the
    guard [len(num_res) > 0] skips [sorted] and leaves the dict the loop
    started from. And a report that holds a NaN distance beside another
    is not in descending order, however [sorted] arranges it: NaN is
    neither less nor greater than the other distance. *)
Lemma calculate_drift_ranking_counterexample :
  (numeric_columns Examples.detector_cat = [] /\
   forall (L : Binary64.Libm) (S : Drift64.Sorted),
   exists r, Drift64.calculate_drift Examples.detector_cat = inr r /\
             Drift64.numerical r = Drift64.PyDict [] /\
             Drift64.numerical r <> Drift64.PyList [])
  /\
  (forall (L : Binary64.Libm) (S : Drift64.Sorted),
      Scipy64.libm_facts L ->
      exists r l,
        Drift64.calculate_drift Samples64.detector_mixed = inr r /\
        Drift64.numerical r = Drift64.PyList l /\
        ~ Drift64.descending l).
Proof.
  split.
  - split; [reflexivity |]. intros L S.
    eexists. split; [reflexivity |]. split; [reflexivity | discriminate].
  - intros L S HL.
    assert (Hx : Drift64.numeric_distance Samples64.detector_mixed "x"
                 = inr nan)
      by (apply numeric_distance_underflow; [exact HL | reflexivity ..]).
    assert (Hy : Drift64.numeric_ready Samples64.detector_mixed "y" = true)
      by (vm_compute; reflexivity).
    apply numeric_distance_returns64 in Hy as (d & Hy).
    unfold Drift64.calculate_drift.
    change (numeric_columns Samples64.detector_mixed) with ["x"; "y"].
    change (categorical_columns Samples64.detector_mixed)
      with (@nil string).
    cbn [Drift64.distances Py.bind Py.Ok]. rewrite Hx.
    cbn [Drift64.distances Py.bind Py.Ok]. rewrite Hy.
    cbn [Drift64.distances Drift64.update Py.bind Py.Ok
         String.eqb Ascii.eqb Bool.eqb].
    unfold Drift64.rank. cbn [List.length Nat.ltb Nat.leb].
    eexists. eexists. split; [reflexivity |]. split; [reflexivity |].
    pose proof (Drift64.sorted_perm [("x", nan); ("y", d)]) as Hperm.
    apply (descending_nan _ "x").
    + eapply Permutation_in; [symmetry; exact Hperm | left; reflexivity].
    + rewrite (Permutation_length Hperm). simpl. lia.
Qed.

(** C7 (amended). When [calculate_drift] returns, each side of the report
    covers the distinct columns of its role with their distances. A side
    without columns is an empty dict. A side with at least one column is a
    list holding each column once; when none of its distances is NaN the
    list is sorted by descending distance with ties in the order of the
    column list. With a NaN among the distances, which compares false with
    every number, [sorted] promises no order. *)
Theorem calculate_drift_ranking_without_nan
        (L : Binary64.Libm) (S : Drift64.Sorted)
        (self : Detector.t) (r : Drift64.report) :
  Drift64.calculate_drift self = inr r ->
  Drift64.ranked (Drift64.categorical_distance self)
                 (categorical_columns self) (Drift64.categorical r)
  /\ Drift64.ranked (Drift64.numeric_distance self)
                    (numeric_columns self) (Drift64.numerical r).
Proof.
  unfold Drift64.calculate_drift. intros E.
  apply bind_ok in E as (cat_res & Ecat & E).
  apply bind_ok in E as (num_res & Enum & E).
  inversion E; subst; simpl.
  split; apply distances_ranked64; assumption.
Qed.

(** C7 (amended), at a detector with two categorical columns: the column
    without a common category is ranked before the one whose frames agree,
    against the order of the column list. *)
Lemma calculate_drift_ranking_without_nan_witness :
  exists r,
    @Drift64.calculate_drift Samples64.libm_table reference_sort
                             Samples64.detector_pair = inr r
    /\ Drift64.categorical r
       = Drift64.PyList [("apart", PrimFloat.sqrt 0x1.62e42fefa39efp-1%float);
                         ("same", 0%float)]
    /\ Drift64.ranked
         (@Drift64.categorical_distance Samples64.libm_table
                                        Samples64.detector_pair)
         ["same"; "apart"] (Drift64.categorical r)
    /\ Drift64.ranked
         (@Drift64.numeric_distance Samples64.libm_table
                                    Samples64.detector_pair)
         [] (Drift64.numerical r).
Proof.
  eexists. split; [vm_compute; reflexivity |].
  split; [vm_compute; reflexivity |].
  apply (calculate_drift_ranking_without_nan
           Samples64.libm_table reference_sort Samples64.detector_pair).
  vm_compute; reflexivity.
Defined.
